(** * dart_tracker: the next-train query of [train_schedule.py]

    A shallow embedding of [get_next_train], [fetch_gtfs_data],
    [extract_gtfs_info], [print_gtfs_info] and the command-line entry
    point, and the properties the specification states about them.

    Conventions of the embedding.
    - A table is what [pd.read_csv] returns for a file: a list of records
      with the columns the program uses, in file order.  A cell is a
      [value]: text, a number, or the missing value [NaN] that
      [read_csv] gives an empty cell.  Which cells [read_csv] reads as
      numbers is its business and not modelled: the files of a [World]
      hold the tables already read.  Numbers are integers (a column of
      integers with a missing cell is read as floats of the same values);
      fractions, booleans and files without the columns of the GTFS
      schema are outside the model.
    - A column read from a file is of dtype [object] when one of its
      cells is text, and numeric otherwise.  [read_csv] gives a column
      with text in it no number, only text and [NaN]; the definitions
      are total on columns that mix the two all the same.
    - The process state is a [World]: the files below the extract
      directories, the archive files, the web, the clock, the DataFrame
      objects that are assigned to, and what was printed.
    - Two library calls are taken as parameters of the query: the time
      parser [pd.to_datetime(format='%H:%M:%S', errors='coerce').dt.time]
      on a string, and the single-column [sort_values(by='arrival_time')],
      whose default algorithm ([kind='quicksort']) is documented as not
      stable.  The generic introsort behind that default is modelled in
      [npy_aquicksort].
    - pandas operations follow their behaviour in pandas 2.x: a boolean
      mask selects rows in order into a new frame, [==] with a string is
      [False] at a number and at [NaN], [isin] and the keys of a merge
      match [NaN] with [NaN], an inner merge keeps the order of the left
      rows and refuses a text key column against a numeric one, a sort
      on several columns is stable and puts [NaN] last, [groupby] drops
      the rows whose key is [NaN] and visits the keys in ascending
      order. *)

From Stdlib Require Import String Ascii ZArith Arith Bool Lia List.
From Stdlib Require Import Permutation Sorted OrderedTypeEx.
Import ListNotations.

Set Implicit Arguments.

Local Open Scope string_scope.
Local Open Scope nat_scope.
Local Open Scope list_scope.

(* ================================================================== *)
(** * Data model *)

(** [datetime.time]: compared as the tuple (hour, minute, second,
    microsecond). *)
Record time := mk_time
  { hour : nat; minute : nat; second : nat; microsecond : nat }.

Definition time_compare (a b : time) : comparison :=
  match Nat.compare (hour a) (hour b) with
  | Eq =>
    match Nat.compare (minute a) (minute b) with
    | Eq =>
      match Nat.compare (second a) (second b) with
      | Eq => Nat.compare (microsecond a) (microsecond b)
      | c => c
      end
    | c => c
    end
  | c => c
  end.

(** [a < b] on times. *)
Definition time_ltb (a b : time) : bool :=
  match time_compare a b with Lt => true | _ => false end.

(** [a <= b] on times. *)
Definition time_leb (a b : time) : bool :=
  match time_compare a b with Gt => false | _ => true end.

(** [datetime.datetime]: the date as its proleptic Gregorian ordinal
    ([date.toordinal()]) and the time of day ([datetime.time()]). *)
Record datetime := mk_datetime { toordinal : Z; time_of : time }.

(** The lower-cased [strftime('%A')] of a date, which names a column of
    [calendar.txt]. *)
Inductive weekday :=
  monday | tuesday | wednesday | thursday | friday | saturday | sunday.

(** [date.weekday()] is [(toordinal() + 6) % 7], Monday being 0. *)
Definition current_day_of (d : datetime) : weekday :=
  match ((toordinal d + 6) mod 7)%Z with
  | 0%Z => monday
  | 1%Z => tuesday
  | 2%Z => wednesday
  | 3%Z => thursday
  | 4%Z => friday
  | 5%Z => saturday
  | _ => sunday
  end.

(** A cell of a table read by [pd.read_csv]. *)
Inductive value :=
| Text (s : string)
| Num (z : Z)
| NaN.

Coercion Text : string >-> value.

Definition value_eq_dec (a b : value) : {a = b} + {a <> b}.
Proof. decide equality; [apply string_dec|apply Z.eq_dec]. Defined.

(** Equality of two cells as [isin] and the key match of a merge see it:
    [NaN] matches [NaN], and a number matches no text. *)
Definition value_eqb (a b : value) : bool :=
  match a, b with
  | Text s, Text s' => String.eqb s s'
  | Num z, Num z' => Z.eqb z z'
  | NaN, NaN => true
  | _, _ => false
  end.

(** [cell == s] for a string [s]: [False] at a number and at [NaN]. *)
Definition eq_str (a : value) (s : string) : bool :=
  match a with
  | Text s' => String.eqb s' s
  | _ => false
  end.

(** [cell == z] for an integer [z]: [False] at text and at [NaN]. *)
Definition eq_int (a : value) (z : Z) : bool :=
  match a with
  | Num z' => Z.eqb z' z
  | _ => false
  end.

Definition isna (a : value) : bool :=
  match a with NaN => true | _ => false end.

Definition is_text (a : value) : bool :=
  match a with Text _ => true | _ => false end.

(** The order of the cells of a sort key: numbers by value, text by code
    point, [NaN] after everything ([na_position='last']).  A column holds
    numbers or text; between the two, numbers go first. *)
Definition value_compare (a b : value) : comparison :=
  match a, b with
  | Num z, Num z' => Z.compare z z'
  | Text s, Text s' => String.compare s s'
  | NaN, NaN => Eq
  | Num _, Text _ => Lt
  | Text _, Num _ => Gt
  | _, NaN => Lt
  | NaN, _ => Gt
  end.

Definition value_leb (a b : value) : bool :=
  match value_compare a b with Gt => false | _ => true end.

(** The dtype of a column read from a file is [object] when a cell is
    text. *)
Definition is_object (column : list value) : bool := existsb is_text column.

(** A value of the [arrival_time] column of a DataFrame of stop times: the
    cell read from the file, and after line 105 a [datetime.time] or
    [NaT]. *)
Inductive cell :=
| Read (v : value)
| Time (t : time)
| NaT.

Module Stop.
Record t := mk { stop_id : value; stop_name : value }.
End Stop.

(** Rows over the columns of [stop_times.txt]; [T] is the type of the
    [arrival_time] column: [value] in the file, [cell] in a frame that
    line 105 assigns to, [time] once line 108 kept the later times. *)
Module StopTime.
Record t (T : Type) := mk
  { trip_id : value; arrival_time : T;
    departure_time : value; stop_id : value }.
Arguments mk {T} _ _ _ _.
End StopTime.

Module Trip.
Record t := mk
  { route_id : value; service_id : value;
    trip_id : value; trip_headsign : value }.
End Trip.

Module Calendar.
Record t := mk
  { service_id : value;
    mon : value; tue : value; wed : value; thu : value; fri : value;
    sat : value; sun : value }.

(** [calendar[current_day]] for one row. *)
Definition flag (d : weekday) (c : t) : value :=
  match d with
  | monday => mon c
  | tuesday => tue c
  | wednesday => wed c
  | thursday => thu c
  | friday => fri c
  | saturday => sat c
  | sunday => sun c
  end.
End Calendar.

Module Route.
Record t := mk { route_id : value; route_long_name : value }.
End Route.

(** A row of [upcoming_trains] after the merge with [trips] (line 111). *)
Module Train.
Record t := mk
  { trip_id : value; arrival_time : time; departure_time : value;
    stop_id : value; route_id : value; service_id : value;
    trip_headsign : value }.
End Train.

(** A printed row: the six columns selected on line 130. *)
Module Departure.
Record t := mk
  { stop_id : value; trip_id : value; arrival_time : time;
    departure_time : value; route_id : value; trip_headsign : value }.
End Departure.

Definition departure_of (r : Train.t) : Departure.t :=
  Departure.mk (Train.stop_id r) (Train.trip_id r) (Train.arrival_time r)
               (Train.departure_time r) (Train.route_id r)
               (Train.trip_headsign r).

(* ================================================================== *)
(** * The process state *)

(** The tables [pd.read_csv] gives for the files of one extract
    directory; [None] is a missing file. *)
Record Feed := mk_feed
  { stops_txt : option (list Stop.t);
    routes_txt : option (list Route.t);
    trips_txt : option (list Trip.t);
    stop_times_txt : option (list (StopTime.t value));
    calendar_txt : option (list Calendar.t) }.

(** The bytes of a downloaded or saved file: a ZIP archive of feed files, or
    something [zipfile] refuses. *)
Inductive blob :=
| ZipOf (members : Feed)
| NotZip.

Record response := mk_response { status_code : Z; content : blob }.

(** What [print] wrote, one entry per call. *)
Inductive output :=
| NoStationFound (station_name : string)
    (* line 97: "No station found with name: {station_name}" *)
| StationFound (station_name : string) (station_stop_ids : list value)
    (* line 121: "Station '{station_name}' found with stop IDs: [...]" *)
| NextTrains (station_name : string)
    (* line 129: "Next trains headed to {station_name}:" *)
| Table (rows : list Departure.t)
    (* line 130: the frame restricted to six columns *)
| Saved (path : string)
    (* line 152: "GTFS data saved to {path}" *)
| FailedDownload (status : Z)
    (* line 154: "Failed to download GTFS data: {status_code}" *)
| Info (text : string)
    (* lines 40-42 and the captions of [print_gtfs_info] *)
| HeadStops (rows : list Stop.t)
| HeadRoutes (rows : list Route.t)
| HeadTrips (rows : list Trip.t)
| HeadStopTimes (rows : list (StopTime.t value)).

Record World := mk_world
  { dirs : string -> Feed;            (* extracted files, by directory *)
    archives : string -> option blob; (* other files, by path *)
    read_only : string -> bool;       (* paths [open(path, "wb")] refuses *)
    web : string -> option response;  (* the answer to a GET, if any *)
    requested : list string;          (* the GETs made so far *)
    clock : datetime;                 (* what [datetime.now()] reads *)
    heap : list (list (StopTime.t cell)); (* DataFrames assigned to *)
    stdout : list output }.

Inductive exn :=
| FileNotFoundError (path : string)
| BadZipFile
| TypeError        (* line 108: a datetime64 column against a time *)
| ValueError       (* line 111: a text key column against a numeric one *)
| RequestException (* line 148: the request got no answer *)
| OSError (path : string). (* line 149: the file cannot be written *)

Inductive result (A : Type) :=
| Ok (a : A) (w : World)
| Raise (e : exn) (w : World).
Arguments Raise {A} _ _.

(** The world a run ends in. *)
Definition final {A} (r : result A) : World :=
  match r with Ok _ w => w | Raise _ w => w end.

Definition M (A : Type) := World -> result A.

Definition ret {A} (a : A) : M A := fun w => Ok a w.

Definition bind {A B} (m : M A) (k : A -> M B) : M B :=
  fun w => match m w with
           | Ok a w' => k a w'
           | Raise e w' => Raise e w'
           end.

Definition raise {A} (e : exn) : M A := fun w => Raise e w.

Notation "x <- m ;; k" := (bind m (fun x => k))
  (at level 61, m at next level, right associativity).
Notation "m ;;; k" := (bind m (fun _ => k))
  (at level 61, right associativity).

(** The world with other DataFrame objects and another output. *)
Definition with_heap_stdout (w : World)
           (h : list (list (StopTime.t cell))) (out : list output) : World :=
  mk_world (dirs w) (archives w) (read_only w) (web w) (requested w)
           (clock w) h out.

Definition print (o : output) : M unit :=
  fun w => Ok tt (with_heap_stdout w (heap w) (stdout w ++ [o])).

Definition datetime_now : M datetime := fun w => Ok (clock w) w.

(** [os.path.join(extract_path, name)]. *)
Definition path_join (dir name : string) : string :=
  (dir ++ "/" ++ name)%string.

(** [pd.read_csv] of one file of the directory. *)
Definition read_csv {A} (file : Feed -> option A) (name : string)
           (extract_path : string) : M A :=
  fun w => match file (dirs w extract_path) with
           | Some rows => Ok rows w
           | None => Raise (FileNotFoundError (path_join extract_path name)) w
           end.

(** ** DataFrame objects over stop times *)

Definition ref := nat.

(** A new DataFrame object. *)
Definition alloc (rows : list (StopTime.t cell)) : M ref :=
  fun w => Ok (length (heap w))
              (with_heap_stdout w (heap w ++ [rows]) (stdout w)).

Definition deref (r : ref) : M (list (StopTime.t cell)) :=
  fun w => Ok (nth r (heap w) []) w.

Fixpoint update {A} (n : nat) (x : A) (l : list A) : list A :=
  match l, n with
  | [], _ => []
  | _ :: l', 0 => x :: l'
  | y :: l', S n' => y :: update n' x l'
  end.

(** The object [r] now holds [rows]; every other object is untouched. *)
Definition store (r : ref) (rows : list (StopTime.t cell)) : M unit :=
  fun w => Ok tt (with_heap_stdout w (update r rows (heap w)) (stdout w)).

(** The cells of [stop_times.txt] as cells of a frame. *)
Definition as_cell (r : StopTime.t value) : StopTime.t cell :=
  StopTime.mk (StopTime.trip_id r) (Read (StopTime.arrival_time r))
              (StopTime.departure_time r) (StopTime.stop_id r).

Definition read_csv_stop_times (extract_path : string) : M ref :=
  rows <- read_csv stop_times_txt "stop_times.txt" extract_path ;;
  alloc (map as_cell rows).

(** [Series.isin(values)] for one cell. *)
Definition isin (x : value) (values : list value) : bool :=
  existsb (value_eqb x) values.

(** Line 101: [stop_times[stop_times['stop_id'].isin(ids)]].  Selecting with
    a boolean mask builds a new object. *)
Definition getitem_isin (df : ref) (ids : list value) : M ref :=
  rows <- deref df ;;
  alloc (filter (fun r => isin (StopTime.stop_id r) ids) rows).

Definition is_NaT (c : cell) : bool :=
  match c with NaT => true | _ => false end.

(** The dtype a column of times gets when it is assigned: the Series
    that [.dt.time] builds holds [datetime.time] objects and [NaT]; it is
    of dtype [object], unless it is not empty and holds nothing but [NaT]:
    then pandas infers [datetime64[ns]]. *)
Definition is_datetime64 (column : list cell) : bool :=
  match column with
  | [] => false
  | _ :: _ => forallb is_NaT column
  end.

(** Line 108 on an [object] column: the comparison with a
    [datetime.time] is [False] at [NaT], and raises [TypeError] at a cell
    that is no time.  The rows kept hold a time. *)
Fixpoint later_than (now : time) (rows : list (StopTime.t cell))
  : option (list (StopTime.t time)) :=
  match rows with
  | [] => Some []
  | r :: rows' =>
    match StopTime.arrival_time r, later_than now rows' with
    | Read NaN, Some kept => Some kept
    | Read _, _ => None
    | _, None => None
    | NaT, Some kept => Some kept
    | Time t, Some kept =>
      if time_ltb now t
      then Some (StopTime.mk (StopTime.trip_id r) t
                             (StopTime.departure_time r)
                             (StopTime.stop_id r) :: kept)
      else Some kept
    end
  end.

(** Line 108: [df[df['arrival_time'] > now]].  A [datetime64[ns]] column
    cannot be compared with a [datetime.time]: [TypeError]. *)
Definition getitem_later (df : ref) (now : time) : M (list (StopTime.t time)) :=
  rows <- deref df ;;
  if is_datetime64 (map (@StopTime.arrival_time cell) rows)
  then raise TypeError
  else match later_than now rows with
       | Some kept => ret kept
       | None => raise TypeError
       end.

(** [df['arrival_time'] = column]: the column of the object itself is
    replaced, row by row. *)
Definition set_arrival_time (rows : list (StopTime.t cell))
           (column : list cell) : list (StopTime.t cell) :=
  map (fun rc => StopTime.mk (StopTime.trip_id (fst rc)) (snd rc)
                             (StopTime.departure_time (fst rc))
                             (StopTime.stop_id (fst rc)))
      (combine rows column).

Definition setitem_arrival_time (df : ref) (column : list cell) : M unit :=
  rows <- deref df ;;
  store df (set_arrival_time rows column).
(* ================================================================== *)
(** * Pure frame operations *)

(** A stable sort: equal rows keep their order. *)
Section StableSort.
Variable A : Type.
Variable le : A -> A -> bool.

Fixpoint insert (x : A) (l : list A) : list A :=
  match l with
  | [] => [x]
  | y :: l' => if le x y then x :: l else y :: insert x l'
  end.

Definition sort_stable (l : list A) : list A := fold_right insert [] l.
End StableSort.


(** [DataFrame.head(n)], that is [iloc[:n]]: all but the last [-n] rows when
    [n] is negative. *)
Definition head {A} (n : Z) (l : list A) : list A :=
  if (0 <=? n)%Z then firstn (Z.to_nat n) l
  else firstn (length l - Z.to_nat (- n)) l.

(** Line 111: [pd.merge(upcoming_trains, trips, on='trip_id')], an inner
    join in the order of the left rows; [NaN] keys match each other. *)
Definition join (l : StopTime.t time) (r : Trip.t) : Train.t :=
  Train.mk (StopTime.trip_id l) (StopTime.arrival_time l)
           (StopTime.departure_time l) (StopTime.stop_id l)
           (Trip.route_id r) (Trip.service_id r) (Trip.trip_headsign r).

Definition merge (left : list (StopTime.t time)) (trips : list Trip.t)
  : list Train.t :=
  flat_map (fun l =>
              map (join l)
                  (filter (fun r => value_eqb (StopTime.trip_id l)
                                              (Trip.trip_id r)) trips))
           left.

(** What [pd.merge] checks of the two key columns before it joins, when
    neither is empty: a column of dtype [object] with text in it does not
    go with a numeric column.  [left_is_object] is the dtype of the left
    column, [left] and [right] are the cells. *)
Definition keys_clash (left_is_object : bool) (left right : list value)
  : bool :=
  match left, right with
  | _ :: _, _ :: _ =>
    (existsb is_text left && negb (is_object right))
    || (negb left_is_object && is_object right)
  | _, _ => false
  end.

Definition pd_merge (left_is_object : bool) (left : list (StopTime.t time))
           (trips : list Trip.t) : M (list Train.t) :=
  if keys_clash left_is_object
                (map (@StopTime.trip_id time) left) (map Trip.trip_id trips)
  then raise ValueError
  else ret (merge left trips).

(** Line 119: the order of [sort_values(by=['trip_headsign',
    'arrival_time'])]. *)
Definition headsign_arrival_leb (a b : Train.t) : bool :=
  match value_compare (Train.trip_headsign a) (Train.trip_headsign b) with
  | Lt => true
  | Eq => time_leb (Train.arrival_time a) (Train.arrival_time b)
  | Gt => false
  end.

Definition arrival_leb (a b : Train.t) : bool :=
  time_leb (Train.arrival_time a) (Train.arrival_time b).

Definition arrival_ltb (a b : Train.t) : bool :=
  time_ltb (Train.arrival_time a) (Train.arrival_time b).

(** The group keys of [groupby('trip_headsign')]: the distinct values
    that are not [NaN] ([dropna=True]), in ascending order. *)
Definition group_keys (df : list Train.t) : list value :=
  sort_stable value_leb
              (nodup value_eq_dec
                     (filter (fun k => negb (isna k))
                             (map Train.trip_headsign df))).

(** The rows of one key. *)
Definition group (k : value) (df : list Train.t) : list Train.t :=
  filter (fun r => value_eqb (Train.trip_headsign r) k) df.

(** Line 124: [groupby('trip_headsign').apply(f).reset_index(drop=True)],
    the pieces concatenated in key order. *)
Definition groupby_apply (f : list Train.t -> list Train.t)
           (df : list Train.t) : list Train.t :=
  flat_map (fun k => f (group k df)) (group_keys df).

(* ================================================================== *)
(** * The default algorithm of a single-column sort

    [sort_values(by=col)] argsorts the column with NumPy's
    [kind='quicksort'].  For an object column that is the generic introsort
    [npy_aquicksort]: median-of-three quicksort with an explicit stack,
    insertion sort on ranges of at most 16 elements, heapsort once the
    depth limit is used up.  The rows are moved here as the indices are
    moved there. *)
Section Introsort.
Variable A : Type.
Variable lt : A -> A -> bool.
Variable d : A.

Definition get (a : list A) (i : nat) : A := nth i a d.

(** [INTP_SWAP(a[i], a[j])] *)
Definition swap (a : list A) (i j : nat) : list A :=
  update i (get a j) (update j (get a i) a).

(** The three ordering steps before a partition. *)
Definition median3 (a : list A) (pl pm pr : nat) : list A :=
  let a := if lt (get a pm) (get a pl) then swap a pm pl else a in
  let a := if lt (get a pr) (get a pm) then swap a pr pm else a in
  if lt (get a pm) (get a pl) then swap a pm pl else a.

(** [do ++pi; while (a[pi] < vp)] *)
Fixpoint scan_up (fuel : nat) (a : list A) (vp : A) (pi : nat) : nat :=
  match fuel with
  | 0 => pi
  | S fuel' =>
    let pi := S pi in
    if lt (get a pi) vp then scan_up fuel' a vp pi else pi
  end.

(** [do --pj; while (vp < a[pj])] *)
Fixpoint scan_down (fuel : nat) (a : list A) (vp : A) (pj : nat) : nat :=
  match fuel with
  | 0 => pj
  | S fuel' =>
    let pj := pj - 1 in
    if lt vp (get a pj) then scan_down fuel' a vp pj else pj
  end.

(** The [for (;;)] of the partition; gives the array and [pi]. *)
Fixpoint exchange (fuel : nat) (a : list A) (vp : A) (pi pj : nat)
  : list A * nat :=
  match fuel with
  | 0 => (a, pi)
  | S fuel' =>
    let pi := scan_up (length a) a vp pi in
    let pj := scan_down (length a) a vp pj in
    if pj <=? pi then (a, pi) else exchange fuel' (swap a pi pj) vp pi pj
  end.

(** One pass of [while ((pr - pl) > SMALL_QUICKSORT)]: the array and the
    position of the pivot. *)
Definition partition (a : list A) (pl pr : nat) : list A * nat :=
  let pm := pl + Nat.div2 (pr - pl) in
  let a := median3 a pl pm pr in
  let vp := get a pm in
  let a := swap a pm (pr - 1) in
  let '(a, pi) := exchange (length a) a vp pl (pr - 1) in
  (swap a pi (pr - 1), pi).

(** The insertion sort of [a[pl..pr]]: [vi] moves left past the elements
    greater than it. *)
Fixpoint sink (fuel : nat) (a : list A) (vi : A) (pl pj : nat) : list A :=
  match fuel with
  | 0 => update pj vi a
  | S fuel' =>
    if (pl <? pj) && lt vi (get a (pj - 1))
    then sink fuel' (update pj (get a (pj - 1)) a) vi pl (pj - 1)
    else update pj vi a
  end.

Fixpoint insertion (count : nat) (a : list A) (pl pi : nat) : list A :=
  match count with
  | 0 => a
  | S count' => insertion count' (sink (length a) a (get a pi) pl pi) pl (S pi)
  end.

(** ** [npy_aheapsort] on a one-based array *)
Definition get1 (a : list A) (i : nat) : A := get a (i - 1).
Definition set1 (a : list A) (i : nat) (x : A) : list A := update (i - 1) x a.

Fixpoint sift (fuel : nat) (a : list A) (tmp : A) (i j n : nat) : list A :=
  match fuel with
  | 0 => set1 a i tmp
  | S fuel' =>
    if j <=? n then
      let j := if (j <? n) && lt (get1 a j) (get1 a (j + 1))
               then j + 1 else j in
      if lt tmp (get1 a j)
      then sift fuel' (set1 a i (get1 a j)) tmp j (j + j) n
      else set1 a i tmp
    else set1 a i tmp
  end.

(** [for (l = n >> 1; l > 0; --l)] *)
Fixpoint heapify (l : nat) (a : list A) (n : nat) : list A :=
  match l with
  | 0 => a
  | S l' => heapify l' (sift (length a) a (get1 a l) l (l + l) n) n
  end.

(** [for (; n > 1;)] *)
Fixpoint extract (fuel : nat) (a : list A) (n : nat) : list A :=
  match fuel with
  | 0 => a
  | S fuel' =>
    if 1 <? n then
      let tmp := get1 a n in
      let a := set1 a n (get1 a 1) in
      extract fuel' (sift (length a) a tmp 1 2 (n - 1)) (n - 1)
    else a
  end.

Definition aheapsort (a : list A) : list A :=
  let n := length a in
  extract n (heapify (Nat.div2 n) a n) n.

(** Heapsort of [a[pl..pr]] in place. *)
Definition heapsort_range (a : list A) (pl pr : nat) : list A :=
  firstn pl a ++ aheapsort (firstn (pr - pl + 1) (skipn pl a))
         ++ skipn (pr + 1) a.

(** ** The driver *)

(** The inner [while]: partitions as long as [pr - pl] is more than
    [SMALL_QUICKSORT], which is 15, so as long as the range holds more
    than 16 elements; it pushes the larger part and the depth left. *)
Fixpoint quick (fuel : nat) (a : list A) (pl pr : nat) (cdepth : Z)
         (stack : list (nat * nat * Z))
  : list A * nat * nat * Z * list (nat * nat * Z) :=
  match fuel with
  | 0 => (a, pl, pr, cdepth, stack)
  | S fuel' =>
    if 15 <? pr - pl then
      let '(a, pi) := partition a pl pr in
      let cdepth := (cdepth - 1)%Z in
      if pi - pl <? pr - pi
      then quick fuel' a pl (pi - 1) cdepth ((pi + 1, pr, cdepth) :: stack)
      else quick fuel' a (pi + 1) pr cdepth ((pl, pi - 1, cdepth) :: stack)
    else (a, pl, pr, cdepth, stack)
  end.

(** The outer [while (1)]. *)
Fixpoint drive (fuel : nat) (a : list A) (pl pr : nat) (cdepth : Z)
         (stack : list (nat * nat * Z)) : list A :=
  match fuel with
  | 0 => a
  | S fuel' =>
    let '(a, stack) :=
      if (cdepth <? 0)%Z then (heapsort_range a pl pr, stack)
      else
        let '(a, pl, pr, _, stack) :=
          quick (length a) a pl pr cdepth stack in
        (insertion (pr - pl) a pl (S pl), stack) in
    match stack with
    | [] => a
    | (pl, pr, cdepth) :: stack => drive fuel' a pl pr cdepth stack
    end
  end.
End Introsort.

(** The rows of [a] in the order [npy_aquicksort] leaves their indices in;
    [lt] is the comparison of the sort column. *)
Definition npy_aquicksort {A} (lt : A -> A -> bool) (a : list A) : list A :=
  match a with
  | [] => []
  | d :: _ =>
    drive lt d (S (length a)) a 0 (length a - 1)
          (2 * Z.of_nat (Nat.log2 (length a)))%Z []
  end.
(* ================================================================== *)
(** * The query *)

(** The dtype of the [trip_id] column of a frame of stop times. *)
Definition trip_id_is_object (df : ref) : M bool :=
  rows <- deref df ;;
  ret (is_object (map (@StopTime.trip_id cell) rows)).

Section Query.
(** [pd.to_datetime(s, format='%H:%M:%S', errors='coerce').dt.time] on
    one string; [None] is [NaT]. *)
Variable to_time : string -> option time.

(** [sort_values(by='arrival_time')] of line 127, with the default
    [kind]. *)
Variable sort_values_arrival_time : list Train.t -> list Train.t.

(** The same on one cell of the file: text is parsed; a number is
    turned into its decimal string, which the format never matches; a
    missing value has no time. *)
Definition parse (v : value) : option time :=
  match v with
  | Text s => to_time s
  | Num _ => None
  | NaN => None
  end.

(** One value of the parsed column (the column holds the cells of the
    file when line 105 runs). *)
Definition coerce (c : cell) : cell :=
  match c with
  | Read v => match parse v with Some t => Time t | None => NaT end
  | _ => NaT
  end.

(** The right-hand side of line 105. *)
Definition to_datetime_time (df : ref) : M (list cell) :=
  rows <- deref df ;;
  ret (map (fun r => coerce (StopTime.arrival_time r)) rows).

(** Line 94. *)
Definition station_stop_ids_of (stops : list Stop.t) (station_name : string)
  : list value :=
  map Stop.stop_id
      (filter (fun s => eq_str (Stop.stop_name s) station_name) stops).

(** Line 115: the services that run on [current_day]. *)
Definition running (current_day : weekday) (calendar : list Calendar.t)
  : list Calendar.t :=
  filter (fun c => eq_int (Calendar.flag current_day c) 1) calendar.

(** Line 116. *)
Definition in_service (calendar : list Calendar.t) (df : list Train.t)
  : list Train.t :=
  filter (fun r => isin (Train.service_id r)
                        (map Calendar.service_id calendar)) df.

Definition get_next_train (station_name : string)
           (num_trains_per_route : Z) (extract_path : string) : M unit :=
  stops <- read_csv stops_txt "stops.txt" extract_path ;;
  stop_times <- read_csv_stop_times extract_path ;;
  trips <- read_csv trips_txt "trips.txt" extract_path ;;
  calendar <- read_csv calendar_txt "calendar.txt" extract_path ;;
  let station_stop_ids := station_stop_ids_of stops station_name in
  match station_stop_ids with
  | [] => print (NoStationFound station_name)
  | _ :: _ =>
    filtered_stop_times <- getitem_isin stop_times station_stop_ids ;;
    current_time <- datetime_now ;;
    column <- to_datetime_time filtered_stop_times ;;
    setitem_arrival_time filtered_stop_times column ;;;
    upcoming_trains <-
      getitem_later filtered_stop_times (time_of current_time) ;;
    (* a selection of rows keeps the dtype [read_csv] gave the column *)
    left_is_object <- trip_id_is_object stop_times ;;
    upcoming_trains <- pd_merge left_is_object upcoming_trains trips ;;
    let current_day := current_day_of current_time in
    let calendar := running current_day calendar in
    let upcoming_trains := in_service calendar upcoming_trains in
    let upcoming_trains :=
      sort_stable headsign_arrival_leb upcoming_trains in
    print (StationFound station_name station_stop_ids) ;;;
    let next_trains_per_headsign :=
      groupby_apply (head num_trains_per_route) upcoming_trains in
    let next_trains_per_headsign :=
      sort_values_arrival_time next_trains_per_headsign in
    print (NextTrains station_name) ;;;
    print (Table (map departure_of next_trains_per_headsign))
  end.

(** ** The frames of a run, as functions of the files and the clock *)

(** The rows of [stop_times.txt] at the stops of the station (line
    101). *)
Definition station_rows (ids : list value)
           (stop_times : list (StopTime.t value))
  : list (StopTime.t value) :=
  filter (fun r => isin (StopTime.stop_id r) ids) stop_times.

Definition unparsed (r : StopTime.t value) : bool :=
  match parse (StopTime.arrival_time r) with
  | Some _ => false
  | None => true
  end.

(** The station has rows and none of them has a time: the column that
    line 105 assigns is [datetime64[ns]]. *)
Definition no_time (ids : list value) (stop_times : list (StopTime.t value))
  : bool :=
  match station_rows ids stop_times with
  | [] => false
  | _ :: _ => forallb unparsed (station_rows ids stop_times)
  end.

(** The rows of [stop_times.txt] that lines 101 to 108 keep. *)
Definition later_row (ids : list value) (now : time)
           (r : StopTime.t value) : list (StopTime.t time) :=
  if isin (StopTime.stop_id r) ids then
    match parse (StopTime.arrival_time r) with
    | Some t =>
      if time_ltb now t
      then [StopTime.mk (StopTime.trip_id r) t (StopTime.departure_time r)
                        (StopTime.stop_id r)]
      else []
    | None => []
    end
  else [].

Definition later_rows (ids : list value) (now : time)
           (stop_times : list (StopTime.t value))
  : list (StopTime.t time) :=
  flat_map (later_row ids now) stop_times.

(** The merge of line 111 refuses its key columns. *)
Definition merge_refused (ids : list value) (now : time)
           (stop_times : list (StopTime.t value)) (trips : list Trip.t)
  : bool :=
  keys_clash (is_object (map (@StopTime.trip_id value) stop_times))
             (map (@StopTime.trip_id time) (later_rows ids now stop_times))
             (map Trip.trip_id trips).

(** The exception that ends a run that found its station, if any: both
    come before the first line is printed. *)
Definition error_of (ids : list value) (now : datetime)
           (stop_times : list (StopTime.t value)) (trips : list Trip.t)
  : option exn :=
  if no_time ids stop_times then Some TypeError
  else if merge_refused ids (time_of now) stop_times trips
       then Some ValueError
       else None.

(** [upcoming_trains] after line 116. *)
Definition candidates (ids : list value) (now : datetime)
           (stop_times : list (StopTime.t value)) (trips : list Trip.t)
           (calendar : list Calendar.t) : list Train.t :=
  in_service (running (current_day_of now) calendar)
             (merge (later_rows ids (time_of now) stop_times) trips).

(** [next_trains_per_headsign] after line 124. *)
Definition kept (n : Z) (cands : list Train.t) : list Train.t :=
  groupby_apply (head n) (sort_stable headsign_arrival_leb cands).

(** What a run prints once the station was found. *)
Definition found_output (station_name : string) (n : Z)
           (ids : list value) (cands : list Train.t) : list output :=
  [ StationFound station_name ids;
    NextTrains station_name;
    Table (map departure_of (sort_values_arrival_time (kept n cands))) ].

(** The object [filtered_stop_times] after line 105. *)
Definition parsed_frame (ids : list value)
           (stop_times : list (StopTime.t value)) : list (StopTime.t cell) :=
  set_arrival_time
    (filter (fun r => isin (StopTime.stop_id r) ids)
            (map as_cell stop_times))
    (map (fun r => coerce (StopTime.arrival_time r))
         (filter (fun r => isin (StopTime.stop_id r) ids)
                 (map as_cell stop_times))).
End Query.

(* ================================================================== *)
(** * Refreshing the feed, and the entry point *)

Definition gtfs_url : string :=
  "https://www.dart.org/transitdata/latest/google_transit.zip".

(** [home_dir] is written [~]. *)
Definition extract_path : string := "~/Documents/GTFS".
Definition save_path : string := path_join extract_path "dart_gtfs.zip".

(** [requests.get(url)]: one more request made, and the answer of the
    web; a request that gets no answer raises. *)
Definition requests_get (url : string) : M response :=
  fun w =>
    let w' := mk_world (dirs w) (archives w) (read_only w) (web w)
                       (requested w ++ [url]) (clock w) (heap w)
                       (stdout w) in
    match web w url with
    | Some response => Ok response w'
    | None => Raise RequestException w'
    end.

(** [with open(path, "wb") as file: file.write(content)]; [open] raises
    when the file cannot be written. *)
Definition write_file (path : string) (b : blob) : M unit :=
  fun w =>
    if read_only w path then Raise (OSError path) w
    else Ok tt (mk_world (dirs w)
                         (fun p => if String.eqb p path then Some b
                                   else archives w p)
                         (read_only w) (web w) (requested w) (clock w)
                         (heap w) (stdout w)).

Definition fetch_gtfs_data (url path : string) : M unit :=
  response <- requests_get url ;;
  if (status_code response =? 200)%Z
  then write_file path (content response) ;;; print (Saved path)
  else print (FailedDownload (status_code response)).

(** [zipfile.ZipFile(path, 'r')] *)
Definition open_zip (path : string) : M Feed :=
  fun w => match archives w path with
           | None => Raise (FileNotFoundError path) w
           | Some NotZip => Raise BadZipFile w
           | Some (ZipOf members) => Ok members w
           end.

Definition or_else {A} (a b : option A) : option A :=
  match a with Some _ => a | None => b end.

(** The files of a directory after [extractall]: those of the archive,
    and the older ones the archive has no member for. *)
Definition extracted (members old : Feed) : Feed :=
  mk_feed (or_else (stops_txt members) (stops_txt old))
          (or_else (routes_txt members) (routes_txt old))
          (or_else (trips_txt members) (trips_txt old))
          (or_else (stop_times_txt members) (stop_times_txt old))
          (or_else (calendar_txt members) (calendar_txt old)).

(** [zip_ref.extractall(path)]: the members replace the files of their
    names. *)
Definition extractall (members : Feed) (path : string) : M unit :=
  fun w =>
    Ok tt (mk_world
             (fun d => if String.eqb d path
                       then extracted members (dirs w d) else dirs w d)
             (archives w) (read_only w) (web w) (requested w) (clock w)
             (heap w) (stdout w)).

Definition extract_gtfs_info (gtfs_url save_path extract_path : string)
  : M unit :=
  print (Info "GTFS Data Information:") ;;;
  print (Info ("URL: " ++ gtfs_url)%string) ;;;
  print (Info ("Save Path: " ++ save_path)%string) ;;;
  zip_ref <- open_zip save_path ;;
  extractall zip_ref extract_path.

Definition print_gtfs_info : M unit :=
  stops <- read_csv stops_txt "stops.txt" extract_path ;;
  print (Info "Stops:") ;;;
  print (HeadStops (head 5 stops)) ;;;
  routes <- read_csv routes_txt "routes.txt" extract_path ;;
  print (Info "Routes:") ;;;
  print (HeadRoutes (head 5 routes)) ;;;
  trips <- read_csv trips_txt "trips.txt" extract_path ;;
  print (Info "Trips:") ;;;
  print (HeadTrips (head 5 trips)) ;;;
  stop_times <- read_csv stop_times_txt "stop_times.txt" extract_path ;;
  print (Info "Stop Times:") ;;;
  print (HeadStopTimes (head 5 stop_times)).

(** The body of [if __name__ == "__main__"], after the arguments are
    parsed: [--station], [--num_print], [--fetch]. *)
Definition main (to_time : string -> option time)
           (sort_values_arrival_time : list Train.t -> list Train.t)
           (station_name : string) (num_trains_per_route : Z)
           (fetch_data : bool) : M unit :=
  if fetch_data then
    fetch_gtfs_data gtfs_url save_path ;;;
    extract_gtfs_info gtfs_url save_path extract_path ;;;
    print_gtfs_info
  else
    get_next_train to_time sort_values_arrival_time station_name
                   num_trains_per_route extract_path.

(* ================================================================== *)
(** * What is observed of a run *)

(** The four files the query reads are there, with these rows. *)
Definition loaded (w : World) (extract_path : string)
           (stops : list Stop.t) (stop_times : list (StopTime.t value))
           (trips : list Trip.t) (calendar : list Calendar.t) : Prop :=
  stops_txt (dirs w extract_path) = Some stops /\
  stop_times_txt (dirs w extract_path) = Some stop_times /\
  trips_txt (dirs w extract_path) = Some trips /\
  calendar_txt (dirs w extract_path) = Some calendar.

(** What a run printed: the output after the lines that were there. *)
Definition emitted {A} (w : World) (r : result A) : list output :=
  skipn (length (stdout w)) (stdout (final r)).

Definition succeeded {A} (r : result A) : bool :=
  match r with Ok _ _ => true | Raise _ _ => false end.

(** The exception a run ended with. *)
Definition raised {A} (r : result A) : option exn :=
  match r with Ok _ _ => None | Raise e _ => Some e end.

(** The first of the four files that is not there, in the order the
    query reads them. *)
Definition missing (f : Feed) : option string :=
  match stops_txt f, stop_times_txt f, trips_txt f, calendar_txt f with
  | None, _, _, _ => Some "stops.txt"%string
  | _, None, _, _ => Some "stop_times.txt"%string
  | _, _, None, _ => Some "trips.txt"%string
  | _, _, _, None => Some "calendar.txt"%string
  | _, _, _, _ => None
  end.

(** The object built before the missing file was met. *)
Definition built (f : Feed) : list (list (StopTime.t cell)) :=
  match stops_txt f, stop_times_txt f with
  | Some _, Some rows => [map as_cell rows]
  | _, _ => []
  end.

(** [arrival_time == t] for one row. *)
Definition arrives_at (t : time) (r : Train.t) : bool :=
  match time_compare (Train.arrival_time r) t with Eq => true | _ => false end.

(** ** Another table in place of one of the files *)

Definition replace_stop_times (f : Feed)
           (stop_times : list (StopTime.t value)) : Feed :=
  mk_feed (stops_txt f) (routes_txt f) (trips_txt f) (Some stop_times)
          (calendar_txt f).

Definition replace_calendar (f : Feed) (calendar : list Calendar.t) : Feed :=
  mk_feed (stops_txt f) (routes_txt f) (trips_txt f) (stop_times_txt f)
          (Some calendar).

(** The world where the directory [extract_path] holds [f], all else as
    in [w]. *)
Definition with_feed (w : World) (extract_path : string) (f : Feed)
  : World :=
  mk_world (fun d => if String.eqb d extract_path then f else dirs w d)
           (archives w) (read_only w) (web w) (requested w) (clock w)
           (heap w) (stdout w).

(** The world whose [stop_times.txt] under [extract_path] holds
    [stop_times], all else as in [w]. *)
Definition with_stop_times (w : World) (extract_path : string)
           (stop_times : list (StopTime.t value)) : World :=
  with_feed w extract_path
            (replace_stop_times (dirs w extract_path) stop_times).

(** The same for [calendar.txt]. *)
Definition with_calendar (w : World) (extract_path : string)
           (calendar : list Calendar.t) : World :=
  with_feed w extract_path
            (replace_calendar (dirs w extract_path) calendar).
(* ================================================================== *)
(** * Instances of the two library calls *)

(** The format [%H:%M:%S] on ASCII digits: three fields of one or two
    digits between colons, hours up to 23, minutes up to 59, seconds up
    to 61.  A second of 60 or 61 runs over into the next minute, and past
    midnight into the first minute of the day. *)
Definition digit (c : ascii) : option nat :=
  let n := nat_of_ascii c in
  if (48 <=? n) && (n <=? 57) then Some (n - 48) else None.

Definition field (bound : nat) (s : string) : option nat :=
  match s with
  | String a EmptyString =>
    match digit a with
    | Some x => if x <=? bound then Some x else None
    | None => None
    end
  | String a (String b EmptyString) =>
    match digit a, digit b with
    | Some x, Some y =>
      if 10 * x + y <=? bound then Some (10 * x + y) else None
    | _, _ => None
    end
  | _ => None
  end.

Fixpoint fields (s : string) : list string :=
  match s with
  | EmptyString => [EmptyString]
  | String c s' =>
    if Ascii.eqb c ":" then EmptyString :: fields s'
    else match fields s' with
         | f :: fs => String c f :: fs
         | [] => [String c EmptyString]
         end
  end.

(** The time of day [seconds] after midnight. *)
Definition time_of_seconds (seconds : Z) : time :=
  let s := (seconds mod 86400)%Z in
  mk_time (Z.to_nat (s / 3600)) (Z.to_nat ((s / 60) mod 60))
          (Z.to_nat (s mod 60)) 0.

Definition hms (s : string) : option time :=
  match fields s with
  | [h; m; sec] =>
    match field 23 h, field 59 m, field 61 sec with
    | Some h, Some m, Some sec =>
      Some (time_of_seconds (3600 * Z.of_nat h + 60 * Z.of_nat m
                             + Z.of_nat sec))
    | _, _, _ => None
    end
  | _ => None
  end.

(** A stable sort on the arrival time ([kind='stable']). *)
Definition sort_arrival_stable : list Train.t -> list Train.t :=
  sort_stable arrival_leb.

(** The default sort on the arrival time ([kind='quicksort']). *)
Definition sort_arrival_default : list Train.t -> list Train.t :=
  npy_aquicksort arrival_ltb.

(* ================================================================== *)
(** * Worked inputs *)

(** The scenario of the specification: two stops named A, one named B. *)
Definition ex_stops : list Stop.t :=
  [Stop.mk "S1" "A"; Stop.mk "S2" "A"; Stop.mk "S3" "B"].

Definition ex_stop_times : list (StopTime.t value) :=
  [StopTime.mk "T1" (Text "08:00:00") "08:00:30" "S1";
   StopTime.mk "T2" (Text "08:05:00") "08:05:30" "S2";
   StopTime.mk "T3" (Text "08:10:00") "08:10:30" "S3"].

Definition ex_trips : list Trip.t :=
  [Trip.mk "R1" "Svc1" "T1" "North";
   Trip.mk "R1" "Svc1" "T2" "South";
   Trip.mk "R2" "Svc1" "T3" "East";
   Trip.mk "R1" "Svc1" "T4" "North";
   Trip.mk "R1" "Svc2" "T5" "North"].

(** A service that runs from Monday to Friday. *)
Definition ex_calendar : list Calendar.t :=
  [Calendar.mk "Svc1" (Num 1) (Num 1) (Num 1) (Num 1) (Num 1)
               (Num 0) (Num 0)].

Definition no_feed : Feed := mk_feed None None None None None.

(** A world with the given files under [extract_path], nothing else on
    disk, a web that answers 404, and nothing printed yet. *)
Definition world_of (stops : list Stop.t)
           (stop_times : list (StopTime.t value)) (trips : list Trip.t)
           (calendar : list Calendar.t) (now : datetime) : World :=
  mk_world (fun d => if String.eqb d extract_path
                     then mk_feed (Some stops) None (Some trips)
                                  (Some stop_times) (Some calendar)
                     else no_feed)
           (fun _ => None) (fun _ => false)
           (fun _ => Some (mk_response 404 NotZip)) [] now [] [].

(** A Wednesday ([date(2024, 4, 17).toordinal()]), at h:m:s. *)
Definition wednesday_at (h m s : nat) : datetime :=
  mk_datetime 738993 (mk_time h m s 0).

Definition ex_world : World :=
  world_of ex_stops ex_stop_times ex_trips ex_calendar (wednesday_at 7 0 0).

Definition north_0800 : Departure.t :=
  Departure.mk "S1" "T1" (mk_time 8 0 0 0) "08:00:30" "R1" "North".
Definition south_0805 : Departure.t :=
  Departure.mk "S2" "T2" (mk_time 8 5 0 0) "08:05:30" "R1" "South".

(** ** Departures at one time *)

Definition tie_names : list string :=
  ["01"; "02"; "03"; "04"; "05"; "06"; "07"; "08"; "09";
   "10"; "11"; "12"; "13"; "14"; "15"; "16"; "17"; "18"].

(** Trip [Tk] goes to headsign [Hk] and stops at S1 at 08:00:00. *)
Definition tie_stop_times (names : list string) : list (StopTime.t value) :=
  map (fun k => StopTime.mk (Text ("T" ++ k)) (Text "08:00:00")
                            (Text "08:00:00") (Text "S1"))
      names.

Definition tie_trips (names : list string) : list Trip.t :=
  map (fun k => Trip.mk (Text "R1") (Text "Svc1") (Text ("T" ++ k))
                        (Text ("H" ++ k)))
      names.


Definition tie_world_17 : World :=
  world_of ex_stops (tie_stop_times (firstn 17 tie_names))
           (tie_trips (firstn 17 tie_names)) ex_calendar
           (wednesday_at 7 0 0).

(** The headsigns of the printed table, top to bottom. *)
Definition printed_headsigns (out : list output) : list value :=
  flat_map (fun o => match o with
                     | Table rows => map Departure.trip_headsign rows
                     | _ => []
                     end) out.

(** ** Rows without a time, keys of two kinds, a trip without headsign *)

(** The third scenario of the specification: a row at 25:30:00. *)
Definition late_row : StopTime.t value :=
  StopTime.mk "T4" (Text "25:30:00") "25:30:30" "S1".

(** The only row of station A is that row. *)
Definition late_world : World :=
  world_of ex_stops [late_row] ex_trips ex_calendar (wednesday_at 7 0 0).

(** [stop_times.txt] numbers its trips, [trips.txt] names them. *)
Definition numbered_stop_times : list (StopTime.t value) :=
  [StopTime.mk (Num 1) (Text "08:00:00") "08:00:30" "S1"].

Definition numbered_world : World :=
  world_of ex_stops numbered_stop_times ex_trips ex_calendar
           (wednesday_at 7 0 0).

(** Trip T1 has no headsign. *)
Definition unsigned_trips : list Trip.t :=
  [Trip.mk "R1" "Svc1" "T1" NaN; Trip.mk "R1" "Svc1" "T2" "South"].

Definition unsigned_world : World :=
  world_of ex_stops ex_stop_times unsigned_trips ex_calendar
           (wednesday_at 7 0 0).

(** ** Worlds for a refresh *)

(** A machine where nothing was downloaded yet, and a web that answers
    404. *)
Definition fresh_world : World :=
  mk_world (fun _ => no_feed) (fun _ => None) (fun _ => false)
           (fun _ => Some (mk_response 404 NotZip)) []
           (wednesday_at 7 0 0) [] [].

(** What [print_gtfs_info] prints of four tables. *)
Definition info_output (stops : list Stop.t) (routes : list Route.t)
           (trips : list Trip.t) (stop_times : list (StopTime.t value))
  : list output :=
  [ Info "Stops:"; HeadStops (firstn 5 stops);
    Info "Routes:"; HeadRoutes (firstn 5 routes);
    Info "Trips:"; HeadTrips (firstn 5 trips);
    Info "Stop Times:"; HeadStopTimes (firstn 5 stop_times) ].

(** The three lines [extract_gtfs_info] starts with. *)
Definition extract_output (gtfs_url save_path : string) : list output :=
  [ Info "GTFS Data Information:";
    Info ("URL: " ++ gtfs_url)%string;
    Info ("Save Path: " ++ save_path)%string ].

Definition ex_routes : list Route.t :=
  [Route.mk "R1" "Red Line"; Route.mk "R2" "Blue Line"].

(** An archive with the five files, one without [calendar.txt], one
    without [routes.txt]. *)
Definition ex_archive : Feed :=
  mk_feed (Some ex_stops) (Some ex_routes) (Some ex_trips)
          (Some ex_stop_times) (Some ex_calendar).

Definition ex_archive_no_calendar : Feed :=
  mk_feed (Some ex_stops) (Some ex_routes) (Some ex_trips)
          (Some ex_stop_times) None.

Definition ex_archive_no_routes : Feed :=
  mk_feed (Some ex_stops) None (Some ex_trips) (Some ex_stop_times)
          (Some ex_calendar).

(** A machine where nothing was downloaded yet, and a web that gives
    [answer]. *)
Definition web_world (answer : response) : World :=
  mk_world (fun _ => no_feed) (fun _ => None) (fun _ => false)
           (fun _ => Some answer) [] (wednesday_at 7 0 0) [] [].

(** The same machine without a network, and with a download directory
    that cannot be written. *)
Definition offline_world : World :=
  mk_world (fun _ => no_feed) (fun _ => None) (fun _ => false)
           (fun _ => None) [] (wednesday_at 7 0 0) [] [].

Definition locked_world (answer : response) : World :=
  mk_world (fun _ => no_feed) (fun _ => None) (fun _ => true)
           (fun _ => Some answer) [] (wednesday_at 7 0 0) [] [].
(* ================================================================== *)
(** * Facts about the orders *)

Lemma time_compare_refl (a : time) : time_compare a a = Eq.
Proof.
  unfold time_compare. now rewrite !Nat.compare_refl.
Qed.

Lemma time_compare_eq (a b : time) : time_compare a b = Eq -> a = b.
Proof.
  destruct a as [h1 m1 s1 u1], b as [h2 m2 s2 u2].
  unfold time_compare; simpl.
  destruct (Nat.compare_spec h1 h2); try discriminate.
  destruct (Nat.compare_spec m1 m2); try discriminate.
  destruct (Nat.compare_spec s1 s2); try discriminate.
  destruct (Nat.compare_spec u1 u2); try discriminate.
  intros _. now subst.
Qed.

Lemma time_compare_antisym (a b : time) :
  time_compare b a = CompOpp (time_compare a b).
Proof.
  unfold time_compare.
  rewrite (Nat.compare_antisym (hour a) (hour b)).
  rewrite (Nat.compare_antisym (minute a) (minute b)).
  rewrite (Nat.compare_antisym (second a) (second b)).
  rewrite (Nat.compare_antisym (microsecond a) (microsecond b)).
  destruct (Nat.compare (hour a) (hour b)); simpl; auto.
  destruct (Nat.compare (minute a) (minute b)); simpl; auto.
  destruct (Nat.compare (second a) (second b)); simpl; auto.
Qed.

Lemma time_ltb_leb (a b : time) : time_ltb a b = negb (time_leb b a).
Proof.
  unfold time_ltb, time_leb. rewrite (time_compare_antisym a b).
  now destruct (time_compare a b).
Qed.

Lemma time_leb_refl (a : time) : time_leb a a = true.
Proof. unfold time_leb. now rewrite time_compare_refl. Qed.

Lemma time_leb_total (a b : time) :
  time_leb a b = true \/ time_leb b a = true.
Proof.
  unfold time_leb. rewrite (time_compare_antisym a b).
  destruct (time_compare a b); simpl; auto.
Qed.

Lemma time_compare_lt_trans (a b c : time) :
  time_compare a b = Lt -> time_compare b c = Lt -> time_compare a c = Lt.
Proof.
  destruct a as [h1 m1 s1 u1], b as [h2 m2 s2 u2], c as [h3 m3 s3 u3].
  unfold time_compare; simpl.
  repeat match goal with
         | |- context [Nat.compare ?x ?y] =>
           destruct (Nat.compare_spec x y); subst
         end; intros; try discriminate; try reflexivity; lia.
Qed.

Lemma time_leb_trans (a b c : time) :
  time_leb a b = true -> time_leb b c = true -> time_leb a c = true.
Proof.
  unfold time_leb.
  destruct (time_compare a b) eqn:Eab; try discriminate;
    destruct (time_compare b c) eqn:Ebc; try discriminate; intros _ _.
  - apply time_compare_eq in Eab, Ebc. subst. now rewrite time_compare_refl.
  - apply time_compare_eq in Eab. subst. now rewrite Ebc.
  - apply time_compare_eq in Ebc. subst. now rewrite Eab.
  - now rewrite (time_compare_lt_trans _ _ _ Eab Ebc).
Qed.

Lemma string_compare_refl (s : string) : String.compare s s = Eq.
Proof. now apply String_as_OT.cmp_eq. Qed.

Lemma string_compare_lt_trans (a b c : string) :
  String.compare a b = Lt -> String.compare b c = Lt ->
  String.compare a c = Lt.
Proof.
  intros H1 H2. apply String_as_OT.cmp_lt.
  apply String_as_OT.cmp_lt in H1, H2.
  eapply String_as_OT.lt_trans; eassumption.
Qed.

Lemma string_leb_trans (a b c : string) :
  String.leb a b = true -> String.leb b c = true -> String.leb a c = true.
Proof.
  unfold String.leb.
  destruct (String.compare a b) eqn:Eab; try discriminate;
    destruct (String.compare b c) eqn:Ebc; try discriminate; intros _ _.
  - apply String.compare_eq_iff in Eab, Ebc. subst.
    now rewrite string_compare_refl.
  - apply String.compare_eq_iff in Eab. subst. now rewrite Ebc.
  - apply String.compare_eq_iff in Ebc. subst. now rewrite Eab.
  - now rewrite (string_compare_lt_trans _ _ _ Eab Ebc).
Qed.

Lemma value_eqb_eq (a b : value) : value_eqb a b = true <-> a = b.
Proof.
  destruct a as [s|z|], b as [s'|z'|]; simpl;
    try (split; [discriminate|congruence]); try tauto.
  - rewrite String.eqb_eq. split; congruence.
  - rewrite Z.eqb_eq. split; congruence.
Qed.

Lemma value_eqb_refl (a : value) : value_eqb a a = true.
Proof. now apply value_eqb_eq. Qed.

Lemma eq_str_eq (a : value) (s : string) : eq_str a s = true <-> a = Text s.
Proof.
  destruct a as [s'|z|]; simpl; try (split; [discriminate|congruence]).
  rewrite String.eqb_eq. split; congruence.
Qed.

Lemma eq_int_eq (a : value) (z : Z) : eq_int a z = true <-> a = Num z.
Proof.
  destruct a as [s|z'|]; simpl; try (split; [discriminate|congruence]).
  rewrite Z.eqb_eq. split; congruence.
Qed.

Lemma value_compare_refl (a : value) : value_compare a a = Eq.
Proof.
  destruct a; simpl; auto using string_compare_refl, Z.compare_refl.
Qed.

Lemma value_compare_eq (a b : value) : value_compare a b = Eq -> a = b.
Proof.
  destruct a as [s|z|], b as [s'|z'|]; simpl; try discriminate; auto.
  - intros H. apply String.compare_eq_iff in H. congruence.
  - intros H. apply Z.compare_eq in H. congruence.
Qed.

Lemma value_compare_antisym (a b : value) :
  value_compare b a = CompOpp (value_compare a b).
Proof.
  destruct a as [s|z|], b as [s'|z'|]; simpl; auto.
  - apply String.compare_antisym.
  - apply Z.compare_antisym.
Qed.

Lemma value_compare_lt_trans (a b c : value) :
  value_compare a b = Lt -> value_compare b c = Lt -> value_compare a c = Lt.
Proof.
  destruct a as [s|z|], b as [s'|z'|], c as [s''|z''|]; simpl;
    try discriminate; auto.
  - apply string_compare_lt_trans.
  - rewrite !Z.compare_lt_iff. lia.
Qed.

Lemma value_leb_total (a b : value) :
  value_leb a b = true \/ value_leb b a = true.
Proof.
  unfold value_leb. rewrite (value_compare_antisym a b).
  destruct (value_compare a b); simpl; auto.
Qed.

Lemma value_leb_trans (a b c : value) :
  value_leb a b = true -> value_leb b c = true -> value_leb a c = true.
Proof.
  unfold value_leb.
  destruct (value_compare a b) eqn:Eab; try discriminate;
    destruct (value_compare b c) eqn:Ebc; try discriminate; intros _ _.
  - apply value_compare_eq in Eab, Ebc. subst.
    now rewrite value_compare_refl.
  - apply value_compare_eq in Eab. subst. now rewrite Ebc.
  - apply value_compare_eq in Ebc. subst. now rewrite Eab.
  - now rewrite (value_compare_lt_trans _ _ _ Eab Ebc).
Qed.

Lemma headsign_arrival_leb_total (a b : Train.t) :
  headsign_arrival_leb a b = true \/ headsign_arrival_leb b a = true.
Proof.
  unfold headsign_arrival_leb.
  rewrite (value_compare_antisym (Train.trip_headsign b)).
  destruct (value_compare (Train.trip_headsign b) (Train.trip_headsign a));
    simpl; auto using time_leb_total.
Qed.

Lemma headsign_arrival_leb_trans (a b c : Train.t) :
  headsign_arrival_leb a b = true -> headsign_arrival_leb b c = true ->
  headsign_arrival_leb a c = true.
Proof.
  unfold headsign_arrival_leb.
  destruct (value_compare (Train.trip_headsign a) (Train.trip_headsign b))
    eqn:Eab; try discriminate;
    destruct (value_compare (Train.trip_headsign b) (Train.trip_headsign c))
      eqn:Ebc; try discriminate.
  - apply value_compare_eq in Eab, Ebc. rewrite Eab, Ebc.
    rewrite value_compare_refl. apply time_leb_trans.
  - apply value_compare_eq in Eab. rewrite Eab, Ebc. auto.
  - apply value_compare_eq in Ebc. rewrite <- Ebc, Eab. auto.
  - rewrite (value_compare_lt_trans _ _ _ Eab Ebc). auto.
Qed.

Lemma arrival_leb_total (a b : Train.t) :
  arrival_leb a b = true \/ arrival_leb b a = true.
Proof. apply time_leb_total. Qed.

Lemma arrival_leb_trans (a b c : Train.t) :
  arrival_leb a b = true -> arrival_leb b c = true -> arrival_leb a c = true.
Proof. apply time_leb_trans. Qed.

(* ================================================================== *)
(** * Facts about the stable sort *)

Section SortFacts.
Variable A : Type.
Variable le : A -> A -> bool.
Hypothesis le_total : forall a b, le a b = true \/ le b a = true.
Hypothesis le_trans :
  forall a b c, le a b = true -> le b c = true -> le a c = true.

Let leP (a b : A) : Prop := le a b = true.

Lemma insert_perm (x : A) (l : list A) :
  Permutation (x :: l) (insert le x l).
Proof.
  induction l as [|y l IH]; simpl; auto.
  destruct (le x y); auto.
  rewrite perm_swap. now apply perm_skip.
Qed.

Lemma sort_stable_perm (l : list A) : Permutation l (sort_stable le l).
Proof.
  induction l as [|x l IH]; simpl; auto.
  rewrite <- insert_perm. now apply perm_skip.
Qed.

Lemma insert_sorted (x : A) (l : list A) :
  StronglySorted leP l -> StronglySorted leP (insert le x l).
Proof.
  induction 1 as [|y l Hs IH Hy]; simpl.
  - repeat constructor.
  - destruct (le x y) eqn:E.
    + constructor; [now constructor|].
      constructor; [exact E|].
      eapply Forall_impl; [|exact Hy]. intros z Hz. eapply le_trans; eauto.
    + constructor; [exact IH|].
      assert (Hyx : leP y x) by (destruct (le_total x y); congruence).
      eapply Permutation_Forall; [apply insert_perm|].
      now constructor.
Qed.

Lemma sort_stable_sorted (l : list A) :
  StronglySorted leP (sort_stable le l).
Proof.
  induction l; simpl; [constructor|now apply insert_sorted].
Qed.

Lemma insert_head (x : A) (l : list A) :
  Forall (leP x) l -> insert le x l = x :: l.
Proof.
  destruct 1 as [|y l Hy _]; simpl; auto. now rewrite Hy.
Qed.

(** A sorted list is left as it is. *)
Lemma sort_stable_id (l : list A) :
  StronglySorted leP l -> sort_stable le l = l.
Proof.
  induction 1 as [|x l Hs IH Hx]; simpl; auto.
  rewrite IH. now apply insert_head.
Qed.

Lemma filter_insert (p : A -> bool) (x : A) (l : list A) :
  StronglySorted leP l ->
  filter p (insert le x l) =
  if p x then insert le x (filter p l) else filter p l.
Proof.
  induction 1 as [|y l Hs IH Hy]; simpl.
  - now destruct (p x).
  - destruct (le x y) eqn:E; simpl.
    + destruct (p x) eqn:Px; auto.
      destruct (p y) eqn:Py; simpl; [now rewrite E|].
      symmetry. apply insert_head.
      apply Forall_forall. intros z Hz. apply filter_In in Hz.
      rewrite Forall_forall in Hy. eapply le_trans; [exact E|].
      apply Hy, Hz.
    + rewrite IH. destruct (p y) eqn:Py; simpl; auto.
      destruct (p x); auto. now rewrite E.
Qed.

(** Selecting rows commutes with the stable sort: the rows selected keep
    the order the sort gave them. *)
Lemma filter_sort_stable (p : A -> bool) (l : list A) :
  filter p (sort_stable le l) = sort_stable le (filter p l).
Proof.
  induction l as [|x l IH]; simpl; auto.
  rewrite filter_insert by apply sort_stable_sorted.
  rewrite IH. now destruct (p x).
Qed.
End SortFacts.

Lemma insert_ext {A} (le le' : A -> A -> bool) (x : A) (l : list A) :
  (forall b, In b l -> le x b = le' x b) -> insert le x l = insert le' x l.
Proof.
  induction l as [|y l IH]; simpl; intros H; auto.
  rewrite <- (H y) by auto. destruct (le x y); auto.
  f_equal. apply IH. auto.
Qed.

(** The sort depends on the order only between the rows sorted. *)
Lemma sort_stable_ext {A} (le le' : A -> A -> bool) (l : list A) :
  (forall a b, In a l -> In b l -> le a b = le' a b) ->
  sort_stable le l = sort_stable le' l.
Proof.
  induction l as [|x l IH]; simpl; intros H; auto.
  rewrite <- IH by auto.
  apply insert_ext. intros b Hb. apply H; auto.
  right. eapply Permutation_in; [symmetry; apply sort_stable_perm|exact Hb].
Qed.

(* ================================================================== *)
(** * Facts about the default sort on few rows

    Up to 16 rows [npy_aquicksort] never partitions: it is the insertion
    sort alone, and gives what the stable sort gives. *)



Section SmallSort.
Variable A : Type.
Variable lt : A -> A -> bool.
Variable d : A.

(** [a <= b] is [not (b < a)]. *)
Let le (a b : A) : bool := negb (lt b a).

Hypothesis le_total : forall a b, le a b = true \/ le b a = true.
Hypothesis le_trans :
  forall a b c, le a b = true -> le b c = true -> le a c = true.







End SmallSort.


(** ** The default sort makes no row up

    Whatever holds of every row given holds of every row returned. *)
Create HintDb closed.

Section Closed.
Variable A : Type.
Variable lt : A -> A -> bool.
Variable d : A.
Variable P : A -> Prop.
Hypothesis Pd : P d.

Lemma get_closed (a : list A) (i : nat) : Forall P a -> P (get d a i).
Proof.
  intros H. unfold get. destruct (nth_in_or_default i a d) as [Hin | ->]; auto.
  rewrite Forall_forall in H. auto.
Qed.

Lemma update_closed (i : nat) (x : A) (a : list A) :
  P x -> Forall P a -> Forall P (update i x a).
Proof.
  intros Hx H. revert i.
  induction H as [|y a Hy Ha IH]; intros [|i]; simpl; constructor; auto.
Qed.

#[local] Hint Resolve get_closed update_closed : closed.

Lemma swap_closed (a : list A) (i j : nat) :
  Forall P a -> Forall P (swap d a i j).
Proof. unfold swap. auto with closed. Qed.

#[local] Hint Resolve swap_closed : closed.

Lemma median3_closed (a : list A) (pl pm pr : nat) :
  Forall P a -> Forall P (median3 lt d a pl pm pr).
Proof.
  intros H. unfold median3.
  repeat match goal with
         | |- context [if ?c then _ else _] => destruct c
         end; auto with closed.
Qed.

Lemma exchange_closed (fuel : nat) :
  forall (a : list A) (vp : A) (pi pj : nat),
    Forall P a -> Forall P (fst (exchange lt d fuel a vp pi pj)).
Proof.
  induction fuel as [|fuel IH]; intros a vp pi pj H; simpl; auto.
  destruct (_ <=? _); simpl; auto with closed.
Qed.

Lemma partition_closed (a : list A) (pl pr : nat) :
  Forall P a -> Forall P (fst (partition lt d a pl pr)).
Proof.
  intros H. unfold partition.
  match goal with
  | |- context [exchange lt d ?f ?b ?vp ?i ?j] =>
    pose proof (@exchange_closed f b vp i j) as He;
      destruct (exchange lt d f b vp i j) as [a' pi']
  end.
  simpl in *. apply swap_closed, He, swap_closed, median3_closed, H.
Qed.

Lemma sink_closed (fuel : nat) :
  forall (a : list A) (vi : A) (pl pj : nat),
    P vi -> Forall P a -> Forall P (sink lt d fuel a vi pl pj).
Proof.
  induction fuel as [|fuel IH]; intros a vi pl pj Hv H; simpl;
    auto with closed.
  destruct (_ && _); auto with closed.
Qed.

Lemma insertion_closed (count : nat) :
  forall (a : list A) (pl pi : nat),
    Forall P a -> Forall P (insertion lt d count a pl pi).
Proof.
  induction count as [|count IH]; intros a pl pi H; simpl; auto.
  apply IH, sink_closed; auto with closed.
Qed.

Lemma set1_closed (a : list A) (i : nat) (x : A) :
  P x -> Forall P a -> Forall P (set1 a i x).
Proof. unfold set1. auto with closed. Qed.

Lemma get1_closed (a : list A) (i : nat) : Forall P a -> P (get1 d a i).
Proof. unfold get1. auto with closed. Qed.

#[local] Hint Resolve set1_closed get1_closed : closed.

Lemma sift_closed (fuel : nat) :
  forall (a : list A) (tmp : A) (i j n : nat),
    P tmp -> Forall P a -> Forall P (sift lt d fuel a tmp i j n).
Proof.
  induction fuel as [|fuel IH]; intros a tmp i j n Ht H; simpl;
    auto with closed.
  destruct (j <=? n); auto with closed.
  match goal with
  | |- context [if lt tmp ?x then _ else _] => destruct (lt tmp x)
  end; auto with closed.
Qed.

Lemma heapify_closed (l : nat) :
  forall (a : list A) (n : nat),
    Forall P a -> Forall P (heapify lt d l a n).
Proof.
  induction l as [|l IH]; intros a n H; simpl; auto.
  apply IH, sift_closed; auto with closed.
Qed.

Lemma extract_closed (fuel : nat) :
  forall (a : list A) (n : nat),
    Forall P a -> Forall P (extract lt d fuel a n).
Proof.
  induction fuel as [|fuel IH]; intros a n H; simpl; auto.
  destruct (1 <? n); auto.
  apply IH, sift_closed; auto with closed.
Qed.

Lemma heapsort_range_closed (a : list A) (pl pr : nat) :
  Forall P a -> Forall P (heapsort_range lt d a pl pr).
Proof.
  intros H. unfold heapsort_range, aheapsort.
  assert (Hf : forall n (l : list A), Forall P l -> Forall P (firstn n l)).
  { intros n l Hl. rewrite Forall_forall in *. intros x Hx.
    apply Hl. rewrite <- (firstn_skipn n l). apply in_or_app. now left. }
  assert (Hs : forall n (l : list A), Forall P l -> Forall P (skipn n l)).
  { intros n l Hl. rewrite Forall_forall in *. intros x Hx.
    apply Hl. rewrite <- (firstn_skipn n l). apply in_or_app. now right. }
  apply Forall_app. split; [auto|]. apply Forall_app. split; [|auto].
  apply extract_closed, heapify_closed. auto.
Qed.

Lemma quick_closed (fuel : nat) :
  forall (a : list A) (pl pr : nat) (cdepth : Z) stack,
    Forall P a ->
    Forall P (fst (fst (fst (fst (quick lt d fuel a pl pr cdepth stack))))).
Proof.
  induction fuel as [|fuel IH]; intros a pl pr cdepth stack H; simpl; auto.
  destruct (15 <? pr - pl); simpl; auto.
  pose proof (partition_closed pl pr H) as Hp.
  destruct (partition lt d a pl pr) as [a' pi]. simpl in Hp.
  destruct (pi - pl <? pr - pi); apply IH, Hp.
Qed.

Lemma drive_closed (fuel : nat) :
  forall (a : list A) (pl pr : nat) (cdepth : Z) stack,
    Forall P a -> Forall P (drive lt d fuel a pl pr cdepth stack).
Proof.
  induction fuel as [|fuel IH]; intros a pl pr cdepth stack H; simpl; auto.
  destruct (cdepth <? 0)%Z.
  - pose proof (heapsort_range_closed pl pr H).
    destruct stack as [|[[pl' pr'] c'] stack]; auto.
  - pose proof (@quick_closed (length a) a pl pr cdepth stack H) as Hq.
    destruct (quick lt d (length a) a pl pr cdepth stack)
      as [[[[a' pl'] pr'] c'] stack'].
    simpl in Hq. pose proof (@insertion_closed (pr' - pl') a' pl' (S pl') Hq).
    destruct stack' as [|[[pl2 pr2] c2] stack2]; auto.
Qed.
End Closed.

(** The rows the default sort returns are rows it was given. *)
Lemma npy_aquicksort_incl {A} (lt : A -> A -> bool) (l : list A) (x : A) :
  In x (npy_aquicksort lt l) -> In x l.
Proof.
  destruct l as [|d l]; auto.
  assert (H : Forall (fun x => In x (d :: l)) (npy_aquicksort lt (d :: l))).
  { unfold npy_aquicksort. apply drive_closed.
    - now left.
    - apply Forall_forall. auto. }
  rewrite Forall_forall in H. apply H.
Qed.

(** The default sort on numbers paired with their positions: twenty rows
    come out in order; sixteen rows with one key keep their positions,
    seventeen do not. *)
Example npy_aquicksort_orders :
  map fst (npy_aquicksort (fun a b => fst a <? fst b)
                          (combine [13; 2; 19; 7; 7; 0; 16; 5; 11; 3;
                                    18; 9; 1; 14; 6; 12; 4; 17; 8; 10]
                                   (seq 0 20))) =
  [0; 1; 2; 3; 4; 5; 6; 7; 7; 8; 9; 10; 11; 12; 13; 14; 16; 17; 18; 19].
Proof. vm_compute. reflexivity. Qed.

Example npy_aquicksort_ties :
  map snd (npy_aquicksort (fun a b => fst a <? fst b)
                          (combine (repeat 0 16) (seq 0 16))) = seq 0 16 /\
  map snd (npy_aquicksort (fun a b => fst a <? fst b)
                          (combine (repeat 0 17) (seq 0 17))) =
  [0; 14; 13; 12; 11; 10; 9; 15; 8; 6; 5; 4; 3; 2; 1; 7; 16] /\
  map snd (npy_aquicksort (fun a b => fst a <? fst b)
                          (combine (repeat 0 18) (seq 0 18))) =
  [0; 15; 14; 13; 12; 11; 10; 9; 8; 7; 6; 5; 4; 3; 2; 1; 16; 17].
Proof. repeat split; vm_compute; reflexivity. Qed.

(* ================================================================== *)
(** * Facts about the frame operations *)

Lemma head_incl {A} (n : Z) (l : list A) (x : A) :
  In x (head n l) -> In x l.
Proof.
  unfold head. destruct (0 <=? n)%Z; intros H.
  - rewrite <- (firstn_skipn (Z.to_nat n) l). apply in_or_app. now left.
  - rewrite <- (firstn_skipn (length l - Z.to_nat (- n)) l).
    apply in_or_app. now left.
Qed.

Lemma head_nil {A} (n : Z) : head n (@nil A) = [].
Proof. unfold head. destruct (0 <=? n)%Z; now rewrite firstn_nil. Qed.

Lemma head_0 {A} (l : list A) : head 0 l = [].
Proof. reflexivity. Qed.

Lemma head_firstn {A} (n : Z) (l : list A) :
  (0 <= n)%Z -> head n l = firstn (Z.to_nat n) l.
Proof.
  intros H. unfold head. apply Z.leb_le in H. now rewrite H.
Qed.

Lemma group_all (h : value) (l : list Train.t) :
  (forall r, In r l -> Train.trip_headsign r = h) -> group h l = l.
Proof.
  induction l as [|x l IH]; simpl; intros H; auto.
  rewrite (H x) by auto. rewrite value_eqb_refl. f_equal. apply IH. auto.
Qed.

Lemma group_none (h : value) (l : list Train.t) :
  (forall r, In r l -> Train.trip_headsign r <> h) -> group h l = [].
Proof.
  induction l as [|x l IH]; simpl; intros H; auto.
  destruct (value_eqb (Train.trip_headsign x) h) eqn:E.
  - exfalso. apply value_eqb_eq in E. apply (H x); auto.
  - apply IH. auto.
Qed.

Lemma group_In (h : value) (l : list Train.t) (r : Train.t) :
  In r (group h l) <-> In r l /\ Train.trip_headsign r = h.
Proof.
  unfold group. rewrite filter_In. now rewrite value_eqb_eq.
Qed.

(** Pieces that each hold one headsign, concatenated over distinct keys:
    the rows of a headsign are its piece. *)
Lemma group_pieces (h : value) (piece : value -> list Train.t)
      (keys : list value) :
  (forall k r, In r (piece k) -> Train.trip_headsign r = k) ->
  NoDup keys ->
  group h (flat_map piece keys) =
  if in_dec value_eq_dec h keys then piece h else [].
Proof.
  intros Hp. induction 1 as [|k keys Hk Hnd IH]; auto.
  cbn [flat_map]. unfold group in *. rewrite filter_app, IH.
  destruct (value_eq_dec k h) as [E|E].
  - subst k. fold (group h (piece h)). rewrite group_all by apply Hp.
    destruct (in_dec value_eq_dec h (h :: keys)) as [_|N];
      [|exfalso; apply N; now left].
    destruct (in_dec value_eq_dec h keys); [contradiction|apply app_nil_r].
  - fold (group h (piece k)). rewrite group_none.
    2:{ intros r Hr. rewrite (Hp _ _ Hr). exact E. }
    destruct (in_dec value_eq_dec h keys) as [I|N];
      destruct (in_dec value_eq_dec h (k :: keys)) as [I'|N']; auto.
    + exfalso. apply N'. now right.
    + destruct I' as [I'|I']; [congruence|contradiction].
Qed.

Lemma group_keys_NoDup (df : list Train.t) : NoDup (group_keys df).
Proof.
  unfold group_keys.
  eapply Permutation_NoDup; [apply sort_stable_perm|apply NoDup_nodup].
Qed.

(** The keys are the headsigns of the frame that are not missing. *)
Lemma group_keys_In (df : list Train.t) (h : value) :
  In h (group_keys df) <-> In h (map Train.trip_headsign df) /\ h <> NaN.
Proof.
  unfold group_keys.
  assert (E : In h (filter (fun k => negb (isna k))
                           (map Train.trip_headsign df)) <->
              In h (map Train.trip_headsign df) /\ h <> NaN).
  { rewrite filter_In. destruct h; simpl; split; intros [H1 H2];
      split; auto; try discriminate; congruence. }
  rewrite <- E. split; intros H.
  - eapply nodup_In.
    eapply Permutation_in; [symmetry; apply sort_stable_perm|exact H].
  - eapply Permutation_in; [apply sort_stable_perm|].
    apply nodup_In, H.
Qed.

(** Line 124 keeps, of each headsign, the first rows of its group. *)
Lemma group_groupby_head (h : value) (n : Z) (df : list Train.t) :
  h <> NaN ->
  group h (groupby_apply (head n) df) = head n (group h df).
Proof.
  intros Hh. unfold groupby_apply.
  rewrite group_pieces.
  - destruct (in_dec value_eq_dec h (group_keys df)) as [I|N]; auto.
    rewrite group_none; [now rewrite head_nil|].
    intros r Hr E. apply N, group_keys_In. split; auto.
    subst h. now apply in_map.
  - intros k r Hr. apply head_incl, group_In in Hr. tauto.
  - apply group_keys_NoDup.
Qed.

(** It keeps no row without a headsign. *)
Lemma group_groupby_nan (f : list Train.t -> list Train.t)
      (df : list Train.t) :
  (forall l r, In r (f l) -> In r l) ->
  group NaN (groupby_apply f df) = [].
Proof.
  intros Hf. apply group_none. intros r Hr E.
  unfold groupby_apply in Hr. apply in_flat_map in Hr.
  destruct Hr as (k & Hk & Hr). apply Hf, group_In in Hr.
  apply group_keys_In in Hk. destruct Hr as [_ Hr]. destruct Hk as [_ Hk].
  congruence.
Qed.

Lemma groupby_head_incl (n : Z) (df : list Train.t) (r : Train.t) :
  In r (groupby_apply (head n) df) -> In r df.
Proof.
  unfold groupby_apply. rewrite in_flat_map. intros (k & _ & H).
  apply head_incl, group_In in H. tauto.
Qed.

(** After line 119 the rows of one headsign are in the stable order of
    their arrival times. *)
Lemma group_sort (h : value) (df : list Train.t) :
  group h (sort_stable headsign_arrival_leb df) =
  sort_stable arrival_leb (group h df).
Proof.
  unfold group.
  rewrite (filter_sort_stable _ headsign_arrival_leb_total
                              headsign_arrival_leb_trans).
  apply sort_stable_ext. intros a b Ha Hb.
  apply filter_In in Ha, Hb. destruct Ha as [_ Ha], Hb as [_ Hb].
  apply value_eqb_eq in Ha, Hb.
  unfold headsign_arrival_leb, arrival_leb.
  now rewrite Ha, Hb, value_compare_refl.
Qed.

Lemma sort_arrival_stable_ties (t : time) (l : list Train.t) :
  filter (arrives_at t) (sort_stable arrival_leb l) = filter (arrives_at t) l.
Proof.
  rewrite (filter_sort_stable _ arrival_leb_total arrival_leb_trans).
  apply sort_stable_id.
  assert (H : Forall (fun r => Train.arrival_time r = t)
                     (filter (arrives_at t) l)).
  { apply Forall_forall. intros r Hr. apply filter_In in Hr.
    destruct Hr as [_ Hr]. unfold arrives_at in Hr.
    destruct (time_compare (Train.arrival_time r) t) eqn:E; try discriminate.
    now apply time_compare_eq. }
  induction H as [|x l' Hx Hl IH]; constructor; auto.
  apply Forall_forall. intros y Hy. rewrite Forall_forall in Hl.
  unfold arrival_leb. rewrite Hx, (Hl y Hy). apply time_leb_refl.
Qed.

Lemma filter_perm {A} (p : A -> bool) (l l' : list A) :
  Permutation l l' -> Permutation (filter p l) (filter p l').
Proof.
  induction 1 as [|x l l' H IH|x y l|l l' l'' H1 IH1 H2 IH2]; simpl; auto.
  - destruct (p x); auto.
  - destruct (p x), (p y); auto. apply perm_swap.
  - now transitivity (filter p l').
Qed.


Lemma flat_map_nil {A B} (l : list A) :
  flat_map (fun _ : A => @nil B) l = [].
Proof. induction l; auto. Qed.

(* ================================================================== *)
(** * What a run of the query does *)

Lemma update_end {A} (l : list A) (x y : A) :
  update (length l) y (l ++ [x]) = l ++ [y].
Proof. induction l; simpl; congruence. Qed.

Lemma skipn_length_app {A} (l l' : list A) : skipn (length l) (l ++ l') = l'.
Proof. induction l; simpl; auto. Qed.

Lemma emitted_app {A} (w : World) (r : result A) (out : list output) :
  stdout (final r) = stdout w ++ out -> emitted w r = out.
Proof. intros H. unfold emitted. rewrite H. apply skipn_length_app. Qed.

Lemma emitted_nil {A} (w : World) (r : result A) :
  stdout (final r) = stdout w -> emitted w r = [].
Proof. intros H. apply emitted_app. now rewrite app_nil_r. Qed.

Lemma trip_id_as_cell (stop_times : list (StopTime.t value)) :
  map (@StopTime.trip_id cell) (map as_cell stop_times) =
  map (@StopTime.trip_id value) stop_times.
Proof. rewrite map_map. reflexivity. Qed.

Lemma loaded_with_stop_times (w : World) (extract_path : string)
      stops stop_times stop_times' trips calendar :
  loaded w extract_path stops stop_times trips calendar ->
  loaded (with_stop_times w extract_path stop_times') extract_path
         stops stop_times' trips calendar.
Proof.
  unfold loaded, with_stop_times, with_feed. cbn [dirs].
  rewrite String.eqb_refl. cbn. tauto.
Qed.

Lemma loaded_with_calendar (w : World) (extract_path : string)
      stops stop_times trips calendar calendar' :
  loaded w extract_path stops stop_times trips calendar ->
  loaded (with_calendar w extract_path calendar') extract_path
         stops stop_times trips calendar'.
Proof.
  unfold loaded, with_calendar, with_feed. cbn [dirs].
  rewrite String.eqb_refl. cbn. tauto.
Qed.

Section QueryFacts.
Variable to_time : string -> option time.
Variable sort_values_arrival_time : list Train.t -> list Train.t.

Let query := get_next_train to_time sort_values_arrival_time.

(** Line 108 never meets a cell of the file: line 105 replaced them
    all. *)
Lemma later_than_parsed (ids : list value) (now : time)
      (stop_times : list (StopTime.t value)) :
  later_than now (parsed_frame to_time ids stop_times) =
  Some (later_rows to_time ids now stop_times).
Proof.
  unfold parsed_frame, later_rows, set_arrival_time.
  induction stop_times as [|r st IH]; auto.
  cbn [map filter flat_map as_cell StopTime.stop_id].
  unfold later_row at 1.
  destruct (isin (StopTime.stop_id r) ids); [|exact IH].
  cbn [map combine later_than fst snd].
  rewrite IH. unfold as_cell.
  cbn [StopTime.arrival_time StopTime.trip_id StopTime.departure_time
       StopTime.stop_id coerce].
  destruct (parse to_time (StopTime.arrival_time r)) as [t|]; auto.
  now destruct (time_ltb now t).
Qed.

(** The column that line 105 assigns holds nothing but [NaT] exactly when
    no row of the station has a time. *)
Lemma column_parsed (ids : list value)
      (stop_times : list (StopTime.t value)) :
  map (@StopTime.arrival_time cell) (parsed_frame to_time ids stop_times) =
  map (fun r => coerce to_time (Read (StopTime.arrival_time r)))
      (station_rows ids stop_times).
Proof.
  unfold parsed_frame, station_rows, set_arrival_time.
  induction stop_times as [|r st IH]; auto.
  cbn [map filter as_cell StopTime.stop_id].
  destruct (isin (StopTime.stop_id r) ids); [|exact IH].
  cbn [map combine fst snd StopTime.arrival_time]. now rewrite IH.
Qed.

Lemma is_datetime64_parsed (ids : list value)
      (stop_times : list (StopTime.t value)) :
  is_datetime64
    (map (@StopTime.arrival_time cell)
         (parsed_frame to_time ids stop_times)) =
  no_time to_time ids stop_times.
Proof.
  rewrite column_parsed. unfold no_time.
  assert (H : forall l : list (StopTime.t value),
             forallb is_NaT
                     (map (fun r => coerce to_time
                                           (Read (StopTime.arrival_time r)))
                          l) =
             forallb (unparsed to_time) l).
  { induction l as [|x l IH]; auto.
    cbn [map forallb]. rewrite IH. f_equal. unfold unparsed, coerce.
    now destruct (parse to_time (StopTime.arrival_time x)). }
  destruct (station_rows ids stop_times) as [|r rows]; auto.
  apply (H (r :: rows)).
Qed.

Lemma run_not_found (w : World) (station_name : string) (n : Z)
      (extract_path : string) stops stop_times trips calendar :
  loaded w extract_path stops stop_times trips calendar ->
  station_stop_ids_of stops station_name = [] ->
  query station_name n extract_path w =
  Ok tt (with_heap_stdout w (heap w ++ [map as_cell stop_times])
                          (stdout w ++ [NoStationFound station_name])).
Proof.
  intros (H1 & H2 & H3 & H4) Hids.
  unfold query, get_next_train, bind, read_csv_stop_times, read_csv, alloc,
    bind.
  rewrite H1, H2. cbn [dirs with_heap_stdout]. rewrite H3.
  cbn [dirs with_heap_stdout]. rewrite H4, Hids.
  reflexivity.
Qed.

(** The run up to line 111, when the station was found: the objects
    built, and the frame that line 108 gives or the exception. *)
Lemma run_found_or_error (w : World) (station_name : string) (n : Z)
      (extract_path : string) stops stop_times trips calendar :
  loaded w extract_path stops stop_times trips calendar ->
  station_stop_ids_of stops station_name <> [] ->
  let ids := station_stop_ids_of stops station_name in
  let h := heap w ++ [map as_cell stop_times;
                      parsed_frame to_time ids stop_times] in
  query station_name n extract_path w =
  match error_of to_time ids (clock w) stop_times trips with
  | Some e => Raise e (with_heap_stdout w h (stdout w))
  | None =>
    Ok tt (with_heap_stdout w h
             (stdout w ++
                found_output sort_values_arrival_time station_name n ids
                  (candidates to_time ids (clock w) stop_times trips
                              calendar)))
  end.
Proof.
  intros (H1 & H2 & H3 & H4) Hids. cbv zeta.
  unfold query, get_next_train, bind, read_csv_stop_times, read_csv, alloc,
    bind.
  rewrite H1, H2. cbn [dirs with_heap_stdout]. rewrite H3.
  cbn [dirs with_heap_stdout]. rewrite H4.
  destruct (station_stop_ids_of stops station_name) as [|i ids] eqn:E;
    [congruence|].
  unfold getitem_isin, to_datetime_time, setitem_arrival_time,
    getitem_later, trip_id_is_object, datetime_now, deref, alloc, store,
    bind, ret, with_heap_stdout.
  cbn [heap dirs archives read_only web requested clock stdout].
  rewrite !(nth_middle (heap w) [] (map as_cell stop_times) []).
  rewrite !(nth_middle (heap w ++ [map as_cell stop_times]) [] _ []).
  rewrite update_end.
  rewrite !(nth_middle (heap w ++ [map as_cell stop_times]) [] _ []).
  fold (parsed_frame to_time (i :: ids) stop_times).
  rewrite is_datetime64_parsed. unfold error_of.
  destruct (no_time to_time (i :: ids) stop_times).
  { unfold raise. rewrite <- app_assoc. reflexivity. }
  rewrite later_than_parsed.
  cbn [heap dirs archives read_only web requested clock stdout].
  rewrite <- !(app_assoc (heap w)). cbn [app].
  rewrite (nth_middle (heap w) _ (map as_cell stop_times) []).
  rewrite trip_id_as_cell. unfold pd_merge, merge_refused.
  destruct (keys_clash _ _ _).
  { reflexivity. }
  unfold ret, bind, print, with_heap_stdout.
  cbn [heap dirs archives read_only web requested clock stdout].
  unfold found_output, kept, candidates.
  rewrite <- !app_assoc. reflexivity.
Qed.

Lemma run_found (w : World) (station_name : string) (n : Z)
      (extract_path : string) stops stop_times trips calendar :
  loaded w extract_path stops stop_times trips calendar ->
  station_stop_ids_of stops station_name <> [] ->
  error_of to_time (station_stop_ids_of stops station_name) (clock w)
           stop_times trips = None ->
  query station_name n extract_path w =
  Ok tt (with_heap_stdout w
           (heap w ++ [map as_cell stop_times;
                       parsed_frame to_time
                         (station_stop_ids_of stops station_name)
                         stop_times])
           (stdout w ++
              found_output sort_values_arrival_time station_name n
                (station_stop_ids_of stops station_name)
                (candidates to_time
                   (station_stop_ids_of stops station_name)
                   (clock w) stop_times trips calendar))).
Proof.
  intros Hl Hids He.
  rewrite (run_found_or_error _ n Hl Hids). cbv zeta. now rewrite He.
Qed.

Lemma run_error (w : World) (station_name : string) (n : Z)
      (extract_path : string) stops stop_times trips calendar (e : exn) :
  loaded w extract_path stops stop_times trips calendar ->
  station_stop_ids_of stops station_name <> [] ->
  error_of to_time (station_stop_ids_of stops station_name) (clock w)
           stop_times trips = Some e ->
  query station_name n extract_path w =
  Raise e (with_heap_stdout w
             (heap w ++ [map as_cell stop_times;
                         parsed_frame to_time
                           (station_stop_ids_of stops station_name)
                           stop_times])
             (stdout w)).
Proof.
  intros Hl Hids He.
  rewrite (run_found_or_error _ n Hl Hids). cbv zeta. now rewrite He.
Qed.

(** ** A missing file *)

Lemma missing_None (w : World) (extract_path : string) :
  missing (dirs w extract_path) = None ->
  exists stops stop_times trips calendar,
    loaded w extract_path stops stop_times trips calendar.
Proof.
  unfold missing, loaded.
  destruct (stops_txt _) as [a|], (stop_times_txt _) as [b|],
    (trips_txt _) as [c|], (calendar_txt _) as [d|]; try discriminate.
  intros _. now exists a, b, c, d.
Qed.

Lemma loaded_not_missing (w : World) (extract_path : string)
      stops stop_times trips calendar :
  loaded w extract_path stops stop_times trips calendar ->
  missing (dirs w extract_path) = None.
Proof.
  intros (H1 & H2 & H3 & H4). unfold missing. now rewrite H1, H2, H3, H4.
Qed.

Lemma run_missing (w : World) (station_name : string) (n : Z)
      (extract_path name : string) :
  missing (dirs w extract_path) = Some name ->
  query station_name n extract_path w =
  Raise (FileNotFoundError (path_join extract_path name))
        (with_heap_stdout w (heap w ++ built (dirs w extract_path))
                          (stdout w)).
Proof.
  unfold missing, built, query, get_next_train, bind, read_csv_stop_times,
    read_csv, alloc, bind, with_heap_stdout.
  destruct (stops_txt (dirs w extract_path)) as [a|] eqn:E1.
  2:{ intros [= <-]. rewrite app_nil_r. now destruct w. }
  destruct (stop_times_txt (dirs w extract_path)) as [b|] eqn:E2.
  2:{ intros [= <-]. rewrite app_nil_r. now destruct w. }
  cbn [dirs].
  destruct (trips_txt (dirs w extract_path)) as [c|] eqn:E3.
  2:{ now intros [= <-]. }
  cbn [dirs].
  destruct (calendar_txt (dirs w extract_path)) as [d|] eqn:E4.
  - discriminate.
  - now intros [= <-].
Qed.

(** ** How a run ends, and what it printed *)

(** The exception of a run on four files that are there. *)
Lemma raised_loaded (w : World) (station_name : string) (n : Z)
      (extract_path : string) stops stop_times trips calendar :
  loaded w extract_path stops stop_times trips calendar ->
  raised (query station_name n extract_path w) =
  match station_stop_ids_of stops station_name with
  | [] => None
  | ids => error_of to_time ids (clock w) stop_times trips
  end.
Proof.
  intros Hl.
  destruct (station_stop_ids_of stops station_name) as [|i ids] eqn:E.
  - now rewrite (run_not_found _ n Hl E).
  - assert (Hne : station_stop_ids_of stops station_name <> [])
      by (rewrite E; discriminate).
    rewrite (run_found_or_error _ n Hl Hne). cbv zeta. rewrite E.
    now destruct (error_of _ _ _ _ _).
Qed.

Lemma succeeded_raised {A} (r : result A) :
  succeeded r = true <-> raised r = None.
Proof. destruct r; simpl; split; congruence. Qed.

Lemma emitted_not_found (w : World) (station_name : string) (n : Z)
      (extract_path : string) stops stop_times trips calendar :
  loaded w extract_path stops stop_times trips calendar ->
  station_stop_ids_of stops station_name = [] ->
  emitted w (query station_name n extract_path w) =
  [NoStationFound station_name].
Proof.
  intros Hl Hids. rewrite (run_not_found _ n Hl Hids).
  now apply emitted_app.
Qed.

Lemma emitted_found (w : World) (station_name : string) (n : Z)
      (extract_path : string) stops stop_times trips calendar :
  loaded w extract_path stops stop_times trips calendar ->
  station_stop_ids_of stops station_name <> [] ->
  error_of to_time (station_stop_ids_of stops station_name) (clock w)
           stop_times trips = None ->
  emitted w (query station_name n extract_path w) =
  found_output sort_values_arrival_time station_name n
    (station_stop_ids_of stops station_name)
    (candidates to_time (station_stop_ids_of stops station_name)
                (clock w) stop_times trips calendar).
Proof.
  intros Hl Hids He. rewrite (run_found _ n Hl Hids He).
  now apply emitted_app.
Qed.

Lemma emitted_error (w : World) (station_name : string) (n : Z)
      (extract_path : string) stops stop_times trips calendar (e : exn) :
  loaded w extract_path stops stop_times trips calendar ->
  station_stop_ids_of stops station_name <> [] ->
  error_of to_time (station_stop_ids_of stops station_name) (clock w)
           stop_times trips = Some e ->
  emitted w (query station_name n extract_path w) = [].
Proof.
  intros Hl Hids He. rewrite (run_error _ n Hl Hids He).
  now apply emitted_nil.
Qed.

Lemma emitted_missing (w : World) (station_name : string) (n : Z)
      (extract_path name : string) :
  missing (dirs w extract_path) = Some name ->
  emitted w (query station_name n extract_path w) = [].
Proof.
  intros H. rewrite (@run_missing w station_name n extract_path name H).
  now apply emitted_nil.
Qed.

(** A run that ends in an exception printed nothing. *)
Lemma emitted_raised (w : World) (station_name : string) (n : Z)
      (extract_path : string) (e : exn) :
  raised (query station_name n extract_path w) = Some e ->
  emitted w (query station_name n extract_path w) = [].
Proof.
  intros H.
  destruct (missing (dirs w extract_path)) as [name|] eqn:Em.
  - now apply emitted_missing with (name := name).
  - destruct (missing_None _ _ Em) as (stops & st & trips & cal & Hl).
    rewrite (raised_loaded _ n Hl) in H.
    destruct (station_stop_ids_of stops station_name) as [|i ids] eqn:E;
      [discriminate|].
    assert (Hne : station_stop_ids_of stops station_name <> [])
      by (rewrite E; discriminate).
    rewrite <- E in H. exact (emitted_error _ n Hl Hne H).
Qed.

(** The table of a run, when one is printed. *)
Lemma emitted_table (w : World) (station_name : string) (n : Z)
      (extract_path : string) stops stop_times trips calendar
      (rows : list Departure.t) :
  loaded w extract_path stops stop_times trips calendar ->
  In (Table rows) (emitted w (query station_name n extract_path w)) ->
  station_stop_ids_of stops station_name <> [] /\
  error_of to_time (station_stop_ids_of stops station_name) (clock w)
           stop_times trips = None /\
  rows = map departure_of
             (sort_values_arrival_time
                (kept n (candidates to_time
                           (station_stop_ids_of stops station_name)
                           (clock w) stop_times trips calendar))).
Proof.
  intros Hl Hin.
  destruct (station_stop_ids_of stops station_name) as [|i ids] eqn:E.
  - rewrite (emitted_not_found _ n Hl E) in Hin.
    destruct Hin as [Hin|[]]. discriminate.
  - assert (Hne : station_stop_ids_of stops station_name <> [])
      by (rewrite E; discriminate).
    destruct (error_of to_time (station_stop_ids_of stops station_name)
                       (clock w) stop_times trips) as [e|] eqn:He.
    + rewrite (emitted_error _ n Hl Hne He) in Hin. contradiction.
    + rewrite (emitted_found _ n Hl Hne He) in Hin. rewrite E in *.
      unfold found_output in Hin.
      destruct Hin as [Hin|[Hin|[Hin|[]]]]; try discriminate.
      split; [discriminate|]. split; [exact He|]. now inversion Hin.
Qed.

(** A run that ends normally printed that the station is not found, or
    the three prints of a station found. *)
Lemma emitted_succeeded (w : World) (station_name : string) (n : Z)
      (extract_path : string) stops stop_times trips calendar :
  loaded w extract_path stops stop_times trips calendar ->
  succeeded (query station_name n extract_path w) = true ->
  emitted w (query station_name n extract_path w) =
  match station_stop_ids_of stops station_name with
  | [] => [NoStationFound station_name]
  | ids => found_output sort_values_arrival_time station_name n ids
             (candidates to_time ids (clock w) stop_times trips calendar)
  end.
Proof.
  intros Hl Hs. apply succeeded_raised in Hs.
  rewrite (raised_loaded _ n Hl) in Hs.
  destruct (station_stop_ids_of stops station_name) as [|i ids] eqn:E.
  - exact (emitted_not_found _ n Hl E).
  - assert (Hne : station_stop_ids_of stops station_name <> [])
      by (rewrite E; discriminate).
    rewrite <- E in *. exact (emitted_found _ n Hl Hne Hs).
Qed.

(** ** The rows that reach the table *)

Lemma later_rows_In (ids : list value) (now : time)
      (stop_times : list (StopTime.t value)) (x : StopTime.t time) :
  In x (later_rows to_time ids now stop_times) ->
  time_ltb now (StopTime.arrival_time x) = true /\
  exists r, In r stop_times /\
            isin (StopTime.stop_id r) ids = true /\
            parse to_time (StopTime.arrival_time r) =
              Some (StopTime.arrival_time x) /\
            StopTime.trip_id x = StopTime.trip_id r /\
            StopTime.stop_id x = StopTime.stop_id r /\
            StopTime.departure_time x = StopTime.departure_time r.
Proof.
  unfold later_rows. rewrite in_flat_map. intros (r & Hr & Hx).
  unfold later_row in Hx.
  destruct (isin (StopTime.stop_id r) ids) eqn:Ei; [|contradiction].
  destruct (parse to_time (StopTime.arrival_time r)) as [t|] eqn:Et;
    [|contradiction].
  destruct (time_ltb now t) eqn:El; [|contradiction].
  destruct Hx as [<-|[]]. cbn. split; auto.
  exists r. repeat split; auto.
Qed.

Lemma merge_In (left : list (StopTime.t time)) (trips : list Trip.t)
      (x : Train.t) :
  In x (merge left trips) <->
  exists l r, In l left /\ In r trips /\
              StopTime.trip_id l = Trip.trip_id r /\ x = join l r.
Proof.
  unfold merge. rewrite in_flat_map. split.
  - intros (l & Hl & Hx). apply in_map_iff in Hx.
    destruct Hx as (r & <- & Hr). apply filter_In in Hr.
    destruct Hr as [Hr E]. apply value_eqb_eq in E. now exists l, r.
  - intros (l & r & Hl & Hr & E & ->). exists l. split; auto.
    apply in_map, filter_In. split; auto. now apply value_eqb_eq.
Qed.

Lemma isin_In (x : value) (values : list value) :
  isin x values = true <-> In x values.
Proof.
  unfold isin. rewrite existsb_exists. split.
  - intros (y & Hy & E). apply value_eqb_eq in E. now subst.
  - intros H. exists x. split; auto. apply value_eqb_refl.
Qed.

Lemma station_rows_In (ids : list value)
      (stop_times : list (StopTime.t value)) (r : StopTime.t value) :
  In r (station_rows ids stop_times) <->
  In r stop_times /\ In (StopTime.stop_id r) ids.
Proof. unfold station_rows. now rewrite filter_In, isin_In. Qed.

Lemma kept_incl (n : Z) (cands : list Train.t) (r : Train.t) :
  In r (kept n cands) -> In r cands.
Proof.
  unfold kept. intros H. apply groupby_head_incl in H.
  eapply Permutation_in; [symmetry; apply sort_stable_perm|exact H].
Qed.

(** The rows kept of a headsign are the first rows of its candidates in
    the stable order of their arrival times; no row without a headsign is
    kept. *)
Lemma group_kept (h : value) (n : Z) (cands : list Train.t) :
  h <> NaN ->
  group h (kept n cands) = head n (sort_stable arrival_leb (group h cands)).
Proof.
  intros Hh. unfold kept. now rewrite group_groupby_head, group_sort.
Qed.

Lemma kept_nan (n : Z) (cands : list Train.t) : group NaN (kept n cands) = [].
Proof.
  unfold kept. apply group_groupby_nan. intros l r. apply head_incl.
Qed.

Lemma kept_headsign (n : Z) (cands : list Train.t) (r : Train.t) :
  In r (kept n cands) -> Train.trip_headsign r <> NaN.
Proof.
  intros Hr E.
  assert (H : In r (group NaN (kept n cands))) by now apply group_In.
  now rewrite kept_nan in H.
Qed.

(** Every candidate is later than now, at a stop of the station, on a
    trip of [trips.txt], with a service that runs today. *)
Lemma candidates_In (ids : list value) (now : datetime)
      (stop_times : list (StopTime.t value)) (trips : list Trip.t)
      (calendar : list Calendar.t) (x : Train.t) :
  In x (candidates to_time ids now stop_times trips calendar) ->
  time_ltb (time_of now) (Train.arrival_time x) = true /\
  In (Train.stop_id x) ids /\
  (exists c, In c calendar /\
             Calendar.service_id c = Train.service_id x /\
             Calendar.flag (current_day_of now) c = Num 1).
Proof.
  unfold candidates, in_service, running. intros H.
  apply filter_In in H. destruct H as [H Hs].
  apply merge_In in H. destruct H as (l & r & Hl & Hr & E & ->).
  apply later_rows_In in Hl.
  destruct Hl as (Hlt & r0 & _ & Hi & _ & _ & Hid & _).
  cbn in *. split; auto. split.
  - rewrite Hid. now apply isin_In.
  - apply isin_In, in_map_iff in Hs. destruct Hs as (c & Hc & Hin).
    apply filter_In in Hin. destruct Hin as [Hin Hf].
    apply eq_int_eq in Hf. now exists c.
Qed.

(** A row of [stop_times.txt] at a stop of the station, with a time later
    than now, on a trip of [trips.txt] whose service runs today, is a
    candidate. *)
Lemma candidates_complete (ids : list value) (now : datetime)
      (stop_times : list (StopTime.t value)) (trips : list Trip.t)
      (calendar : list Calendar.t)
      (r : StopTime.t value) (t : time) (trip : Trip.t) (c : Calendar.t) :
  In r stop_times ->
  In (StopTime.stop_id r) ids ->
  parse to_time (StopTime.arrival_time r) = Some t ->
  time_ltb (time_of now) t = true ->
  In trip trips ->
  StopTime.trip_id r = Trip.trip_id trip ->
  In c calendar ->
  Calendar.service_id c = Trip.service_id trip ->
  Calendar.flag (current_day_of now) c = Num 1 ->
  In (Train.mk (StopTime.trip_id r) t (StopTime.departure_time r)
               (StopTime.stop_id r) (Trip.route_id trip)
               (Trip.service_id trip) (Trip.trip_headsign trip))
     (candidates to_time ids now stop_times trips calendar).
Proof.
  intros Hr Hid Ht Hlt Htrip Eid Hc Es Ef.
  unfold candidates, in_service, running. apply filter_In. split.
  - apply merge_In.
    exists (StopTime.mk (StopTime.trip_id r) t (StopTime.departure_time r)
                        (StopTime.stop_id r)), trip.
    repeat split; auto.
    unfold later_rows. apply in_flat_map. exists r. split; auto.
    unfold later_row. apply isin_In in Hid. rewrite Hid, Ht, Hlt. now left.
  - cbn. apply isin_In. rewrite <- Es. apply in_map.
    apply filter_In. split; auto. now apply eq_int_eq.
Qed.

(** ** The exceptions of lines 108 and 111 *)

Lemma no_time_true (ids : list value)
      (stop_times : list (StopTime.t value)) :
  no_time to_time ids stop_times = true <->
  (exists r, In r stop_times /\ In (StopTime.stop_id r) ids) /\
  (forall r, In r stop_times -> In (StopTime.stop_id r) ids ->
             parse to_time (StopTime.arrival_time r) = None).
Proof.
  unfold no_time.
  assert (Hall : forallb (unparsed to_time) (station_rows ids stop_times)
                 = true <->
                 forall r, In r stop_times -> In (StopTime.stop_id r) ids ->
                           parse to_time (StopTime.arrival_time r) = None).
  { rewrite forallb_forall. split.
    - intros H r Hr Hi. specialize (H r). unfold unparsed in H.
      destruct (parse to_time (StopTime.arrival_time r)); auto.
      discriminate H. now apply station_rows_In.
    - intros H r Hr. apply station_rows_In in Hr. unfold unparsed.
      now rewrite (H r) by tauto. }
  destruct (station_rows ids stop_times) as [|x rows] eqn:E.
  - split; [discriminate|]. intros [(r & Hr & Hi) _].
    assert (Hin : In r (station_rows ids stop_times))
      by now apply station_rows_In.
    now rewrite E in Hin.
  - rewrite Hall. split; intros H; [split; auto|tauto].
    exists x. apply station_rows_In. rewrite E. now left.
Qed.

(** A row of the station with a time rules the first exception out. *)
Lemma no_time_false (ids : list value)
      (stop_times : list (StopTime.t value)) (r : StopTime.t value)
      (t : time) :
  In r stop_times -> In (StopTime.stop_id r) ids ->
  parse to_time (StopTime.arrival_time r) = Some t ->
  no_time to_time ids stop_times = false.
Proof.
  intros Hr Hi Ht.
  destruct (no_time to_time ids stop_times) eqn:E; auto.
  apply no_time_true in E. destruct E as [_ E].
  rewrite (E r Hr Hi) in Ht. discriminate.
Qed.

Lemma error_of_None (ids : list value) (now : datetime)
      (stop_times : list (StopTime.t value)) (trips : list Trip.t) :
  error_of to_time ids now stop_times trips = None <->
  no_time to_time ids stop_times = false /\
  merge_refused to_time ids (time_of now) stop_times trips = false.
Proof.
  unfold error_of.
  destruct (no_time to_time ids stop_times),
    (merge_refused to_time ids (time_of now) stop_times trips);
    split; try discriminate; try tauto; intros [? ?]; discriminate.
Qed.

(** ** One row less in [stop_times.txt] *)

Lemma later_rows_without (ids : list value) (now : time)
      (l1 l2 : list (StopTime.t value)) (r : StopTime.t value) :
  later_row to_time ids now r = [] ->
  later_rows to_time ids now (l1 ++ r :: l2) =
  later_rows to_time ids now (l1 ++ l2).
Proof.
  intros H. unfold later_rows. rewrite !flat_map_app. cbn [flat_map].
  now rewrite H.
Qed.

Lemma station_rows_app (ids : list value)
      (l1 l2 : list (StopTime.t value)) :
  station_rows ids (l1 ++ l2) = station_rows ids l1 ++ station_rows ids l2.
Proof. apply filter_app. Qed.

(** Without a row that has no time, the station has a row with a time if
    it had one. *)
Lemma no_time_without_unparsed (ids : list value)
      (l1 l2 : list (StopTime.t value)) (r : StopTime.t value) :
  parse to_time (StopTime.arrival_time r) = None ->
  no_time to_time ids (l1 ++ r :: l2) = false ->
  no_time to_time ids (l1 ++ l2) = false.
Proof.
  intros Hr H.
  destruct (no_time to_time ids (l1 ++ l2)) eqn:E; auto.
  apply no_time_true in E. destruct E as [(x & Hx & Hi) Hall].
  assert (T : no_time to_time ids (l1 ++ r :: l2) = true).
  { apply no_time_true. split.
    - exists x. split; auto. apply in_app_or in Hx. apply in_or_app.
      destruct Hx; [now left|right; now right].
    - intros y Hy Hyi. apply in_app_or in Hy.
      destruct Hy as [Hy|[<-|Hy]]; auto; apply Hall; auto;
        apply in_or_app; auto. }
  congruence.
Qed.

(** With one more row that has a time, the station still has a row with
    a time. *)
Lemma no_time_with_parsed (ids : list value)
      (l1 l2 : list (StopTime.t value)) (r : StopTime.t value) (t : time) :
  parse to_time (StopTime.arrival_time r) = Some t ->
  no_time to_time ids (l1 ++ l2) = false ->
  no_time to_time ids (l1 ++ r :: l2) = false.
Proof.
  intros Hr H.
  destruct (no_time to_time ids (l1 ++ r :: l2)) eqn:E; auto.
  apply no_time_true in E. destruct E as [(x & Hx & Hi) Hall].
  assert (T : no_time to_time ids (l1 ++ l2) = true).
  { apply no_time_true. split.
    - exists x. split; auto. apply in_app_or in Hx. apply in_or_app.
      destruct Hx as [Hx|[<-|Hx]]; auto.
      rewrite (Hall r) in Hr; [discriminate| |exact Hi].
      apply in_or_app. right. now left.
    - intros y Hy Hyi. apply Hall; auto. apply in_app_or in Hy.
      apply in_or_app. destruct Hy; [now left|right; now right]. }
  congruence.
Qed.

(** A row that lines 101 to 108 do not keep plays no part in the merge,
    as long as the [trip_id] column keeps its dtype. *)
Lemma merge_refused_without (ids : list value) (now : time)
      (l1 l2 : list (StopTime.t value)) (r : StopTime.t value)
      (trips : list Trip.t) :
  later_row to_time ids now r = [] ->
  is_object (map (@StopTime.trip_id value) (l1 ++ l2)) =
  is_object (map (@StopTime.trip_id value) (l1 ++ r :: l2)) ->
  merge_refused to_time ids now (l1 ++ r :: l2) trips =
  merge_refused to_time ids now (l1 ++ l2) trips.
Proof.
  intros Hr Hd. unfold merge_refused.
  now rewrite later_rows_without, Hd by exact Hr.
Qed.

(** Such a row is as good as absent in the output of two runs that end
    normally. *)
Lemma emitted_without_row (w : World) (station_name : string) (n : Z)
      (extract_path : string) stops trips calendar
      (l1 l2 : list (StopTime.t value)) (r : StopTime.t value) :
  loaded w extract_path stops (l1 ++ r :: l2) trips calendar ->
  (forall ids, later_row to_time ids (time_of (clock w)) r = []) ->
  succeeded (query station_name n extract_path w) = true ->
  succeeded (query station_name n extract_path
                   (with_stop_times w extract_path (l1 ++ l2))) = true ->
  emitted w (query station_name n extract_path w) =
  emitted (with_stop_times w extract_path (l1 ++ l2))
          (query station_name n extract_path
                 (with_stop_times w extract_path (l1 ++ l2))).
Proof.
  intros Hl Hr Hs Hs'.
  pose proof (loaded_with_stop_times (l1 ++ l2) Hl) as Hl'.
  rewrite (emitted_succeeded _ n Hl Hs), (emitted_succeeded _ n Hl' Hs').
  destruct (station_stop_ids_of stops station_name) as [|i ids]; auto.
  unfold candidates. cbn [with_stop_times with_feed clock].
  now rewrite later_rows_without by apply Hr.
Qed.

(** What a run on four files that are there printed. *)
Lemma emitted_loaded (w : World) (station_name : string) (n : Z)
      (extract_path : string) stops stop_times trips calendar :
  loaded w extract_path stops stop_times trips calendar ->
  emitted w (query station_name n extract_path w) =
  match station_stop_ids_of stops station_name with
  | [] => [NoStationFound station_name]
  | ids =>
    match error_of to_time ids (clock w) stop_times trips with
    | Some _ => []
    | None => found_output sort_values_arrival_time station_name n ids
                (candidates to_time ids (clock w) stop_times trips calendar)
    end
  end.
Proof.
  intros Hl.
  destruct (station_stop_ids_of stops station_name) as [|i ids] eqn:E.
  - exact (emitted_not_found _ n Hl E).
  - assert (Hne : station_stop_ids_of stops station_name <> [])
      by (rewrite E; discriminate).
    rewrite <- E. cbv zeta.
    destruct (error_of to_time (station_stop_ids_of stops station_name)
                       (clock w) stop_times trips) as [e|] eqn:He.
    + exact (emitted_error _ n Hl Hne He).
    + exact (emitted_found _ n Hl Hne He).
Qed.

(* ================================================================ *)
(** * The claims about the query *)

(** What is assumed of the sort of line 127, claim by claim: that it
    returns rows it was given; that it rearranges the rows; that it leaves
    them in non-decreasing order of [arrival_time]. *)
Hypothesis sort_keeps :
  forall l x, In x (sort_values_arrival_time l) -> In x l.
Hypothesis sort_permutes :
  forall l, Permutation l (sort_values_arrival_time l).
Hypothesis sort_orders :
  forall l, StronglySorted (fun a b => arrival_leb a b = true)
                           (sort_values_arrival_time l).


(** C2: every printed departure arrives strictly later than the time of
    day of the clock.  A row of [stop_times.txt] whose time is not later
    is as good as absent: if the run without that row ends normally, so
    does the run with it, and prints the same (the row taken out must not
    be the one that made its [trip_id] column text). *)
Theorem printed_rows_later (w : World) (station_name : string) (n : Z)
        (extract_path : string) stops stop_times trips calendar :
  loaded w extract_path stops stop_times trips calendar ->
  (forall rows d,
      In (Table rows) (emitted w (query station_name n extract_path w)) ->
      In d rows ->
      time_ltb (time_of (clock w)) (Departure.arrival_time d) = true) /\
  (forall l1 r l2 t,
      stop_times = l1 ++ r :: l2 ->
      parse to_time (StopTime.arrival_time r) = Some t ->
      time_leb t (time_of (clock w)) = true ->
      is_object (map (@StopTime.trip_id value) (l1 ++ l2)) =
      is_object (map (@StopTime.trip_id value) stop_times) ->
      succeeded (query station_name n extract_path
                       (with_stop_times w extract_path (l1 ++ l2))) = true ->
      succeeded (query station_name n extract_path w) = true /\
      emitted w (query station_name n extract_path w) =
      emitted (with_stop_times w extract_path (l1 ++ l2))
              (query station_name n extract_path
                     (with_stop_times w extract_path (l1 ++ l2)))).
Proof.
  intros Hl. split.
  - intros rows d Hin Hd.
    destruct (emitted_table _ _ _ Hl Hin) as (_ & _ & ->).
    apply in_map_iff in Hd. destruct Hd as (x & <- & Hx).
    apply sort_keeps, kept_incl, candidates_In in Hx. apply Hx.
  - intros l1 r l2 t -> Ht Hle Hd Hs'.
    assert (Hr : forall ids,
               later_row to_time ids (time_of (clock w)) r = []).
    { intros ids. unfold later_row. rewrite Ht, time_ltb_leb, Hle.
      now destruct (isin _ _). }
    assert (Hs : succeeded (query station_name n extract_path w) = true).
    { pose proof (loaded_with_stop_times (l1 ++ l2) Hl) as Hl'.
      apply succeeded_raised. apply succeeded_raised in Hs'.
      rewrite (raised_loaded _ n Hl). rewrite (raised_loaded _ n Hl') in Hs'.
      destruct (station_stop_ids_of stops station_name) as [|i ids]; auto.
      cbn [with_stop_times with_feed clock] in Hs'.
      apply error_of_None in Hs'. destruct Hs' as [H1 H2].
      apply error_of_None. split.
      - exact (no_time_with_parsed _ _ _ _ Ht H1).
      - rewrite merge_refused_without; auto. }
    split; [exact Hs|].
    exact (@emitted_without_row w station_name n extract_path stops trips
             calendar l1 l2 r Hl Hr Hs Hs').
Qed.

(** C3: every row of the frame whose six columns are printed has a
    [service_id] that [calendar.txt] lists with the flag of today equal
    to 1, so a [service_id] that [calendar.txt] does not list is in no
    row; and what [calendar.txt] holds plays no part in whether the run
    raises. *)
Theorem printed_rows_in_service (w : World) (station_name : string)
        (n : Z) (extract_path : string) stops stop_times trips calendar :
  loaded w extract_path stops stop_times trips calendar ->
  let next_trains_per_headsign :=
      sort_values_arrival_time
        (kept n (candidates to_time
                   (station_stop_ids_of stops station_name)
                   (clock w) stop_times trips calendar)) in
  (forall rows,
      In (Table rows) (emitted w (query station_name n extract_path w)) ->
      rows = map departure_of next_trains_per_headsign) /\
  (forall r, In r next_trains_per_headsign ->
             In (Train.service_id r) (map Calendar.service_id calendar) /\
             exists c, In c calendar /\
                       Calendar.service_id c = Train.service_id r /\
                       Calendar.flag (current_day_of (clock w)) c = Num 1) /\
  (forall calendar',
      raised (query station_name n extract_path
                    (with_calendar w extract_path calendar')) =
      raised (query station_name n extract_path w)).
Proof.
  intros Hl. cbv zeta. split; [|split].
  - intros rows Hin. now destruct (emitted_table _ _ _ Hl Hin) as (_ & _ & ->).
  - intros r Hr.
    apply sort_keeps, kept_incl, candidates_In in Hr.
    destruct Hr as (_ & _ & c & Hc & E & F). split.
    + rewrite <- E. now apply in_map.
    + now exists c.
  - intros calendar'.
    rewrite (raised_loaded _ n Hl).
    now rewrite (raised_loaded _ n (loaded_with_calendar calendar' Hl)).
Qed.

(** C4: when at least one row per headsign is asked for, the rows kept
    of a headsign (line 124) are the first [num_trains_per_route] rows of
    its candidates in the stable order of their arrival times: that order
    is a rearrangement of the group, is non-decreasing, and leaves rows
    of one arrival time in the order of the merged frame.  So a headsign
    has at most [num_trains_per_route] rows, and these are its rows in
    the table.  A row whose headsign is missing is in no group and is not
    kept. *)
Theorem kept_per_headsign (w : World) (station_name : string) (n : Z)
        (extract_path : string) stops stop_times trips calendar :
  loaded w extract_path stops stop_times trips calendar ->
  (1 <= n)%Z ->
  let cands := candidates to_time (station_stop_ids_of stops station_name)
                          (clock w) stop_times trips calendar in
  (forall rows,
      In (Table rows) (emitted w (query station_name n extract_path w)) ->
      rows = map departure_of (sort_values_arrival_time (kept n cands))) /\
  group NaN (kept n cands) = [] /\
  forall h,
    h <> NaN ->
    let ordered := sort_stable arrival_leb (group h cands) in
    group h (kept n cands) = firstn (Z.to_nat n) ordered /\
    length (group h (kept n cands)) <= Z.to_nat n /\
    Permutation (group h cands) ordered /\
    StronglySorted (fun a b => arrival_leb a b = true) ordered /\
    (forall t, filter (arrives_at t) ordered =
               filter (arrives_at t) (group h cands)) /\
    Permutation (firstn (Z.to_nat n) ordered)
                (group h (sort_values_arrival_time (kept n cands))).
Proof.
  intros Hl Hn. cbv zeta. split; [|split].
  - intros rows Hin. now destruct (emitted_table _ _ _ Hl Hin) as (_ & _ & ->).
  - apply kept_nan.
  - intros h Hh.
    assert (E : group h (kept n (candidates to_time
                  (station_stop_ids_of stops station_name) (clock w)
                  stop_times trips calendar)) =
                firstn (Z.to_nat n)
                  (sort_stable arrival_leb
                     (group h (candidates to_time
                        (station_stop_ids_of stops station_name) (clock w)
                        stop_times trips calendar)))).
    { rewrite group_kept by exact Hh. apply head_firstn. lia. }
    split; [exact E|]. split; [rewrite E; apply firstn_le_length|].
    split; [apply sort_stable_perm|]. split; [|split].
    + apply (sort_stable_sorted _ arrival_leb_total arrival_leb_trans).
    + intros t. apply sort_arrival_stable_ties.
    + rewrite <- E. unfold group. apply filter_perm, sort_permutes.
Qed.

(** C5, the failing runs: when the station has rows in [stop_times.txt]
    and none of them has an [arrival_time] that parses, the rows are not
    dropped: line 108 raises [TypeError], before anything is printed. *)
Theorem unparsed_rows_raise (w : World) (station_name : string) (n : Z)
        (extract_path : string) stops stop_times trips calendar :
  loaded w extract_path stops stop_times trips calendar ->
  (exists r, In r stop_times /\
             In (StopTime.stop_id r)
                (station_stop_ids_of stops station_name)) ->
  (forall r, In r stop_times ->
             In (StopTime.stop_id r)
                (station_stop_ids_of stops station_name) ->
             parse to_time (StopTime.arrival_time r) = None) ->
  raised (query station_name n extract_path w) = Some TypeError /\
  emitted w (query station_name n extract_path w) = [].
Proof.
  intros Hl Hex Hall.
  assert (Hn : no_time to_time (station_stop_ids_of stops station_name)
                       stop_times = true)
    by (apply no_time_true; auto).
  assert (Hr : raised (query station_name n extract_path w)
               = Some TypeError).
  { rewrite (raised_loaded _ n Hl).
    destruct (station_stop_ids_of stops station_name) as [|i ids] eqn:E.
    - destruct Hex as (r & _ & []).
    - unfold error_of. now rewrite Hn. }
  split; [exact Hr|]. exact (emitted_raised _ _ _ _ Hr).
Qed.

Lemma station_stop_ids_nil (stops : list Stop.t) (station_name : string) :
  station_stop_ids_of stops station_name = [] <->
  forall s, In s stops -> Stop.stop_name s <> Text station_name.
Proof.
  unfold station_stop_ids_of. split.
  - intros H s Hs E. apply map_eq_nil in H.
    assert (Hin : In s (filter (fun s => eq_str (Stop.stop_name s)
                                                station_name) stops))
      by (apply filter_In; split; auto; now apply eq_str_eq).
    now rewrite H in Hin.
  - intros H. induction stops as [|s stops IH]; auto. simpl.
    destruct (eq_str (Stop.stop_name s) station_name) eqn:E.
    + exfalso. apply eq_str_eq in E. apply (H s); auto. now left.
    + apply IH. intros s' Hs'. apply H. now right.
Qed.

(** C6: for a name that no stop has, the run ends normally, prints the
    line "No station found with name" and no table.  A run that finds
    its station never prints that: when it ends normally it prints the
    line of the station found, the header and a table, also when the
    table is empty. *)
Theorem station_not_found (w : World) (station_name : string) (n : Z)
        (extract_path : string) stops stop_times trips calendar :
  loaded w extract_path stops stop_times trips calendar ->
  (forall s, In s stops -> Stop.stop_name s <> Text station_name) ->
  succeeded (query station_name n extract_path w) = true /\
  emitted w (query station_name n extract_path w) =
    [NoStationFound station_name] /\
  (forall w' name' n' path' stops' stop_times' trips' calendar',
      loaded w' path' stops' stop_times' trips' calendar' ->
      (exists s, In s stops' /\ Stop.stop_name s = Text name') ->
      (succeeded (query name' n' path' w') = true ->
       exists rows,
         emitted w' (query name' n' path' w') =
         [ StationFound name' (station_stop_ids_of stops' name');
           NextTrains name'; Table rows ]) /\
      emitted w' (query name' n' path' w') <>
      emitted w (query station_name n extract_path w)).
Proof.
  intros Hl Hno. apply station_stop_ids_nil in Hno.
  rewrite (emitted_not_found _ n Hl Hno), (run_not_found _ n Hl Hno).
  split; [reflexivity|]. split; [reflexivity|].
  intros w' name' n' path' stops' stop_times' trips' calendar' Hl'
         (s & Hs & E).
  assert (Hne : station_stop_ids_of stops' name' <> []).
  { intros H. apply (proj1 (station_stop_ids_nil _ _) H s Hs E). }
  rewrite (emitted_loaded _ n' Hl').
  destruct (station_stop_ids_of stops' name') as [|i ids] eqn:Ei;
    [congruence|].
  cbv beta iota zeta. split.
  - intros Hs'. apply succeeded_raised in Hs'.
    rewrite (raised_loaded _ n' Hl'), Ei in Hs'. rewrite Hs'.
    eexists. reflexivity.
  - destruct (error_of _ _ _ _ _); discriminate.
Qed.

(** C7: two runs on the same files, at the same instant, print the same
    and end the same way, whatever was printed or built before. *)
Theorem same_inputs_same_output (w1 w2 : World) (station_name : string)
        (n : Z) (extract_path : string) :
  dirs w1 extract_path = dirs w2 extract_path ->
  clock w1 = clock w2 ->
  emitted w1 (query station_name n extract_path w1) =
  emitted w2 (query station_name n extract_path w2) /\
  raised (query station_name n extract_path w1) =
  raised (query station_name n extract_path w2).
Proof.
  intros Hd Hc.
  destruct (missing (dirs w1 extract_path)) as [name|] eqn:Em.
  - assert (Em2 : missing (dirs w2 extract_path) = Some name)
      by now rewrite <- Hd.
    rewrite (emitted_missing _ station_name n _ Em),
      (emitted_missing _ station_name n _ Em2).
    rewrite (@run_missing w1 station_name n extract_path name Em),
      (@run_missing w2 station_name n extract_path name Em2).
    auto.
  - destruct (missing_None _ _ Em) as (stops & st & trips & cal & Hl).
    assert (Hl2 : loaded w2 extract_path stops st trips cal)
      by (unfold loaded in *; now rewrite <- Hd).
    rewrite (emitted_loaded _ n Hl), (emitted_loaded _ n Hl2).
    rewrite (raised_loaded _ n Hl), (raised_loaded _ n Hl2).
    now rewrite Hc.
Qed.

Lemma firstn_length_app {A} (l l' : list A) : firstn (length l) (l ++ l') = l.
Proof. induction l; simpl; congruence. Qed.

(** C8: a run leaves every file as it was, touches no DataFrame object
    that was there before, and the object read from [stop_times.txt]
    still holds the rows of the file when the run is over: line 105
    assigns to the copy that line 101 made. *)
Theorem inputs_unchanged (w : World) (station_name : string) (n : Z)
        (extract_path : string) :
  let r := query station_name n extract_path w in
  dirs (final r) = dirs w /\
  archives (final r) = archives w /\
  firstn (length (heap w)) (heap (final r)) = heap w /\
  forall stops stop_times trips calendar,
    loaded w extract_path stops stop_times trips calendar ->
    nth (length (heap w)) (heap (final r)) [] = map as_cell stop_times.
Proof.
  cbv zeta.
  destruct (missing (dirs w extract_path)) as [name|] eqn:Em.
  - rewrite (@run_missing w station_name n extract_path name Em).
    cbn [final dirs archives heap with_heap_stdout]. repeat split.
    + apply firstn_length_app.
    + intros stops st trips cal (H1 & H2 & H3 & H4).
      unfold missing in Em. rewrite H1, H2, H3, H4 in Em. discriminate.
  - destruct (missing_None _ _ Em) as (stops & st & trips & cal & Hl).
    assert (Hst : forall stops' st' trips' cal',
               loaded w extract_path stops' st' trips' cal' -> st' = st).
    { intros ? ? ? ? (_ & H2 & _). destruct Hl as (_ & H2' & _). congruence. }
    destruct (station_stop_ids_of stops station_name) as [|i ids] eqn:E.
    + rewrite (run_not_found _ n Hl E).
      cbn [final dirs archives heap with_heap_stdout]. repeat split.
      * apply firstn_length_app.
      * intros ? ? ? ? Hl'. rewrite (Hst _ _ _ _ Hl'). apply nth_middle.
    + assert (Hne : station_stop_ids_of stops station_name <> [])
        by (rewrite E; discriminate).
      rewrite (run_found_or_error _ n Hl Hne). cbv zeta.
      destruct (error_of _ _ _ _ _);
        cbn [final dirs archives heap with_heap_stdout]; repeat split;
        try apply firstn_length_app;
        intros ? ? ? ? Hl'; rewrite (Hst _ _ _ _ Hl'); apply nth_middle.
Qed.

Lemma kept_0 (cands : list Train.t) : kept 0 cands = [].
Proof. unfold kept, groupby_apply. apply flat_map_nil. Qed.

(** C10, as amended: asked for no row per headsign, the run ends as it
    ends for any other count; and when it ends normally it has printed
    that the station is not found, or an empty table. *)
Theorem none_per_headsign (w : World) (station_name : string)
        (extract_path : string) stops stop_times trips calendar :
  loaded w extract_path stops stop_times trips calendar ->
  (forall n, raised (query station_name 0 extract_path w) =
             raised (query station_name n extract_path w)) /\
  (succeeded (query station_name 0 extract_path w) = true ->
   emitted w (query station_name 0 extract_path w) =
     [NoStationFound station_name] \/
   emitted w (query station_name 0 extract_path w) =
     [ StationFound station_name (station_stop_ids_of stops station_name);
       NextTrains station_name; Table [] ]).
Proof.
  intros Hl. split.
  - intros n. now rewrite !(raised_loaded _ _ Hl).
  - intros Hs. rewrite (emitted_succeeded _ 0 Hl Hs).
    destruct (station_stop_ids_of stops station_name) as [|i ids] eqn:E;
      auto.
    right. unfold found_output. rewrite kept_0.
    destruct (sort_values_arrival_time []) as [|x l] eqn:E0; auto.
    exfalso. apply (sort_keeps [] x). rewrite E0. now left.
Qed.
End QueryFacts.

(* ================================================================== *)
(** * The order of the printed table *)



(* ================================================================== *)
(** * The claims at worked inputs *)

(** The default sort returns rows it was given. *)
Lemma sort_arrival_default_keeps (l : list Train.t) (x : Train.t) :
  In x (sort_arrival_default l) -> In x l.
Proof. apply npy_aquicksort_incl. Qed.

(** The stable sort is a sort in the sense assumed of line 127. *)
Lemma sort_arrival_stable_permutes (l : list Train.t) :
  Permutation l (sort_arrival_stable l).
Proof. apply sort_stable_perm. Qed.

Lemma sort_arrival_stable_orders (l : list Train.t) :
  StronglySorted (fun a b => arrival_leb a b = true) (sort_arrival_stable l).
Proof.
  apply (sort_stable_sorted _ arrival_leb_total arrival_leb_trans).
Qed.

Lemma loaded_world_of stops stop_times trips calendar now :
  loaded (world_of stops stop_times trips calendar now) extract_path
         stops stop_times trips calendar.
Proof. unfold loaded, world_of. cbn. auto. Qed.

(** The first scenario of the specification, with either sort. *)
Example scenario_A_at_7 :
  emitted ex_world
          (get_next_train hms sort_arrival_default "A" 1 extract_path
                          ex_world) =
  [StationFound "A" [Text "S1"; Text "S2"]; NextTrains "A";
   Table [north_0800; south_0805]] /\
  emitted ex_world
          (get_next_train hms sort_arrival_stable "A" 1 extract_path
                          ex_world) =
  [StationFound "A" [Text "S1"; Text "S2"]; NextTrains "A";
   Table [north_0800; south_0805]].
Proof. split; vm_compute; reflexivity. Qed.

(** The second scenario: at 09:00:00 both departures are past. *)
Example scenario_A_at_9 :
  let w := world_of ex_stops ex_stop_times ex_trips ex_calendar
                    (wednesday_at 9 0 0) in
  emitted w (get_next_train hms sort_arrival_default "A" 1 extract_path w) =
  [StationFound "A" [Text "S1"; Text "S2"]; NextTrains "A"; Table []].
Proof. vm_compute. reflexivity. Qed.

(** The third scenario: the row at 25:30:00 beside the others is not
    printed. *)
Example scenario_late_row :
  let w := world_of ex_stops (ex_stop_times ++ [late_row]) ex_trips
                    ex_calendar (wednesday_at 7 0 0) in
  emitted w (get_next_train hms sort_arrival_default "A" 2 extract_path w) =
  [StationFound "A" [Text "S1"; Text "S2"]; NextTrains "A";
   Table [north_0800; south_0805]].
Proof. vm_compute. reflexivity. Qed.

(** The fourth scenario: of two trips to one headsign only the earlier is
    kept. *)
Example scenario_same_headsign :
  let w := world_of ex_stops
                    (ex_stop_times ++
                     [StopTime.mk "T4" (Text "08:02:00") "08:02:30" "S1"])
                    ex_trips ex_calendar (wednesday_at 7 0 0) in
  emitted w (get_next_train hms sort_arrival_default "A" 1 extract_path w) =
  [StationFound "A" [Text "S1"; Text "S2"]; NextTrains "A";
   Table [north_0800; south_0805]].
Proof. vm_compute. reflexivity. Qed.

(** Identifiers that are numbers in every file match as numbers; and a
    stop whose name is read as a number is not the station of that
    name. *)
Example scenario_numbers :
  let stop_times :=
      [StopTime.mk (Num 10) (Text "08:00:00") "08:00:30" (Num 1);
       StopTime.mk (Num 11) (Text "08:05:00") "08:05:30" (Num 2)] in
  let trips := [Trip.mk (Num 5) (Num 3) (Num 10) "North";
                Trip.mk (Num 5) (Num 3) (Num 11) "South"] in
  let calendar := [Calendar.mk (Num 3) (Num 1) (Num 1) (Num 1) (Num 1)
                               (Num 1) (Num 0) (Num 0)] in
  let w := world_of [Stop.mk (Num 1) "A"; Stop.mk (Num 2) "B"]
                    stop_times trips calendar (wednesday_at 7 0 0) in
  let w' := world_of [Stop.mk (Num 1) (Num 7); Stop.mk (Num 2) (Num 8)]
                     stop_times trips calendar (wednesday_at 7 0 0) in
  emitted w (get_next_train hms sort_arrival_default "A" 1 extract_path w) =
  [StationFound "A" [Num 1]; NextTrains "A";
   Table [Departure.mk (Num 1) (Num 10) (mk_time 8 0 0 0) "08:00:30"
                       (Num 5) "North"]] /\
  emitted w' (get_next_train hms sort_arrival_default "7" 1 extract_path w')
  = [NoStationFound "7"].
Proof. split; vm_compute; reflexivity. Qed.


(** The bound of 16 rows is the best one: with the first seventeen of
    these trips the table is out of its original order already. *)
Example ties_of_seventeen :
  printed_headsigns
    (emitted tie_world_17
             (get_next_train hms sort_arrival_default "A" 1 extract_path
                             tie_world_17)) =
  map Text
      ["H01"; "H15"; "H14"; "H13"; "H12"; "H11"; "H10"; "H16"; "H09";
       "H07"; "H06"; "H05"; "H04"; "H03"; "H02"; "H08"; "H17"].
Proof. vm_compute. reflexivity. Qed.

Lemma ex_world_loaded :
  loaded ex_world extract_path ex_stops ex_stop_times ex_trips ex_calendar.
Proof. apply loaded_world_of. Qed.

Lemma ex_station_found : station_stop_ids_of ex_stops "A" <> [].
Proof. vm_compute. discriminate. Qed.


(** C2 at 08:03:00: the 08:05:00 departure is printed, and the 08:00:00
    row could as well be absent. *)
Lemma printed_rows_later_witness :
  let w := world_of ex_stops ex_stop_times ex_trips ex_calendar
                    (wednesday_at 8 3 0) in
  time_ltb (time_of (clock w)) (Departure.arrival_time south_0805) = true /\
  succeeded (get_next_train hms sort_arrival_default "A" 1 extract_path w)
  = true /\
  emitted w (get_next_train hms sort_arrival_default "A" 1 extract_path w) =
  emitted (with_stop_times w extract_path (tl ex_stop_times))
          (get_next_train hms sort_arrival_default "A" 1 extract_path
                          (with_stop_times w extract_path (tl ex_stop_times))).
Proof.
  cbv zeta.
  destruct (@printed_rows_later hms sort_arrival_default
              sort_arrival_default_keeps
              (world_of ex_stops ex_stop_times ex_trips ex_calendar
                        (wednesday_at 8 3 0))
              "A" 1%Z extract_path ex_stops ex_stop_times ex_trips
              ex_calendar (loaded_world_of _ _ _ _ _)) as [H1 H2].
  split.
  - apply (H1 [south_0805] south_0805); vm_compute; auto.
  - apply (H2 [] (StopTime.mk "T1" (Text "08:00:00") "08:00:30" "S1")
              (tl ex_stop_times) (mk_time 8 0 0 0));
      vm_compute; reflexivity.
Defined.

(** C3 at the first scenario: the services of the printed rows run on
    Wednesday, and the run ends the same way without a calendar row. *)
Lemma printed_rows_in_service_witness :
  let next_trains_per_headsign :=
      sort_arrival_default
        (kept 1 (candidates hms (station_stop_ids_of ex_stops "A")
                            (clock ex_world) ex_stop_times ex_trips
                            ex_calendar)) in
  (forall r, In r next_trains_per_headsign ->
             In (Train.service_id r) (map Calendar.service_id ex_calendar) /\
             exists c, In c ex_calendar /\
                       Calendar.service_id c = Train.service_id r /\
                       Calendar.flag (current_day_of (clock ex_world)) c
                       = Num 1) /\
  raised (get_next_train hms sort_arrival_default "A" 1 extract_path
                         (with_calendar ex_world extract_path [])) =
  raised (get_next_train hms sort_arrival_default "A" 1 extract_path
                         ex_world).
Proof.
  cbv zeta.
  destruct (@printed_rows_in_service hms sort_arrival_default
              sort_arrival_default_keeps ex_world "A" 1%Z extract_path
              ex_stops ex_stop_times ex_trips ex_calendar ex_world_loaded)
    as (_ & H2 & H3).
  split; [exact H2|exact (H3 [])].
Defined.

(** C4 with two trips to North, at 08:00:00 and 08:02:00, one row kept per
    headsign. *)
Lemma kept_per_headsign_witness :
  let stop_times := ex_stop_times ++
                    [StopTime.mk "T4" (Text "08:02:00") "08:02:30" "S1"] in
  let w := world_of ex_stops stop_times ex_trips ex_calendar
                    (wednesday_at 7 0 0) in
  let cands := candidates hms (station_stop_ids_of ex_stops "A") (clock w)
                          stop_times ex_trips ex_calendar in
  map Train.trip_id (group "North" cands) = [Text "T1"; Text "T4"] /\
  map Train.trip_id (group "North" (kept 1 cands)) = [Text "T1"] /\
  group "North" (kept 1 cands) =
  firstn 1 (sort_stable arrival_leb (group "North" cands)) /\
  length (group "North" (kept 1 cands)) <= 1.
Proof.
  cbv zeta.
  split; [vm_compute; reflexivity|]. split; [vm_compute; reflexivity|].
  pose proof
       (@kept_per_headsign hms sort_arrival_stable
          sort_arrival_stable_permutes
          (world_of ex_stops
                    (ex_stop_times ++
                     [StopTime.mk "T4" (Text "08:02:00") "08:02:30" "S1"])
                    ex_trips ex_calendar (wednesday_at 7 0 0))
          "A" 1%Z extract_path ex_stops
          (ex_stop_times ++
           [StopTime.mk "T4" (Text "08:02:00") "08:02:30" "S1"])
          ex_trips ex_calendar (loaded_world_of _ _ _ _ _)
          ltac:(lia)) as (_ & _ & H).
  destruct (H (Text "North") ltac:(discriminate)) as (H1 & H2 & _).
  split; [exact H1|exact H2].
Defined.

(** C5 at the failing input: the row at 25:30:00 is the only row of
    station A. *)
Lemma unparsed_rows_raise_witness :
  hms "25:30:00" = None /\
  raised (get_next_train hms sort_arrival_default "A" 1 extract_path
                         late_world) = Some TypeError /\
  emitted late_world
          (get_next_train hms sort_arrival_default "A" 1 extract_path
                          late_world) = [].
Proof.
  split; [reflexivity|].
  apply (@unparsed_rows_raise hms sort_arrival_default late_world "A" 1%Z
           extract_path ex_stops [late_row] ex_trips ex_calendar
           (loaded_world_of _ _ _ _ _)).
  - exists late_row. split; [now left|vm_compute; auto].
  - intros r [<-|[]] _. reflexivity.
Defined.

(** C6 with a name no stop has, against the run at 09:00:00 that finds
    station A and has nothing to show. *)
Lemma station_not_found_witness :
  let w9 := world_of ex_stops ex_stop_times ex_trips ex_calendar
                     (wednesday_at 9 0 0) in
  emitted ex_world
          (get_next_train hms sort_arrival_default "C" 1 extract_path
                          ex_world) = [NoStationFound "C"] /\
  emitted w9 (get_next_train hms sort_arrival_default "A" 1 extract_path w9)
  <> emitted ex_world
             (get_next_train hms sort_arrival_default "C" 1 extract_path
                             ex_world).
Proof.
  cbv zeta.
  assert (Hno : forall s, In s ex_stops -> Stop.stop_name s <> Text "C").
  { intros s [<-|[<-|[<-|[]]]]; discriminate. }
  destruct (@station_not_found hms sort_arrival_default ex_world "C" 1%Z
              extract_path ex_stops ex_stop_times ex_trips ex_calendar
              ex_world_loaded Hno) as (_ & H1 & H2).
  split; [exact H1|].
  apply (H2 (world_of ex_stops ex_stop_times ex_trips ex_calendar
                      (wednesday_at 9 0 0))
            "A" 1%Z extract_path ex_stops ex_stop_times ex_trips ex_calendar
            (loaded_world_of _ _ _ _ _)).
  exists (Stop.mk "S1" "A"). split; [now left|reflexivity].
Defined.

(** C7 with a second run in the world the first run left. *)
Lemma same_inputs_same_output_witness :
  let first := get_next_train hms sort_arrival_default "A" 1 extract_path
                              ex_world in
  let second := get_next_train hms sort_arrival_default "A" 1 extract_path
                               (final first) in
  emitted ex_world first = emitted (final first) second /\
  raised first = raised second.
Proof.
  cbv zeta.
  apply (@same_inputs_same_output hms sort_arrival_default ex_world
           (final (get_next_train hms sort_arrival_default "A" 1
                                  extract_path ex_world))
           "A" 1%Z extract_path); reflexivity.
Defined.

(** C8 at the first scenario. *)
Lemma inputs_unchanged_witness :
  let r := get_next_train hms sort_arrival_default "A" 1 extract_path
                          ex_world in
  dirs (final r) = dirs ex_world /\
  nth 0 (heap (final r)) [] = map as_cell ex_stop_times.
Proof.
  cbv zeta.
  destruct (@inputs_unchanged hms sort_arrival_default ex_world "A" 1%Z
              extract_path) as (H1 & _ & _ & H2).
  split; [exact H1|].
  exact (H2 ex_stops ex_stop_times ex_trips ex_calendar ex_world_loaded).
Defined.

(** C10 at the first scenario, with no row per headsign. *)
Lemma none_per_headsign_witness :
  raised (get_next_train hms sort_arrival_default "A" 0 extract_path
                         ex_world) =
  raised (get_next_train hms sort_arrival_default "A" 2 extract_path
                         ex_world) /\
  (emitted ex_world
           (get_next_train hms sort_arrival_default "A" 0 extract_path
                           ex_world) = [NoStationFound "A"] \/
   emitted ex_world
           (get_next_train hms sort_arrival_default "A" 0 extract_path
                           ex_world) =
   [ StationFound "A" (station_stop_ids_of ex_stops "A");
     NextTrains "A"; Table [] ]).
Proof.
  destruct (@none_per_headsign hms sort_arrival_default
              sort_arrival_default_keeps ex_world "A" extract_path
              ex_stops ex_stop_times ex_trips ex_calendar ex_world_loaded)
    as [H1 H2].
  split; [exact (H1 2%Z)|]. apply H2. reflexivity.
Defined.

(** C10, counterexamples: asked for no row per headsign, the run raises
    all the same when the only row of the station has no time, and when
    [stop_times.txt] numbers its trips and [trips.txt] names them. *)
Lemma none_per_headsign_raises :
  raised (get_next_train hms sort_arrival_default "A" 0 extract_path
                         late_world) = Some TypeError /\
  raised (get_next_train hms sort_arrival_default "A" 0 extract_path
                         numbered_world) = Some ValueError.
Proof. split; vm_compute; reflexivity. Qed.

(* ================================================================== *)
(** * A refresh that fails *)

(** A download that is answered with another status than 200 is reported
    with that status, after one request, and writes no file. *)
Lemma fetch_failed (w : World) (url path : string) (answer : response) :
  web w url = Some answer ->
  status_code answer <> 200%Z ->
  fetch_gtfs_data url path w =
  Ok tt (mk_world (dirs w) (archives w) (read_only w) (web w)
                  (requested w ++ [url]) (clock w) (heap w)
                  (stdout w ++ [FailedDownload (status_code answer)])).
Proof.
  intros Hw H. unfold fetch_gtfs_data, requests_get, bind.
  rewrite Hw. apply Z.eqb_neq in H. now rewrite H.
Qed.

(** The entry point then goes on to open the archive; without an archive
    from an earlier refresh the run ends in an exception. *)
Lemma main_fetch_failed_no_archive to_time sort_values_arrival_time
      (station_name : string) (n : Z) (w : World) (answer : response) :
  web w gtfs_url = Some answer ->
  status_code answer <> 200%Z ->
  archives w save_path = None ->
  raised (main to_time sort_values_arrival_time station_name n true w) =
  Some (FileNotFoundError save_path).
Proof.
  intros Hw Hs Ha. unfold main, bind.
  rewrite (@fetch_failed w gtfs_url save_path answer Hw Hs).
  unfold extract_gtfs_info, print, open_zip, bind, with_heap_stdout.
  cbn [archives]. now rewrite Ha.
Qed.

(** C9, the failing run: with [--fetch] on a fresh machine and a 404
    answer, the failure is printed with its status after a single request,
    and then the run ends in [FileNotFoundError] for the archive. *)
Theorem failed_download_then_crash :
  let r := main hms sort_arrival_default "ADDISON STATION" 2 true
                fresh_world in
  raised r = Some (FileNotFoundError save_path) /\
  requested (final r) = [gtfs_url] /\
  stdout (final r) =
  [ FailedDownload 404;
    Info "GTFS Data Information:";
    Info ("URL: " ++ gtfs_url)%string;
    Info ("Save Path: " ++ save_path)%string ].
Proof. vm_compute. auto. Qed.

(** With an archive left by an earlier refresh, the same failure is
    followed by the extraction of that archive and the print of its
    tables. *)
Example failed_download_then_old_feed :
  let old := mk_feed (Some ex_stops) (Some []) (Some ex_trips)
                     (Some ex_stop_times) (Some ex_calendar) in
  let w := mk_world (fun _ => no_feed)
                    (fun p => if String.eqb p save_path
                              then Some (ZipOf old) else None)
                    (fun _ => false)
                    (fun _ => Some (mk_response 503 NotZip)) []
                    (wednesday_at 7 0 0) [] [] in
  let r := main hms sort_arrival_default "ADDISON STATION" 2 true w in
  raised r = None /\
  stops_txt (dirs (final r) extract_path) = Some ex_stops /\
  stdout (final r) =
  [ FailedDownload 503;
    Info "GTFS Data Information:";
    Info ("URL: " ++ gtfs_url)%string;
    Info ("Save Path: " ++ save_path)%string;
    Info "Stops:"; HeadStops ex_stops;
    Info "Routes:"; HeadRoutes [];
    Info "Trips:"; HeadTrips ex_trips;
    Info "Stop Times:"; HeadStopTimes ex_stop_times ].
Proof. vm_compute. auto. Qed.

(* ================================================================== *)
(** * More on the refresh *)

Lemma fetch_ok (w : World) (url path : string) (answer : response) :
  web w url = Some answer ->
  status_code answer = 200%Z ->
  read_only w path = false ->
  fetch_gtfs_data url path w =
  Ok tt (mk_world (dirs w)
                  (fun p => if String.eqb p path
                            then Some (content answer)
                            else archives w p)
                  (read_only w) (web w) (requested w ++ [url]) (clock w)
                  (heap w) (stdout w ++ [Saved path])).
Proof.
  intros Hw H Hr.
  unfold fetch_gtfs_data, requests_get, write_file, print, bind,
    with_heap_stdout.
  rewrite Hw, H. cbn [Z.eqb Pos.eqb read_only]. now rewrite Hr.
Qed.

(** X1: [fetch_gtfs_data] makes one request and touches no extracted
    file and no other archive.  Without an answer it raises and neither
    writes nor prints.  With status 200 it writes the content received to
    [path] and prints that it is saved, or raises when [path] cannot be
    written; with any other status no file changes, so an archive saved
    before is still there, and the status is printed. *)
Theorem fetch_writes_on_200_only (w : World) (url path : string) :
  let r := fetch_gtfs_data url path w in
  requested (final r) = requested w ++ [url] /\
  dirs (final r) = dirs w /\
  (forall p, p <> path -> archives (final r) p = archives w p) /\
  match web w url with
  | None =>
    raised r = Some RequestException /\
    archives (final r) path = archives w path /\
    emitted w r = []
  | Some answer =>
    if (status_code answer =? 200)%Z then
      if read_only w path then
        raised r = Some (OSError path) /\
        archives (final r) path = archives w path /\
        emitted w r = []
      else
        raised r = None /\
        archives (final r) path = Some (content answer) /\
        emitted w r = [Saved path]
    else
      raised r = None /\
      archives (final r) path = archives w path /\
      emitted w r = [FailedDownload (status_code answer)]
  end.
Proof.
  cbv zeta. destruct (web w url) as [answer|] eqn:Hw.
  - destruct (Z.eqb_spec (status_code answer) 200) as [E|E].
    + destruct (read_only w path) eqn:Hr.
      * unfold fetch_gtfs_data, requests_get, write_file, bind.
        rewrite Hw, E. cbn [Z.eqb Pos.eqb read_only]. rewrite Hr.
        cbn [final raised requested dirs archives]. repeat split.
        now apply emitted_nil.
      * rewrite (fetch_ok w url path Hw E Hr).
        cbn [final raised requested dirs archives]. repeat split.
        -- intros p Hp. apply String.eqb_neq in Hp. now rewrite Hp.
        -- now rewrite String.eqb_refl.
        -- now apply emitted_app.
    + rewrite (@fetch_failed w url path answer Hw E).
      cbn [final raised requested dirs archives]. repeat split.
      now apply emitted_app.
  - unfold fetch_gtfs_data, requests_get, bind. rewrite Hw.
    cbn [final raised requested dirs archives]. repeat split.
    now apply emitted_nil.
Qed.

Lemma extract_ok (w : World) (url save extract : string) (members : Feed) :
  archives w save = Some (ZipOf members) ->
  extract_gtfs_info url save extract w =
  Ok tt (mk_world (fun d => if String.eqb d extract
                            then extracted members (dirs w d) else dirs w d)
                  (archives w) (read_only w) (web w) (requested w) (clock w)
                  (heap w) (stdout w ++ extract_output url save)).
Proof.
  intros H.
  unfold extract_gtfs_info, open_zip, extractall, print, bind,
    with_heap_stdout.
  cbn [archives dirs read_only web requested clock heap stdout]. rewrite H.
  unfold extract_output. now rewrite <- !app_assoc.
Qed.

(** X2: [extract_gtfs_info] without a ZIP archive at [save_path] prints
    its three lines, leaves every extracted file as it was, and raises:
    [FileNotFoundError] when there is no file, [BadZipFile] when the
    file is no archive. *)
Theorem extract_without_archive (w : World) (url save extract : string) :
  (forall members, archives w save <> Some (ZipOf members)) ->
  let r := extract_gtfs_info url save extract w in
  raised r = Some (match archives w save with
                   | None => FileNotFoundError save
                   | Some _ => BadZipFile
                   end) /\
  dirs (final r) = dirs w /\
  emitted w r = extract_output url save.
Proof.
  intros H. cbv zeta.
  unfold extract_gtfs_info, open_zip, extractall, print, bind,
    with_heap_stdout.
  cbn [archives dirs read_only web requested clock heap stdout].
  destruct (archives w save) as [[members|]|] eqn:E.
  - now destruct (H members).
  - cbn [raised final dirs]. repeat split.
    apply emitted_app. cbn [final stdout]. unfold extract_output.
    now rewrite <- !app_assoc.
  - cbn [raised final dirs]. repeat split.
    apply emitted_app. cbn [final stdout]. unfold extract_output.
    now rewrite <- !app_assoc.
Qed.

Lemma print_info_ok (w : World) stops routes trips stop_times :
  stops_txt (dirs w extract_path) = Some stops ->
  routes_txt (dirs w extract_path) = Some routes ->
  trips_txt (dirs w extract_path) = Some trips ->
  stop_times_txt (dirs w extract_path) = Some stop_times ->
  print_gtfs_info w =
  Ok tt (with_heap_stdout w (heap w)
           (stdout w ++ info_output stops routes trips stop_times)).
Proof.
  intros H1 H2 H3 H4.
  unfold print_gtfs_info, read_csv, print, bind, with_heap_stdout.
  rewrite H1. cbn [dirs]. rewrite H2. cbn [dirs]. rewrite H3. cbn [dirs].
  rewrite H4.
  cbn [archives dirs read_only web requested clock heap stdout].
  unfold info_output, head. cbn [Z.leb Z.compare Z.to_nat Pos.to_nat
                                 Pos.iter_op Nat.add].
  now rewrite <- !app_assoc.
Qed.

Lemma print_info_no_routes (w : World) stops :
  stops_txt (dirs w extract_path) = Some stops ->
  routes_txt (dirs w extract_path) = None ->
  print_gtfs_info w =
  Raise (FileNotFoundError (path_join extract_path "routes.txt"))
        (with_heap_stdout w (heap w)
           (stdout w ++ [Info "Stops:"; HeadStops (firstn 5 stops)])).
Proof.
  intros H1 H2.
  unfold print_gtfs_info, read_csv, print, bind, with_heap_stdout.
  rewrite H1. cbn [dirs]. rewrite H2.
  cbn [archives dirs read_only web requested clock heap stdout].
  unfold head. cbn [Z.leb Z.compare Z.to_nat Pos.to_nat Pos.iter_op Nat.add].
  now rewrite <- !app_assoc.
Qed.

(** The world after a download that was answered with an archive, and
    its extraction. *)
Lemma refresh_ok to_time sort_values_arrival_time (station_name : string)
      (n : Z) (w : World) (members : Feed) stops routes trips stop_times :
  web w gtfs_url = Some (mk_response 200 (ZipOf members)) ->
  read_only w save_path = false ->
  stops_txt members = Some stops ->
  routes_txt members = Some routes ->
  trips_txt members = Some trips ->
  stop_times_txt members = Some stop_times ->
  main to_time sort_values_arrival_time station_name n true w =
  Ok tt (mk_world (fun d => if String.eqb d extract_path
                            then extracted members (dirs w d) else dirs w d)
                  (fun p => if String.eqb p save_path
                            then Some (ZipOf members) else archives w p)
                  (read_only w) (web w) (requested w ++ [gtfs_url])
                  (clock w) (heap w)
                  (stdout w ++ Saved save_path ::
                     extract_output gtfs_url save_path ++
                     info_output stops routes trips stop_times)).
Proof.
  intros Hw Hr H1 H2 H3 H4. unfold main, bind.
  rewrite (fetch_ok w gtfs_url save_path Hw eq_refl Hr).
  cbn [content].
  erewrite extract_ok
    by (cbn [archives]; rewrite String.eqb_refl; reflexivity).
  cbn [archives dirs read_only web requested clock heap stdout].
  erewrite print_info_ok.
  - unfold with_heap_stdout.
    cbn [archives dirs read_only web requested clock heap stdout].
    rewrite <- !app_assoc. reflexivity.
  - cbn [dirs]. rewrite String.eqb_refl. unfold extracted. cbn.
    now rewrite H1.
  - cbn [dirs]. rewrite String.eqb_refl. unfold extracted. cbn.
    now rewrite H2.
  - cbn [dirs]. rewrite String.eqb_refl. unfold extracted. cbn.
    now rewrite H3.
  - cbn [dirs]. rewrite String.eqb_refl. unfold extracted. cbn.
    now rewrite H4.
Qed.

(** X3: a refresh that downloads an archive with [stops.txt],
    [routes.txt], [trips.txt], [stop_times.txt] and [calendar.txt], and
    can write it to [save_path], ends normally after one request,
    prints the save line, the three information lines and the first
    five rows of the first four tables,
    keeps the archive at [save_path], and leaves under [extract_path] the
    tables of the archive for the query to read, whatever was there
    before. *)
Theorem refresh_round_trip to_time sort_values_arrival_time
        (station_name : string) (n : Z) (w : World) (members : Feed)
        stops routes trips stop_times calendar :
  web w gtfs_url = Some (mk_response 200 (ZipOf members)) ->
  read_only w save_path = false ->
  stops_txt members = Some stops ->
  routes_txt members = Some routes ->
  trips_txt members = Some trips ->
  stop_times_txt members = Some stop_times ->
  calendar_txt members = Some calendar ->
  let r := main to_time sort_values_arrival_time station_name n true w in
  succeeded r = true /\
  requested (final r) = requested w ++ [gtfs_url] /\
  emitted w r = Saved save_path :: extract_output gtfs_url save_path ++
                info_output stops routes trips stop_times /\
  archives (final r) save_path = Some (ZipOf members) /\
  loaded (final r) extract_path stops stop_times trips calendar.
Proof.
  intros Hw Hr H1 H2 H3 H4 H5. cbv zeta.
  rewrite (@refresh_ok to_time sort_values_arrival_time station_name n w
             members stops routes trips stop_times Hw Hr H1 H2 H3 H4).
  cbn [succeeded final requested archives]. split; [reflexivity|].
  split; [reflexivity|]. split; [now apply emitted_app|].
  split; [now rewrite String.eqb_refl|].
  unfold loaded. cbn [dirs]. rewrite String.eqb_refl. unfold extracted.
  cbn. now rewrite H1, H3, H4, H5.
Qed.

(** X4: an archive without [calendar.txt], written to a [save_path] that
    can be written, refreshes as well as any (the report does not read
    that file).  The [calendar.txt] of an earlier
    extraction then stays in place beside the new tables; and with none
    there, the query that follows ends in [FileNotFoundError] for
    [calendar.txt] and prints nothing. *)
Theorem refresh_without_calendar to_time sort_values_arrival_time
        (station_name : string) (n : Z) (w : World) (members : Feed)
        stops routes trips stop_times :
  web w gtfs_url = Some (mk_response 200 (ZipOf members)) ->
  read_only w save_path = false ->
  stops_txt members = Some stops ->
  routes_txt members = Some routes ->
  trips_txt members = Some trips ->
  stop_times_txt members = Some stop_times ->
  calendar_txt members = None ->
  let r := main to_time sort_values_arrival_time station_name n true w in
  let q := get_next_train to_time sort_values_arrival_time station_name n
                          extract_path (final r) in
  succeeded r = true /\
  (forall old, calendar_txt (dirs w extract_path) = Some old ->
               loaded (final r) extract_path stops stop_times trips old) /\
  (calendar_txt (dirs w extract_path) = None ->
   raised q = Some (FileNotFoundError (path_join extract_path "calendar.txt"))
   /\ emitted (final r) q = []).
Proof.
  intros Hw Hr H1 H2 H3 H4 H5. cbv zeta.
  rewrite (@refresh_ok to_time sort_values_arrival_time station_name n w
             members stops routes trips stop_times Hw Hr H1 H2 H3 H4).
  cbn [succeeded final]. split; [reflexivity|]. split.
  - intros old Hold. unfold loaded. cbn [dirs]. rewrite String.eqb_refl.
    unfold extracted. cbn. now rewrite H1, H3, H4, H5, Hold.
  - intros Hnone.
    match goal with
    | |- context [get_next_train _ _ _ _ _ ?w1] =>
      assert (Hm : missing (dirs w1 extract_path) = Some "calendar.txt")
    end.
    { unfold missing. cbn [dirs]. rewrite String.eqb_refl.
      unfold extracted. cbn. now rewrite H1, H3, H4, H5, Hnone. }
    split.
    + now rewrite (run_missing to_time sort_values_arrival_time _
                               station_name n _ Hm).
    + now rewrite (emitted_missing to_time sort_values_arrival_time _
                                   station_name n _ Hm).
Qed.

(** X5: a download answered with status 200 and something that is no ZIP
    archive is saved all the same where [save_path] can be written, over
    the archive of an earlier refresh; the run then ends in
    [BadZipFile], with the extracted files as they were. *)
Theorem refresh_with_bad_archive to_time sort_values_arrival_time
        (station_name : string) (n : Z) (w : World) :
  web w gtfs_url = Some (mk_response 200 NotZip) ->
  read_only w save_path = false ->
  let r := main to_time sort_values_arrival_time station_name n true w in
  raised r = Some BadZipFile /\
  archives (final r) save_path = Some NotZip /\
  dirs (final r) = dirs w /\
  emitted w r = Saved save_path :: extract_output gtfs_url save_path.
Proof.
  intros Hw Hr. cbv zeta. unfold main, bind.
  rewrite (fetch_ok w gtfs_url save_path Hw eq_refl Hr). cbn [content].
  unfold extract_gtfs_info, open_zip, print, bind, with_heap_stdout.
  cbn [archives dirs read_only web requested clock heap stdout].
  rewrite String.eqb_refl. cbn [raised final archives dirs].
  rewrite String.eqb_refl. repeat split.
  apply emitted_app. cbn [final stdout]. unfold extract_output.
  now rewrite <- !app_assoc.
Qed.

(** X6: an archive without [routes.txt], with none left by an earlier
    extraction and [save_path] writable, is saved and extracted, and the
    report then stops after the first table: the run ends in
    [FileNotFoundError] for [routes.txt].  The extracted tables are in
    place all the same, and the query, which never reads [routes.txt],
    finds them. *)
Theorem refresh_without_routes to_time sort_values_arrival_time
        (station_name : string) (n : Z) (w : World) (members : Feed)
        stops :
  web w gtfs_url = Some (mk_response 200 (ZipOf members)) ->
  read_only w save_path = false ->
  stops_txt members = Some stops ->
  routes_txt members = None ->
  routes_txt (dirs w extract_path) = None ->
  let r := main to_time sort_values_arrival_time station_name n true w in
  raised r = Some (FileNotFoundError (path_join extract_path "routes.txt"))
  /\
  emitted w r = Saved save_path :: extract_output gtfs_url save_path ++
                [Info "Stops:"; HeadStops (firstn 5 stops)] /\
  dirs (final r) extract_path = extracted members (dirs w extract_path) /\
  (forall stop_times trips calendar,
      stop_times_txt members = Some stop_times ->
      trips_txt members = Some trips ->
      calendar_txt members = Some calendar ->
      loaded (final r) extract_path stops stop_times trips calendar).
Proof.
  intros Hw Hr H1 H2 Hold. cbv zeta. unfold main, bind.
  rewrite (fetch_ok w gtfs_url save_path Hw eq_refl Hr). cbn [content].
  erewrite extract_ok
    by (cbn [archives]; rewrite String.eqb_refl; reflexivity).
  cbn [archives dirs read_only web requested clock heap stdout].
  erewrite (@print_info_no_routes _ stops).
  - unfold with_heap_stdout.
    cbn [raised final dirs archives read_only web requested clock heap
         stdout].
    rewrite String.eqb_refl.
    split; [reflexivity|]. split; [|split; [reflexivity|]].
    + apply emitted_app. cbn [final stdout].
      rewrite <- !app_assoc. reflexivity.
    + intros stop_times trips calendar H3 H4 H5. unfold loaded.
      unfold extracted. cbn. now rewrite H1, H3, H4, H5.
  - cbn [dirs]. rewrite String.eqb_refl. unfold extracted. cbn.
    now rewrite H1.
  - cbn [dirs]. rewrite String.eqb_refl. unfold extracted. cbn.
    now rewrite H2, Hold.
Qed.

(** ** The refresh at worked inputs *)

Example fetch_without_answer :
  let r := fetch_gtfs_data gtfs_url save_path offline_world in
  raised r = Some RequestException /\ requested (final r) = [gtfs_url] /\
  stdout (final r) = [].
Proof. vm_compute. auto. Qed.

Example fetch_without_permission :
  let w := locked_world (mk_response 200 (ZipOf ex_archive)) in
  let r := fetch_gtfs_data gtfs_url save_path w in
  raised r = Some (OSError save_path) /\
  archives (final r) save_path = None /\ stdout (final r) = [].
Proof. vm_compute. auto. Qed.

Lemma extract_without_archive_witness :
  let r := extract_gtfs_info gtfs_url save_path extract_path fresh_world in
  raised r = Some (FileNotFoundError save_path) /\
  dirs (final r) = dirs fresh_world /\
  emitted fresh_world r = extract_output gtfs_url save_path.
Proof.
  apply (@extract_without_archive fresh_world gtfs_url save_path
                                  extract_path).
  intros members. vm_compute. discriminate.
Defined.

Lemma refresh_round_trip_witness :
  let w := web_world (mk_response 200 (ZipOf ex_archive)) in
  let r := main hms sort_arrival_default "A" 1 true w in
  succeeded r = true /\
  requested (final r) = [gtfs_url] /\
  emitted w r = Saved save_path :: extract_output gtfs_url save_path ++
                info_output ex_stops ex_routes ex_trips ex_stop_times /\
  archives (final r) save_path = Some (ZipOf ex_archive) /\
  loaded (final r) extract_path ex_stops ex_stop_times ex_trips ex_calendar.
Proof.
  apply (@refresh_round_trip hms sort_arrival_default "A" 1%Z
           (web_world (mk_response 200 (ZipOf ex_archive))) ex_archive
           ex_stops ex_routes ex_trips ex_stop_times ex_calendar);
    reflexivity.
Defined.

Lemma refresh_without_calendar_witness :
  let w := web_world (mk_response 200 (ZipOf ex_archive_no_calendar)) in
  let r := main hms sort_arrival_default "A" 1 true w in
  let q := get_next_train hms sort_arrival_default "A" 1 extract_path
                          (final r) in
  succeeded r = true /\
  raised q = Some (FileNotFoundError (path_join extract_path "calendar.txt"))
  /\ emitted (final r) q = [].
Proof.
  cbv zeta.
  destruct (@refresh_without_calendar hms sort_arrival_default "A" 1%Z
              (web_world (mk_response 200 (ZipOf ex_archive_no_calendar)))
              ex_archive_no_calendar ex_stops ex_routes ex_trips
              ex_stop_times eq_refl eq_refl eq_refl eq_refl eq_refl
              eq_refl eq_refl) as (H1 & _ & H3).
  split; [exact H1|]. apply H3. reflexivity.
Defined.

Lemma refresh_with_bad_archive_witness :
  let w := web_world (mk_response 200 NotZip) in
  let r := main hms sort_arrival_default "A" 1 true w in
  raised r = Some BadZipFile /\
  archives (final r) save_path = Some NotZip /\
  dirs (final r) = dirs w /\
  emitted w r = Saved save_path :: extract_output gtfs_url save_path.
Proof.
  apply (@refresh_with_bad_archive hms sort_arrival_default "A" 1%Z
           (web_world (mk_response 200 NotZip))); reflexivity.
Defined.

Lemma refresh_without_routes_witness :
  let w := web_world (mk_response 200 (ZipOf ex_archive_no_routes)) in
  let r := main hms sort_arrival_default "A" 1 true w in
  raised r = Some (FileNotFoundError (path_join extract_path "routes.txt"))
  /\
  emitted w r = Saved save_path :: extract_output gtfs_url save_path ++
                [Info "Stops:"; HeadStops ex_stops] /\
  loaded (final r) extract_path ex_stops ex_stop_times ex_trips ex_calendar.
Proof.
  cbv zeta.
  destruct (@refresh_without_routes hms sort_arrival_default "A" 1%Z
              (web_world (mk_response 200 (ZipOf ex_archive_no_routes)))
              ex_archive_no_routes ex_stops eq_refl eq_refl eq_refl
              eq_refl eq_refl) as (H1 & H2 & _ & H4).
  split; [exact H1|]. split; [exact H2|].
  apply H4; reflexivity.
Defined.

(* ================================================================== *)
(** * More on the query *)

Lemma time_leb_antisym (a b : time) :
  time_leb a b = true -> time_leb b a = true -> a = b.
Proof.
  unfold time_leb. rewrite (time_compare_antisym a b).
  destruct (time_compare a b) eqn:E; simpl; try discriminate.
  intros _ _. now apply time_compare_eq.
Qed.

Lemma NoDup_map_eq {A B} (f : A -> B) (l : list A) (a b : A) :
  NoDup (map f l) -> In a l -> In b l -> f a = f b -> a = b.
Proof.
  induction l as [|x l IH]; simpl; intros Hn Ha Hb E; [contradiction|].
  inversion Hn as [|? ? Hx Hl]; subst.
  destruct Ha as [<-|Ha], Hb as [<-|Hb]; auto.
  - exfalso. apply Hx. rewrite E. now apply in_map.
  - exfalso. apply Hx. rewrite <- E. now apply in_map.
Qed.

(** Two sorted arrangements of the same rows are one, when no two rows
    are tied. *)
Lemma sorted_perm_unique {A} (le : A -> A -> bool) (l : list A) :
  forall l',
    (forall a b, In a l -> In b l -> le a b = true -> le b a = true ->
                 a = b) ->
    StronglySorted (fun a b => le a b = true) l ->
    StronglySorted (fun a b => le a b = true) l' ->
    Permutation l l' -> l = l'.
Proof.
  induction l as [|x l IH]; intros l' Ha Hs Hs' Hp.
  - now apply Permutation_nil in Hp.
  - destruct l' as [|y l'].
    { apply Permutation_sym, Permutation_nil in Hp. discriminate. }
    assert (E : x = y).
    { assert (Hy : In y (x :: l))
        by (eapply Permutation_in; [symmetry; exact Hp|now left]).
      assert (Hx : In x (y :: l'))
        by (eapply Permutation_in; [exact Hp|now left]).
      apply StronglySorted_inv in Hs, Hs'.
      destruct Hs as [_ Hs], Hs' as [_ Hs'].
      rewrite Forall_forall in Hs, Hs'.
      destruct Hy as [Hy|Hy]; auto. destruct Hx as [Hx|Hx]; auto.
      apply Ha; [now left|now right|now apply Hs|now apply Hs']. }
    subst y. f_equal. apply Permutation_cons_inv in Hp.
    apply StronglySorted_inv in Hs, Hs'.
    apply IH; try tauto. intros a b Hina Hinb. apply Ha; now right.
Qed.

Lemma flat_map_length_le {A B} (f : A -> list B) (k : nat) (l : list A) :
  (forall x, length (f x) <= k) -> length (flat_map f l) <= k * length l.
Proof.
  intros H. induction l as [|x l IH]; simpl; [lia|].
  rewrite length_app. specialize (H x). lia.
Qed.

Lemma group_keys_length (df df' : list Train.t) :
  Permutation df df' -> length (group_keys df) = length (group_keys df').
Proof.
  intros Hp. apply Permutation_length, NoDup_Permutation;
    try apply group_keys_NoDup.
  intros h. rewrite !group_keys_In.
  assert (E : In h (map Train.trip_headsign df) <->
              In h (map Train.trip_headsign df')).
  { split; apply Permutation_in.
    - now apply Permutation_map.
    - now apply Permutation_map, Permutation_sym. }
  tauto.
Qed.

Lemma is_object_true (column : list value) :
  is_object column = true <-> exists v, In v column /\ is_text v = true.
Proof. apply existsb_exists. Qed.

Lemma is_object_false (column : list value) :
  is_object column = false <-> forall v, In v column -> is_text v = false.
Proof.
  unfold is_object. split.
  - intros H v Hv. destruct (is_text v) eqn:E; auto.
    assert (T : existsb is_text column = true)
      by (apply existsb_exists; eauto).
    congruence.
  - intros H. destruct (existsb is_text column) eqn:E; auto.
    apply existsb_exists in E. destruct E as (v & Hv & E).
    rewrite (H v Hv) in E. discriminate.
Qed.

Section MoreQueryFacts.
Variable to_time : string -> option time.
Variable sort_values_arrival_time : list Train.t -> list Train.t.

Let query := get_next_train to_time sort_values_arrival_time.

(** X7: without one of [stops.txt], [stop_times.txt], [trips.txt],
    [calendar.txt] the query ends in [FileNotFoundError] for the first of
    them that is not there, in that order; it prints nothing, not even
    that the station is unknown, and changes no file. *)
Theorem query_without_file (w : World) (station_name : string) (n : Z)
        (extract_path file : string) :
  missing (dirs w extract_path) = Some file ->
  let r := query station_name n extract_path w in
  raised r = Some (FileNotFoundError (path_join extract_path file)) /\
  emitted w r = [] /\
  dirs (final r) = dirs w /\
  archives (final r) = archives w.
Proof.
  intros H. cbv zeta. unfold query.
  rewrite (emitted_missing to_time sort_values_arrival_time _
                           station_name n _ H).
  rewrite (run_missing to_time sort_values_arrival_time _
                       station_name n _ H).
  repeat split.
Qed.

(** X8: the query makes no request and writes no file, whatever the
    files and the arguments: without [--fetch] the entry point leaves the
    web, the archives, the extracted files and the clock alone, and only
    adds to what was printed. *)
Theorem query_is_offline (w : World) (station_name : string) (n : Z) :
  let r := main to_time sort_values_arrival_time station_name n false w in
  requested (final r) = requested w /\
  archives (final r) = archives w /\
  dirs (final r) = dirs w /\
  clock (final r) = clock w /\
  stdout (final r) = stdout w ++ emitted w r.
Proof.
  cbv zeta. unfold main.
  destruct (missing (dirs w extract_path)) as [file|] eqn:Em.
  - rewrite (emitted_missing to_time sort_values_arrival_time _
                             station_name n _ Em).
    rewrite (run_missing to_time sort_values_arrival_time _
                         station_name n _ Em).
    cbn [final requested archives dirs clock stdout with_heap_stdout].
    now rewrite app_nil_r.
  - destruct (missing_None _ _ Em) as (stops & st & trips & cal & Hl).
    rewrite (emitted_loaded to_time sort_values_arrival_time _ n Hl).
    destruct (station_stop_ids_of stops station_name) as [|i ids] eqn:E.
    + rewrite (run_not_found to_time sort_values_arrival_time _ n Hl E).
      repeat split.
    + assert (Hne : station_stop_ids_of stops station_name <> [])
        by (rewrite E; discriminate).
      rewrite (run_found_or_error to_time sort_values_arrival_time _ n
                                  Hl Hne).
      cbv zeta. rewrite E.
      destruct (error_of _ _ _ _ _);
        cbn [final requested archives dirs clock stdout with_heap_stdout];
        repeat split.
      now rewrite app_nil_r.
Qed.

(** X18: the query prints all its lines or none: a run that raises,
    whatever it raises, has printed nothing; and on four files that are
    there it raises nothing but the [TypeError] of line 108 and the
    [ValueError] of line 111. *)
Theorem query_raises_before_printing (w : World) (station_name : string)
        (n : Z) (extract_path : string) :
  let r := query station_name n extract_path w in
  (forall e, raised r = Some e -> emitted w r = []) /\
  (missing (dirs w extract_path) = None ->
   raised r = None \/ raised r = Some TypeError \/
   raised r = Some ValueError).
Proof.
  cbv zeta. split.
  - intros e. apply emitted_raised.
  - intros Hm.
    destruct (missing_None _ _ Hm) as (stops & st & trips & cal & Hl).
    unfold query.
    rewrite (raised_loaded to_time sort_values_arrival_time _ n Hl).
    destruct (station_stop_ids_of stops station_name); auto.
    unfold error_of.
    destruct (no_time _ _ _); auto. destruct (merge_refused _ _ _ _ _); auto.
Qed.

(** X16: when [stop_times.txt] and [trips.txt] do not write their trip
    identifiers in the same way, one as text and the other as numbers,
    and a row of the station is later than now, the merge of line 111
    raises [ValueError] and nothing is printed. *)
Theorem keys_of_two_kinds_raise (w : World) (station_name : string)
        (n : Z) (extract_path : string) stops stop_times trips calendar
        (r : StopTime.t value) (t : time) (trip : Trip.t) :
  loaded w extract_path stops stop_times trips calendar ->
  In r stop_times ->
  In (StopTime.stop_id r) (station_stop_ids_of stops station_name) ->
  parse to_time (StopTime.arrival_time r) = Some t ->
  time_ltb (time_of (clock w)) t = true ->
  In trip trips ->
  (is_text (StopTime.trip_id r) = true /\
   forall x, In x trips -> is_text (Trip.trip_id x) = false) \/
  ((forall x, In x stop_times -> is_text (StopTime.trip_id x) = false) /\
   is_text (Trip.trip_id trip) = true) ->
  raised (query station_name n extract_path w) = Some ValueError /\
  emitted w (query station_name n extract_path w) = [].
Proof.
  intros Hl Hr Hi Ht Hlt Htrip Hk.
  assert (Hne : station_stop_ids_of stops station_name <> [])
    by (intros E; rewrite E in Hi; contradiction).
  assert (He : error_of to_time (station_stop_ids_of stops station_name)
                        (clock w) stop_times trips = Some ValueError).
  { unfold error_of. rewrite (no_time_false _ _ _ _ Hr Hi Ht).
    assert (Hin : In (StopTime.mk (StopTime.trip_id r) t
                                  (StopTime.departure_time r)
                                  (StopTime.stop_id r))
                     (later_rows to_time
                        (station_stop_ids_of stops station_name)
                        (time_of (clock w)) stop_times)).
    { unfold later_rows. apply in_flat_map. exists r. split; auto.
      unfold later_row. apply isin_In in Hi. rewrite Hi, Ht, Hlt.
      now left. }
    unfold merge_refused, keys_clash.
    destruct (map (@StopTime.trip_id time) _) as [|k ks] eqn:El.
    { apply (in_map (@StopTime.trip_id time)) in Hin.
      now rewrite El in Hin. }
    destruct (map Trip.trip_id trips) as [|k' ks'] eqn:Er.
    { apply (in_map Trip.trip_id) in Htrip. now rewrite Er in Htrip. }
    rewrite <- El, <- Er.
    destruct Hk as [[Hk1 Hk2]|[Hk1 Hk2]].
    - assert (H1 : existsb is_text
                     (map (@StopTime.trip_id time)
                          (later_rows to_time
                             (station_stop_ids_of stops station_name)
                             (time_of (clock w)) stop_times)) = true).
      { apply existsb_exists. exists (StopTime.trip_id r). split; auto.
        apply (in_map (@StopTime.trip_id time)) in Hin. exact Hin. }
      assert (H2 : is_object (map Trip.trip_id trips) = false).
      { apply is_object_false. intros v Hv. apply in_map_iff in Hv.
        destruct Hv as (x & <- & Hx). auto. }
      now rewrite H1, H2.
    - assert (H1 : is_object (map (@StopTime.trip_id value) stop_times)
                   = false).
      { apply is_object_false. intros v Hv. apply in_map_iff in Hv.
        destruct Hv as (x & <- & Hx). auto. }
      assert (H2 : is_object (map Trip.trip_id trips) = true).
      { apply is_object_true. exists (Trip.trip_id trip). split; auto.
        now apply in_map. }
      rewrite H1, H2. cbn. now rewrite orb_true_r. }
  unfold query.
  rewrite (emitted_error to_time sort_values_arrival_time _ n Hl Hne He).
  now rewrite (run_error to_time sort_values_arrival_time _ n Hl Hne He).
Qed.

(** X15: a row of [stop_times.txt] whose [arrival_time] does not parse
    is as good as absent in a run that ends normally: the run without
    the row ends normally too, and prints the same (the row taken out
    must not be the one that made its [trip_id] column text). *)
Theorem unparsed_row_dropped (w : World) (station_name : string) (n : Z)
        (extract_path : string) stops trips calendar
        (l1 l2 : list (StopTime.t value)) (r : StopTime.t value) :
  loaded w extract_path stops (l1 ++ r :: l2) trips calendar ->
  parse to_time (StopTime.arrival_time r) = None ->
  is_object (map (@StopTime.trip_id value) (l1 ++ l2)) =
  is_object (map (@StopTime.trip_id value) (l1 ++ r :: l2)) ->
  succeeded (query station_name n extract_path w) = true ->
  succeeded (query station_name n extract_path
                   (with_stop_times w extract_path (l1 ++ l2))) = true /\
  emitted w (query station_name n extract_path w) =
  emitted (with_stop_times w extract_path (l1 ++ l2))
          (query station_name n extract_path
                 (with_stop_times w extract_path (l1 ++ l2))).
Proof.
  intros Hl Hp Hd Hs.
  assert (Hr : forall ids,
             later_row to_time ids (time_of (clock w)) r = []).
  { intros ids. unfold later_row. rewrite Hp. now destruct (isin _ _). }
  assert (Hs' : succeeded (query station_name n extract_path
                             (with_stop_times w extract_path (l1 ++ l2)))
                = true).
  { pose proof (loaded_with_stop_times (l1 ++ l2) Hl) as Hl'.
    apply succeeded_raised. apply succeeded_raised in Hs. unfold query in *.
    rewrite (raised_loaded to_time sort_values_arrival_time _ n Hl) in Hs.
    rewrite (raised_loaded to_time sort_values_arrival_time _ n Hl').
    destruct (station_stop_ids_of stops station_name) as [|i ids]; auto.
    cbn [with_stop_times with_feed clock].
    apply error_of_None in Hs. destruct Hs as [H1 H2].
    apply error_of_None. split.
    - exact (no_time_without_unparsed _ _ _ _ _ Hp H1).
    - rewrite <- (merge_refused_without to_time _ _ _ _ _ trips (Hr _) Hd).
      exact H2. }
  split; [exact Hs'|].
  exact (@emitted_without_row to_time sort_values_arrival_time w
           station_name n extract_path stops trips calendar l1 l2 r
           Hl Hr Hs Hs').
Qed.

(** X12: a negative [num_trains_per_route] is accepted, and the run
    ends as it ends for any other count: [head(n)] then keeps, of each
    headsign, all candidates but the last [-n] in the stable arrival
    order, and none of a headsign that has no more than [-n]. *)
Theorem negative_count_drops_last (w : World) (station_name : string)
        (n : Z) (extract_path : string) stops stop_times trips calendar :
  loaded w extract_path stops stop_times trips calendar ->
  (n < 0)%Z ->
  let cands := candidates to_time (station_stop_ids_of stops station_name)
                          (clock w) stop_times trips calendar in
  (forall n', raised (query station_name n extract_path w) =
              raised (query station_name n' extract_path w)) /\
  (forall rows,
      In (Table rows) (emitted w (query station_name n extract_path w)) ->
      rows = map departure_of (sort_values_arrival_time (kept n cands))) /\
  forall h,
    h <> NaN ->
    let ordered := sort_stable arrival_leb (group h cands) in
    group h (kept n cands) =
    firstn (length (group h cands) - Z.to_nat (- n)) ordered /\
    (length (group h cands) <= Z.to_nat (- n) ->
     group h (kept n cands) = []).
Proof.
  intros Hl Hn. cbv zeta. split; [|split].
  - intros n'. unfold query.
    now rewrite !(raised_loaded to_time sort_values_arrival_time _ _ Hl).
  - intros rows Hin.
    now destruct (@emitted_table to_time sort_values_arrival_time
                                 _ _ _ _ _ _ _ _ _ Hl Hin) as (_ & _ & ->).
  - intros h Hh. rewrite group_kept by exact Hh. unfold head.
    destruct (Z.leb_spec 0 n) as [H|_]; [lia|].
    rewrite <- (Permutation_length (sort_stable_perm arrival_leb _)).
    split; [reflexivity|]. intros Hle.
    replace (_ - _) with 0 by lia. reflexivity.
Qed.

Hypothesis sort_keeps :
  forall l x, In x (sort_values_arrival_time l) -> In x l.
Hypothesis sort_permutes :
  forall l, Permutation l (sort_values_arrival_time l).
Hypothesis sort_orders :
  forall l, StronglySorted (fun a b => arrival_leb a b = true)
                           (sort_values_arrival_time l).

(** X9: every printed departure is at a stop that [stops.txt] gives the
    name asked for; it has the trip, stop, departure time and parsed
    arrival time of one row of [stop_times.txt], whose [arrival_time] is
    text, and the route and headsign of a row of [trips.txt] with that
    trip. *)
Theorem printed_rows_come_from_files (w : World) (station_name : string)
        (n : Z) (extract_path : string) stops stop_times trips calendar
        (rows : list Departure.t) (d : Departure.t) :
  loaded w extract_path stops stop_times trips calendar ->
  In (Table rows) (emitted w (query station_name n extract_path w)) ->
  In d rows ->
  (exists s, In s stops /\
             Stop.stop_name s = Text station_name /\
             Stop.stop_id s = Departure.stop_id d) /\
  (exists r text,
      In r stop_times /\
      StopTime.stop_id r = Departure.stop_id d /\
      StopTime.trip_id r = Departure.trip_id d /\
      StopTime.departure_time r = Departure.departure_time d /\
      StopTime.arrival_time r = Text text /\
      to_time text = Some (Departure.arrival_time d)) /\
  (exists trip, In trip trips /\
                Trip.trip_id trip = Departure.trip_id d /\
                Trip.route_id trip = Departure.route_id d /\
                Trip.trip_headsign trip = Departure.trip_headsign d).
Proof.
  intros Hl Hin Hd.
  destruct (@emitted_table to_time sort_values_arrival_time
                           _ _ _ _ _ _ _ _ _ Hl Hin) as (_ & _ & ->).
  apply in_map_iff in Hd. destruct Hd as (x & <- & Hx).
  apply sort_keeps, kept_incl in Hx.
  unfold candidates, in_service in Hx. apply filter_In in Hx.
  destruct Hx as [Hx _]. apply merge_In in Hx.
  destruct Hx as (l & trip & Hlr & Htrip & Eid & ->).
  apply later_rows_In in Hlr.
  destruct Hlr as (_ & r & Hr & Hi & Ht & E1 & E2 & E3).
  cbn. split; [|split].
  - apply isin_In in Hi. unfold station_stop_ids_of in Hi.
    apply in_map_iff in Hi. destruct Hi as (s & Es & Hs).
    apply filter_In in Hs. destruct Hs as [Hs En].
    apply eq_str_eq in En. exists s. repeat split; auto. congruence.
  - destruct (StopTime.arrival_time r) as [text|z|] eqn:Ea;
      try discriminate.
    exists r, text. repeat split; auto.
  - exists trip. repeat split; auto.
Qed.

(** X17: no printed departure is without a headsign: the rows of a trip
    whose [trip_headsign] is missing are in no group of line 124. *)
Theorem printed_rows_have_headsign (w : World) (station_name : string)
        (n : Z) (extract_path : string) stops stop_times trips calendar
        (rows : list Departure.t) (d : Departure.t) :
  loaded w extract_path stops stop_times trips calendar ->
  In (Table rows) (emitted w (query station_name n extract_path w)) ->
  In d rows ->
  Departure.trip_headsign d <> NaN.
Proof.
  intros Hl Hin Hd.
  destruct (@emitted_table to_time sort_values_arrival_time
                           _ _ _ _ _ _ _ _ _ Hl Hin) as (_ & _ & ->).
  apply in_map_iff in Hd. destruct Hd as (x & <- & Hx).
  apply sort_keeps in Hx. cbn. exact (kept_headsign _ _ _ Hx).
Qed.

(** X10: with at least one row per headsign asked for, a row of
    [stop_times.txt] at a stop of the station, later than now, on a trip
    with a headsign whose service runs today, is printed or beaten: a
    table that is printed has a departure to the headsign of its trip
    that arrives no later. *)
Theorem soonest_per_headsign (w : World) (station_name : string) (n : Z)
        (extract_path : string) stops stop_times trips calendar
        (r : StopTime.t value) (t : time) (trip : Trip.t)
        (c : Calendar.t) (rows : list Departure.t) :
  loaded w extract_path stops stop_times trips calendar ->
  (1 <= n)%Z ->
  In r stop_times ->
  In (StopTime.stop_id r) (station_stop_ids_of stops station_name) ->
  parse to_time (StopTime.arrival_time r) = Some t ->
  time_ltb (time_of (clock w)) t = true ->
  In trip trips ->
  StopTime.trip_id r = Trip.trip_id trip ->
  Trip.trip_headsign trip <> NaN ->
  In c calendar ->
  Calendar.service_id c = Trip.service_id trip ->
  Calendar.flag (current_day_of (clock w)) c = Num 1 ->
  In (Table rows) (emitted w (query station_name n extract_path w)) ->
  exists d,
    In d rows /\
    Departure.trip_headsign d = Trip.trip_headsign trip /\
    time_leb (Departure.arrival_time d) t = true.
Proof.
  intros Hl Hn Hr Hid Ht Hlt Htrip Eid Hh Hc Es Ef Hin.
  destruct (@emitted_table to_time sort_values_arrival_time
                           _ _ _ _ _ _ _ _ _ Hl Hin) as (_ & _ & ->).
  pose proof (@candidates_complete to_time _ _ _ _ _ _ _ _ _ Hr Hid Ht Hlt
                                   Htrip Eid Hc Es Ef) as Hx.
  set (x := Train.mk _ _ _ _ _ _ _) in Hx.
  set (cands := candidates _ _ _ _ _ _) in *.
  set (h := Trip.trip_headsign trip) in *.
  assert (Hg : In x (group h cands)) by (apply group_In; split; auto).
  assert (Hat : Train.arrival_time x = t) by reflexivity.
  clearbody x.
  assert (Hs : In x (sort_stable arrival_leb (group h cands)))
    by (eapply Permutation_in; [apply sort_stable_perm|exact Hg]).
  pose proof (sort_stable_sorted _ arrival_leb_total arrival_leb_trans
                                 (group h cands)) as Hsorted.
  pose proof (group_kept n cands Hh) as E.
  rewrite head_firstn in E by lia.
  destruct (sort_stable arrival_leb (group h cands)) as [|y s] eqn:Esort;
    [contradiction|].
  destruct (Z.to_nat n) as [|k] eqn:En; [lia|]. cbn [firstn] in E.
  assert (Hy : In y (group h (kept n cands))) by (rewrite E; now left).
  apply group_In in Hy. destruct Hy as [Hy Hyh].
  exists (departure_of y). split; [|split].
  - apply in_map. eapply Permutation_in; [apply sort_permutes|exact Hy].
  - exact Hyh.
  - cbn. rewrite <- Hat. destruct Hs as [<-|Hs]; [apply time_leb_refl|].
    apply StronglySorted_inv in Hsorted. destruct Hsorted as [_ Hall].
    rewrite Forall_forall in Hall. apply (Hall x Hs).
Qed.

(** X11: when [num_trains_per_route] is at least the number of
    candidates, nothing is cut: every row of [stop_times.txt] at a stop of
    the station, later than now, on a trip with a headsign whose service
    runs today, is in the table that is printed, with that trip. *)
Theorem all_printed_when_room (w : World) (station_name : string) (n : Z)
        (extract_path : string) stops stop_times trips calendar
        (r : StopTime.t value) (t : time) (trip : Trip.t)
        (c : Calendar.t) (rows : list Departure.t) :
  loaded w extract_path stops stop_times trips calendar ->
  (Z.of_nat (length (candidates to_time
                       (station_stop_ids_of stops station_name) (clock w)
                       stop_times trips calendar)) <= n)%Z ->
  In r stop_times ->
  In (StopTime.stop_id r) (station_stop_ids_of stops station_name) ->
  parse to_time (StopTime.arrival_time r) = Some t ->
  time_ltb (time_of (clock w)) t = true ->
  In trip trips ->
  StopTime.trip_id r = Trip.trip_id trip ->
  Trip.trip_headsign trip <> NaN ->
  In c calendar ->
  Calendar.service_id c = Trip.service_id trip ->
  Calendar.flag (current_day_of (clock w)) c = Num 1 ->
  In (Table rows) (emitted w (query station_name n extract_path w)) ->
  In (Departure.mk (StopTime.stop_id r) (StopTime.trip_id r) t
                   (StopTime.departure_time r) (Trip.route_id trip)
                   (Trip.trip_headsign trip)) rows.
Proof.
  intros Hl Hn Hr Hid Ht Hlt Htrip Eid Hh Hc Es Ef Hin.
  destruct (@emitted_table to_time sort_values_arrival_time
                           _ _ _ _ _ _ _ _ _ Hl Hin) as (_ & _ & ->).
  pose proof (@candidates_complete to_time _ _ _ _ _ _ _ _ _ Hr Hid Ht Hlt
                                   Htrip Eid Hc Es Ef) as Hx.
  set (x := Train.mk _ _ _ _ _ _ _) in Hx.
  set (cands := candidates _ _ _ _ _ _) in *.
  set (h := Trip.trip_headsign trip) in *.
  assert (Hg : In x (group h cands)) by (apply group_In; split; auto).
  assert (Hs : In x (sort_stable arrival_leb (group h cands)))
    by (eapply Permutation_in; [apply sort_stable_perm|exact Hg]).
  pose proof (group_kept n cands Hh) as E.
  assert (Hlen : length (sort_stable arrival_leb (group h cands))
                 <= Z.to_nat n).
  { rewrite <- (Permutation_length (sort_stable_perm arrival_leb _)).
    unfold group.
    pose proof (filter_length_le
                  (fun r => value_eqb (Train.trip_headsign r) h) cands).
    lia. }
  rewrite head_firstn, firstn_all2 in E by (auto; lia).
  assert (Hk : In x (kept n cands)).
  { rewrite <- E in Hs. apply group_In in Hs. tauto. }
  change (Departure.mk _ _ _ _ _ _) with (departure_of x).
  apply in_map. eapply Permutation_in; [apply sort_permutes|exact Hk].
Qed.

(** X13: the table has at most [num_trains_per_route] rows for each
    distinct headsign of [trips.txt]. *)
Theorem table_length_bound (w : World) (station_name : string) (n : Z)
        (extract_path : string) stops stop_times trips calendar
        (rows : list Departure.t) :
  loaded w extract_path stops stop_times trips calendar ->
  (0 <= n)%Z ->
  In (Table rows) (emitted w (query station_name n extract_path w)) ->
  length rows <=
  Z.to_nat n * length (nodup value_eq_dec (map Trip.trip_headsign trips)).
Proof.
  intros Hl Hn Hin.
  destruct (@emitted_table to_time sort_values_arrival_time
                           _ _ _ _ _ _ _ _ _ Hl Hin) as (_ & _ & ->).
  rewrite length_map, <- (Permutation_length (sort_permutes _)).
  set (cands := candidates _ _ _ _ _ _).
  unfold kept, groupby_apply.
  etransitivity.
  - apply flat_map_length_le. intros k. rewrite head_firstn by exact Hn.
    apply firstn_le_length.
  - apply Nat.mul_le_mono_l.
    rewrite (group_keys_length (Permutation_sym
               (sort_stable_perm headsign_arrival_leb cands))).
    apply NoDup_incl_length; [apply group_keys_NoDup|].
    intros h Hh. apply group_keys_In in Hh. destruct Hh as [Hh _].
    apply nodup_In.
    apply in_map_iff in Hh. destruct Hh as (x & <- & Hx).
    unfold cands, candidates, in_service in Hx. apply filter_In in Hx.
    destruct Hx as [Hx _]. apply merge_In in Hx.
    destruct Hx as (l & trip & _ & Htrip & _ & ->).
    cbn. now apply in_map.
Qed.

(** X14: when no two kept rows arrive at the same time, the printed
    order is fixed: every sort that orders and rearranges its input,
    stable or not, prints the rows as the stable sort would. *)
Theorem distinct_times_fix_order (w : World) (station_name : string)
        (n : Z) (extract_path : string) stops stop_times trips calendar
        (rows : list Departure.t) :
  loaded w extract_path stops stop_times trips calendar ->
  In (Table rows) (emitted w (query station_name n extract_path w)) ->
  NoDup (map Train.arrival_time
             (kept n (candidates to_time
                        (station_stop_ids_of stops station_name)
                        (clock w) stop_times trips calendar))) ->
  rows = map departure_of
             (sort_stable arrival_leb
                (kept n (candidates to_time
                           (station_stop_ids_of stops station_name)
                           (clock w) stop_times trips calendar))).
Proof.
  intros Hl Hin Hnd.
  destruct (@emitted_table to_time sort_values_arrival_time
                           _ _ _ _ _ _ _ _ _ Hl Hin) as (_ & _ & ->).
  set (k := kept _ _) in *. f_equal.
  apply (sorted_perm_unique arrival_leb).
  - intros a b Ha Hb Hab Hba.
    apply (@NoDup_map_eq _ _ Train.arrival_time k a b Hnd).
    + eapply Permutation_in; [symmetry; apply sort_permutes|exact Ha].
    + eapply Permutation_in; [symmetry; apply sort_permutes|exact Hb].
    + now apply time_leb_antisym.
  - apply sort_orders.
  - apply (sort_stable_sorted _ arrival_leb_total arrival_leb_trans).
  - etransitivity; [symmetry; apply sort_permutes|].
    apply sort_stable_perm.
Qed.

End MoreQueryFacts.

(** ** The query at worked inputs *)

(** A trip without headsign: the 08:00:00 departure of T1 is a candidate
    and is not printed, however many rows are asked for. *)
Example scenario_unsigned :
  emitted unsigned_world
          (get_next_train hms sort_arrival_default "A" 5 extract_path
                          unsigned_world) =
  [StationFound "A" [Text "S1"; Text "S2"]; NextTrains "A";
   Table [south_0805]] /\
  map Train.trip_id
      (candidates hms (station_stop_ids_of ex_stops "A")
                  (clock unsigned_world) ex_stop_times unsigned_trips
                  ex_calendar) = [Text "T1"; Text "T2"].
Proof. split; vm_compute; reflexivity. Qed.

Lemma query_without_file_witness :
  let r := get_next_train hms sort_arrival_default "A" 1 extract_path
                          fresh_world in
  raised r = Some (FileNotFoundError (path_join extract_path "stops.txt")) /\
  emitted fresh_world r = [] /\
  dirs (final r) = dirs fresh_world /\
  archives (final r) = archives fresh_world.
Proof.
  apply (@query_without_file hms sort_arrival_default fresh_world "A" 1%Z
                             extract_path "stops.txt").
  reflexivity.
Defined.

Lemma keys_of_two_kinds_raise_witness :
  raised (get_next_train hms sort_arrival_default "A" 1 extract_path
                         numbered_world) = Some ValueError /\
  emitted numbered_world
          (get_next_train hms sort_arrival_default "A" 1 extract_path
                          numbered_world) = [].
Proof.
  apply (@keys_of_two_kinds_raise hms sort_arrival_default numbered_world
           "A" 1%Z extract_path ex_stops numbered_stop_times ex_trips
           ex_calendar
           (StopTime.mk (Num 1) (Text "08:00:00") "08:00:30" "S1")
           (mk_time 8 0 0 0) (Trip.mk "R1" "Svc1" "T1" "North")
           (loaded_world_of _ _ _ _ _)).
  - now left.
  - vm_compute. auto.
  - reflexivity.
  - reflexivity.
  - now left.
  - right. split; [|reflexivity]. intros x [<-|[]]. reflexivity.
Defined.

Lemma unparsed_row_dropped_witness :
  let w := world_of ex_stops (ex_stop_times ++ [late_row]) ex_trips
                    ex_calendar (wednesday_at 7 0 0) in
  hms "25:30:00" = None /\
  succeeded (get_next_train hms sort_arrival_default "A" 2 extract_path
                            (with_stop_times w extract_path
                                             (ex_stop_times ++ [])))
  = true /\
  emitted w (get_next_train hms sort_arrival_default "A" 2 extract_path w) =
  emitted (with_stop_times w extract_path (ex_stop_times ++ []))
          (get_next_train hms sort_arrival_default "A" 2 extract_path
                          (with_stop_times w extract_path
                                           (ex_stop_times ++ []))).
Proof.
  cbv zeta. split; [reflexivity|].
  apply (@unparsed_row_dropped hms sort_arrival_default
           (world_of ex_stops (ex_stop_times ++ [late_row]) ex_trips
                     ex_calendar (wednesday_at 7 0 0))
           "A" 2%Z extract_path ex_stops ex_trips ex_calendar
           ex_stop_times [] late_row (loaded_world_of _ _ _ _ _));
    vm_compute; reflexivity.
Defined.

Lemma negative_count_drops_last_witness :
  let stop_times := ex_stop_times ++
                    [StopTime.mk "T4" (Text "08:02:00") "08:02:30" "S1"] in
  let w := world_of ex_stops stop_times ex_trips ex_calendar
                    (wednesday_at 7 0 0) in
  let cands := candidates hms (station_stop_ids_of ex_stops "A") (clock w)
                          stop_times ex_trips ex_calendar in
  map Train.trip_id (group "North" cands) = [Text "T1"; Text "T4"] /\
  group "North" (kept (-1) cands) =
  firstn 1 (sort_stable arrival_leb (group "North" cands)) /\
  group "South" (kept (-1) cands) = [].
Proof.
  cbv zeta. split; [vm_compute; reflexivity|].
  pose proof
       (@negative_count_drops_last hms sort_arrival_default
          (world_of ex_stops
                    (ex_stop_times ++
                     [StopTime.mk "T4" (Text "08:02:00") "08:02:30" "S1"])
                    ex_trips ex_calendar (wednesday_at 7 0 0))
          "A" (-1)%Z extract_path ex_stops
          (ex_stop_times ++
           [StopTime.mk "T4" (Text "08:02:00") "08:02:30" "S1"])
          ex_trips ex_calendar (loaded_world_of _ _ _ _ _)
          ltac:(lia)) as (_ & _ & H).
  split.
  - exact (proj1 (H (Text "North") ltac:(discriminate))).
  - apply (proj2 (H (Text "South") ltac:(discriminate))). vm_compute. lia.
Defined.

Lemma printed_rows_come_from_files_witness :
  (exists s, In s ex_stops /\ Stop.stop_name s = Text "A" /\
             Stop.stop_id s = Text "S1") /\
  (exists r text,
      In r ex_stop_times /\
      StopTime.stop_id r = Text "S1" /\
      StopTime.trip_id r = Text "T1" /\
      StopTime.departure_time r = Text "08:00:30" /\
      StopTime.arrival_time r = Text text /\
      hms text = Some (mk_time 8 0 0 0)) /\
  (exists trip, In trip ex_trips /\
                Trip.trip_id trip = Text "T1" /\
                Trip.route_id trip = Text "R1" /\
                Trip.trip_headsign trip = Text "North").
Proof.
  apply (@printed_rows_come_from_files hms sort_arrival_default
           sort_arrival_default_keeps ex_world "A" 1%Z extract_path
           ex_stops ex_stop_times ex_trips ex_calendar
           [north_0800; south_0805] north_0800 ex_world_loaded).
  - vm_compute. auto.
  - now left.
Defined.

Lemma printed_rows_have_headsign_witness :
  Departure.trip_headsign south_0805 <> NaN.
Proof.
  apply (@printed_rows_have_headsign hms sort_arrival_default
           sort_arrival_default_keeps unsigned_world "A" 5%Z extract_path
           ex_stops ex_stop_times unsigned_trips ex_calendar
           [south_0805] south_0805 (loaded_world_of _ _ _ _ _)).
  - vm_compute. auto.
  - now left.
Defined.

Lemma soonest_per_headsign_witness :
  exists d,
    In d [north_0800; south_0805] /\
    Departure.trip_headsign d = Text "North" /\
    time_leb (Departure.arrival_time d) (mk_time 8 0 0 0) = true.
Proof.
  apply (@soonest_per_headsign hms sort_arrival_stable
           sort_arrival_stable_permutes ex_world "A" 1%Z extract_path
           ex_stops ex_stop_times ex_trips ex_calendar
           (StopTime.mk "T1" (Text "08:00:00") "08:00:30" "S1")
           (mk_time 8 0 0 0)
           (Trip.mk "R1" "Svc1" "T1" "North")
           (Calendar.mk "Svc1" (Num 1) (Num 1) (Num 1) (Num 1) (Num 1)
                        (Num 0) (Num 0))
           [north_0800; south_0805] ex_world_loaded);
    try reflexivity; try lia; try discriminate; vm_compute; auto.
Defined.

Lemma all_printed_when_room_witness :
  In south_0805 [north_0800; south_0805].
Proof.
  apply (@all_printed_when_room hms sort_arrival_stable
           sort_arrival_stable_permutes ex_world "A" 2%Z extract_path
           ex_stops ex_stop_times ex_trips ex_calendar
           (StopTime.mk "T2" (Text "08:05:00") "08:05:30" "S2")
           (mk_time 8 5 0 0)
           (Trip.mk "R1" "Svc1" "T2" "South")
           (Calendar.mk "Svc1" (Num 1) (Num 1) (Num 1) (Num 1) (Num 1)
                        (Num 0) (Num 0))
           [north_0800; south_0805] ex_world_loaded);
    try reflexivity; try discriminate; try (vm_compute; lia);
    vm_compute; auto.
Defined.

Lemma table_length_bound_witness :
  length [north_0800; south_0805] <=
  1 * length (nodup value_eq_dec (map Trip.trip_headsign ex_trips)).
Proof.
  apply (@table_length_bound hms sort_arrival_stable
           sort_arrival_stable_permutes ex_world "A" 1%Z extract_path
           ex_stops ex_stop_times ex_trips ex_calendar
           [north_0800; south_0805] ex_world_loaded).
  - lia.
  - vm_compute. auto.
Defined.

Lemma distinct_times_fix_order_witness :
  [north_0800; south_0805] =
  map departure_of
      (sort_stable arrival_leb
         (kept 1 (candidates hms (station_stop_ids_of ex_stops "A")
                             (clock ex_world) ex_stop_times ex_trips
                             ex_calendar))).
Proof.
  apply (@distinct_times_fix_order hms sort_arrival_stable
           sort_arrival_stable_permutes sort_arrival_stable_orders
           ex_world "A" 1%Z extract_path ex_stops ex_stop_times ex_trips
           ex_calendar [north_0800; south_0805] ex_world_loaded).
  - vm_compute. auto.
  - vm_compute. repeat constructor; simpl; intuition discriminate.
Defined.
